(** * Google Chat takeout loader: the sliding-window thread chunker

    A shallow embedding of [GoogleChatDirectoryLoader] (gchat.py): the
    date conversion [datetime_to_epoch], the roster lookup
    [get_space_name], the two chunkers [process_spaces] and [process_dms]
    and the folder walk [load], followed by the properties of the
    specification and further properties of the code.

    Modelling conventions.
    - Python exceptions are explicit: a computation returns [Ok v] or
      [Raise e]; [try ... except ValueError] is a match on the result.
    - Python [str] values are [string]s: sequences of code points below 256
      (Latin-1); [str.isspace], the regex classes and case folding are
      those of Python on that range.
    - Python [int] values are [Z]; lists are [list], indexed by [Z] with
      Python's negative-index rule and [IndexError] out of range.
    - The functions are embedded twice.  First on typed input, as the
      export writes it: a message is a record of optional strings and an
      optional creator (each read with [dict.get] and a default), a roster
      entry has a mandatory ['group_id'] (read with [item['group_id']]) and
      an optional ['group_name'].  Then, in module [Raw], on what
      [json.load] returns, a JSON value of any shape, and on files that may
      not be readable, with the exceptions Python's operations raise on
      values of another type.  The two agree on exports of the expected
      types.
    - [datetime.strptime] is modelled after CPython 3.11's [_strptime] in
      the C locale: the format is compiled to a regular expression, matched by
      backtracking with ordered alternatives, and the captured groups are
      converted to calendar fields. *)

From Stdlib Require Import ZArith List String Ascii Bool Lia.
From Stdlib Require Import DecimalString.
Import ListNotations.

Local Open Scope string_scope.
Local Open Scope Z_scope.

(** ** Exceptions *)

Inductive exn : Set :=
| ValueError | IndexError | AttributeError | KeyError | TypeError | OSError.

Inductive outcome (A : Type) : Type :=
| Ok (a : A)
| Raise (e : exn).

Arguments Ok {A} a.
Arguments Raise {A} e.

Definition bind {A B : Type} (m : outcome A) (k : A -> outcome B) : outcome B :=
  match m with
  | Ok a => k a
  | Raise e => Raise e
  end.

Notation "x <- m ;; k" := (bind m (fun x => k))
  (at level 61, m at next level, right associativity).

(** [for x in xs: body] where the body updates the loop state. *)
Fixpoint for_loop {A S : Type} (xs : list A) (body : S -> A -> outcome S)
  (s : S) : outcome S :=
  match xs with
  | [] => Ok s
  | x :: xs' => s' <- body s x ;; for_loop xs' body s'
  end.

(** ** Python lists and ranges *)

Definition len {A : Type} (l : list A) : Z := Z.of_nat (List.length l).

(** [l[i]]: a negative index counts from the end. *)
Definition getitem {A : Type} (l : list A) (i : Z) : outcome A :=
  let k := if i <? 0 then i + len l else i in
  if k <? 0 then Raise IndexError
  else match nth_error l (Z.to_nat k) with
       | Some x => Ok x
       | None => Raise IndexError
       end.

(** [dict.get(key, default)] on a field that may be absent. *)
Definition get {A : Type} (field : option A) (default : A) : A :=
  match field with
  | Some v => v
  | None => default
  end.

(** [range(start, stop, step)] for a positive step, as the iteration
    [i = start; while i < stop: yield i; i += step].  Each round advances by
    at least one, so [stop - start] rounds are enough. *)
Fixpoint range_loop (fuel : nat) (i stop step : Z) : list Z :=
  match fuel with
  | O => []
  | S fuel' =>
      if i <? stop then i :: range_loop fuel' (i + step) stop step else []
  end.

Definition range (start stop step : Z) : list Z :=
  range_loop (Z.to_nat (stop - start)) start stop step.

(** ** Python strings *)

Definition chr (n : nat) : ascii := ascii_of_nat n.
Definition ord (c : ascii) : nat := nat_of_ascii c.

Definition between (lo hi : nat) (c : ascii) : bool :=
  (Nat.leb lo (ord c) && Nat.leb (ord c) hi)%bool.

(** [str.isspace] and the regex class [\s] on code points below 256. *)
Definition isspace (c : ascii) : bool :=
  (between 9 13 c || between 28 32 c
   || Nat.eqb (ord c) 133 || Nat.eqb (ord c) 160)%bool.

(** The regex class [\d] on code points below 256. *)
Definition isdigit (c : ascii) : bool := between 48 57 c.

Definition lower_char (c : ascii) : ascii :=
  if between 65 90 c then chr (ord c + 32) else c.

Fixpoint lower (s : string) : string :=
  match s with
  | EmptyString => EmptyString
  | String c s' => String (lower_char c) (lower s')
  end.

Definition newline : string := String (chr 10) EmptyString.

(** [s.startswith(p)] *)
Fixpoint startswith (p s : string) : bool :=
  match p, s with
  | EmptyString, _ => true
  | String _ _, EmptyString => false
  | String a p', String b s' => (Ascii.eqb a b && startswith p' s')%bool
  end.

(** [s.replace(old, new)] for a non-empty [old]: occurrences are replaced
    from left to right without overlap.  [skip] counts the characters of an
    occurrence that are still to be dropped. *)
Fixpoint replace_from (skip : nat) (old new s : string) : string :=
  match s with
  | EmptyString => EmptyString
  | String c s' =>
      match skip with
      | S k => replace_from k old new s'
      | O =>
          if startswith old s
          then new ++ replace_from (String.length old - 1) old new s'
          else String c (replace_from O old new s')
      end
  end.

Definition replace (old new s : string) : string := replace_from O old new s.

Fixpoint lstrip (s : string) : string :=
  match s with
  | EmptyString => EmptyString
  | String c s' => if isspace c then lstrip s' else s
  end.

Fixpoint rstrip (s : string) : string :=
  match s with
  | EmptyString => EmptyString
  | String c s' =>
      match rstrip s' with
      | EmptyString => if isspace c then EmptyString else String c EmptyString
      | r => String c r
      end
  end.

Definition strip (s : string) : string := rstrip (lstrip s).

(** [sep.join(parts)] *)
Definition join (sep : string) (parts : list string) : string :=
  String.concat sep parts.

(** [s.split(sep)] for a one-character separator: [cur] holds the piece
    being read. *)
Fixpoint split_from (sep : ascii) (cur : string) (s : string) : list string :=
  match s with
  | EmptyString => [cur]
  | String c s' =>
      if Ascii.eqb c sep then cur :: split_from sep EmptyString s'
      else split_from sep (cur ++ String c EmptyString) s'
  end.

Definition split (sep : ascii) (s : string) : list string :=
  split_from sep EmptyString s.

(** [needle in hay] on strings: substring test. *)
Fixpoint contains (needle hay : string) : bool :=
  (startswith needle hay
   || match hay with
      | EmptyString => false
      | String _ hay' => contains needle hay'
      end)%bool.

(** [l.index(x)] on a list of strings; [ValueError] when [x] is missing. *)
Fixpoint index_of (x : string) (l : list string) : outcome Z :=
  match l with
  | [] => Raise ValueError
  | y :: l' =>
      if (x =? y)%string then Ok 0 else k <- index_of x l' ;; Ok (k + 1)
  end.

(** [x not in l] on a list of strings. *)
Definition not_in (x : string) (l : list string) : bool :=
  negb (existsb (String.eqb x) l).

(** [int(s)] on the strings the date patterns capture: decimal digits,
    possibly surrounded by blanks. *)
Fixpoint int_digits (acc : Z) (s : string) : outcome Z :=
  match s with
  | EmptyString => Ok acc
  | String c s' =>
      if isdigit c then int_digits (10 * acc + Z.of_nat (ord c - 48)) s'
      else Raise ValueError
  end.

Definition int (s : string) : outcome Z :=
  match strip s with
  | EmptyString => Raise ValueError
  | t => int_digits 0 t
  end.

(** ** Regular expressions of the date patterns

    The fragment of Python's [re] that [_strptime] produces: literals
    compared without case (the pattern is compiled with [IGNORECASE]),
    character classes, concatenation, ordered alternatives, a greedy [+] on
    a class, and named groups. *)

Inductive regex : Type :=
| Eps
| Lit (c : ascii)
| Class (p : ascii -> bool)
| Plus (p : ascii -> bool)
| Cat (r1 r2 : regex)
| Alt (r1 r2 : regex)
| Group (name : ascii) (r : regex).

(** A way of matching: the text consumed, the groups captured, what is left. *)
Record matched : Type := mk_matched {
  consumed : string;
  groups : list (ascii * string);
  rest : string
}.

(** All the ways [p+] matches at the start of [s], longest first. *)
Fixpoint plus_matches (p : ascii -> bool) (s : string) : list matched :=
  match s with
  | EmptyString => []
  | String c s' =>
      if p c
      then (map (fun m => mk_matched (String c (consumed m)) [] (rest m))
                (plus_matches p s')
            ++ [mk_matched (String c EmptyString) [] s'])%list
      else []
  end.

(** All the ways [r] matches at the start of [s], in the order a
    backtracking matcher tries them. *)
Fixpoint matches (r : regex) (s : string) : list matched :=
  match r with
  | Eps => [mk_matched EmptyString [] s]
  | Lit c =>
      match s with
      | String c' s' =>
          if Ascii.eqb (lower_char c') (lower_char c)
          then [mk_matched (String c' EmptyString) [] s'] else []
      | EmptyString => []
      end
  | Class p =>
      match s with
      | String c' s' =>
          if p c' then [mk_matched (String c' EmptyString) [] s'] else []
      | EmptyString => []
      end
  | Plus p => plus_matches p s
  | Cat r1 r2 =>
      flat_map (fun m1 =>
        map (fun m2 => mk_matched (consumed m1 ++ consumed m2)
                                  (groups m1 ++ groups m2)%list (rest m2))
            (matches r2 (rest m1)))
        (matches r1 s)
  | Alt r1 r2 => (matches r1 s ++ matches r2 s)%list
  | Group name r =>
      map (fun m => mk_matched (consumed m) ((name, consumed m) :: groups m)
                               (rest m))
          (matches r s)
  end.

(** [re.match]: the first way of matching, if any. *)
Definition re_match (r : regex) (s : string) : option matched :=
  hd_error (matches r s).

Fixpoint cat_all (rs : list regex) : regex :=
  match rs with
  | [] => Eps
  | [r] => r
  | r :: rs' => Cat r (cat_all rs')
  end.

Fixpoint alt_all (rs : list regex) : regex :=
  match rs with
  | [] => Eps
  | [r] => r
  | r :: rs' => Alt r (alt_all rs')
  end.

Fixpoint word (s : string) : list regex :=
  match s with
  | EmptyString => []
  | String c s' => Lit c :: word s'
  end.

(** ** [_strptime]: from a format to a regex (class [TimeRE]) *)

Definition f_weekday : list string :=
  ["monday"; "tuesday"; "wednesday"; "thursday"; "friday"; "saturday";
   "sunday"].

Definition f_month : list string :=
  [EmptyString; "january"; "february"; "march"; "april"; "may"; "june"; "july";
   "august"; "september"; "october"; "november"; "december"].

Definition am_pm : list string := ["am"; "pm"].

(** [sorted(values, key=len, reverse=True)]: stable, longest first. *)
Fixpoint insert_by_len (x : string) (l : list string) : list string :=
  match l with
  | [] => [x]
  | y :: l' =>
      if Nat.leb (String.length y) (String.length x) then x :: l
      else y :: insert_by_len x l'
  end.

Definition sorted_by_len (l : list string) : list string :=
  fold_right insert_by_len [] l.

(** [__seqToRE]: a group of alternatives, longest value first. *)
Definition seqToRE (values : list string) (name : ascii) : regex :=
  Group name
    (alt_all (map (fun v => cat_all (word v)) (sorted_by_len values))).

Definition digit : regex := Class isdigit.
Definition digits (lo hi : nat) : regex := Class (between (48 + lo) (48 + hi)).

(** The directives of the chat export's date format, with the regexes of
    [TimeRE.__init__]; any other directive is refused. *)
Definition directive (d : ascii) : option regex :=
  if Ascii.eqb d "d" then
    Some (Group "d" (alt_all [Cat (Lit "3") (digits 0 1);
                              Cat (digits 1 2) digit;
                              Cat (Lit "0") (digits 1 9);
                              digits 1 9;
                              Cat (Lit " ") (digits 1 9)]))
  else if Ascii.eqb d "I" then
    Some (Group "I" (alt_all [Cat (Lit "1") (digits 0 2);
                              Cat (Lit "0") (digits 1 9);
                              digits 1 9]))
  else if Ascii.eqb d "M" then
    Some (Group "M" (alt_all [Cat (digits 0 5) digit; digit]))
  else if Ascii.eqb d "S" then
    Some (Group "S" (alt_all [Cat (Lit "6") (digits 0 1);
                              Cat (digits 0 5) digit;
                              digit]))
  else if Ascii.eqb d "Y" then
    Some (Group "Y" (cat_all [digit; digit; digit; digit]))
  else if Ascii.eqb d "A" then Some (seqToRE f_weekday "A")
  else if Ascii.eqb d "B" then Some (seqToRE (tl f_month) "B")
  else if Ascii.eqb d "p" then Some (seqToRE am_pm "p")
  else if Ascii.eqb d "%" then Some (Lit "%")
  else None.

(** [TimeRE.pattern]: a run of blanks in the format becomes [\s+], a
    directive its regex, any other character a literal.  [in_blank] tells
    that the previous character was a blank of the current run. *)
Fixpoint pattern_from (in_blank : bool) (format : string)
  : outcome (list regex) :=
  match format with
  | EmptyString => Ok []
  | String c f' =>
      if isspace c then
        if in_blank then pattern_from true f'
        else rs <- pattern_from true f' ;; Ok (Plus isspace :: rs)
      else if Ascii.eqb c "%" then
        match f' with
        | EmptyString => Raise ValueError
        | String d f'' =>
            match directive d with
            | Some r => rs <- pattern_from false f'' ;; Ok (r :: rs)
            | None => Raise ValueError
            end
        end
      else rs <- pattern_from false f' ;; Ok (Lit c :: rs)
  end.

Definition pattern (format : string) : outcome regex :=
  rs <- pattern_from false format ;; Ok (cat_all rs).

(** ** [datetime]: calendar arithmetic *)

Definition is_leap (year : Z) : bool :=
  ((year mod 4 =? 0) && (negb (year mod 100 =? 0) || (year mod 400 =? 0)))%bool.

Definition days_before_year (year : Z) : Z :=
  let y := year - 1 in y * 365 + y / 4 - y / 100 + y / 400.

Definition DAYS_IN_MONTH : list Z :=
  [-1; 31; 28; 31; 30; 31; 30; 31; 31; 30; 31; 30; 31].

Definition DAYS_BEFORE_MONTH : list Z :=
  [-1; 0; 31; 59; 90; 120; 151; 181; 212; 243; 273; 304; 334].

Definition days_in_month (year month : Z) : Z :=
  if ((month =? 2) && is_leap year)%bool then 29
  else nth (Z.to_nat month) DAYS_IN_MONTH 0.

Definition days_before_month (year month : Z) : Z :=
  nth (Z.to_nat month) DAYS_BEFORE_MONTH 0
  + (if ((2 <? month) && is_leap year)%bool then 1 else 0).

Definition ymd2ord (year month day : Z) : Z :=
  days_before_year year + days_before_month year month + day.

(** [_check_date_fields] *)
Definition check_date_fields (year month day : Z) : outcome unit :=
  if negb ((1 <=? year) && (year <=? 9999))%bool then Raise ValueError
  else if negb ((1 <=? month) && (month <=? 12))%bool then Raise ValueError
  else if negb ((1 <=? day) && (day <=? days_in_month year month))%bool
       then Raise ValueError
  else Ok tt.

(** [_check_time_fields] *)
Definition check_time_fields (hour minute second : Z) : outcome unit :=
  if negb ((0 <=? hour) && (hour <=? 23))%bool then Raise ValueError
  else if negb ((0 <=? minute) && (minute <=? 59))%bool then Raise ValueError
  else if negb ((0 <=? second) && (second <=? 59))%bool then Raise ValueError
  else Ok tt.

(** A naive [datetime] (no time zone). *)
Record datetime : Set := mk_datetime {
  dt_year : Z; dt_month : Z; dt_day : Z;
  dt_hour : Z; dt_minute : Z; dt_second : Z
}.

(** [datetime(year, month, day, hour, minute, second)] *)
Definition new_datetime (year month day hour minute second : Z)
  : outcome datetime :=
  _ <- check_date_fields year month day ;;
  _ <- check_time_fields hour minute second ;;
  Ok (mk_datetime year month day hour minute second).

(** [date(year, month, day).toordinal()] *)
Definition date_toordinal (year month day : Z) : outcome Z :=
  _ <- check_date_fields year month day ;;
  Ok (ymd2ord year month day).

(** An aware [datetime]: the wall clock and the offset of its zone from UTC,
    in seconds. *)
Record aware_datetime : Set := mk_aware {
  wall : datetime;
  utcoffset : Z
}.

(** [dt.replace(tzinfo=pytz.utc)] *)
Definition replace_tzinfo_utc (dt : datetime) : aware_datetime :=
  mk_aware dt 0.

(** [int(dt.timestamp())] for an aware [dt]: the seconds between [dt] and
    1970-01-01T00:00:00 UTC (ordinal 719163).  The value is a whole number
    below 2^53 in size, so the float of [timestamp()] is exact. *)
Definition timestamp (dt : aware_datetime) : Z :=
  let w := wall dt in
  (ymd2ord (dt_year w) (dt_month w) (dt_day w) - 719163) * 86400
  + dt_hour w * 3600 + dt_minute w * 60 + dt_second w - utcoffset dt.

(** ** [_strptime]: from the captured groups to a [datetime] *)

Record fields : Set := mk_fields {
  f_year : option Z; f_mon : Z; f_day : Z;
  f_hour : Z; f_minute : Z; f_second : Z;
  f_wday : option Z
}.

Definition initial_fields : fields := mk_fields None 1 1 0 0 0 None.

Fixpoint lookup (key : ascii) (d : list (ascii * string)) : option string :=
  match d with
  | [] => None
  | (k, v) :: d' => if Ascii.eqb k key then Some v else lookup key d'
  end.

(** One round of [for group_key in found_dict.keys()]. *)
Definition convert_group (found_dict : list (ascii * string)) (st : fields)
  (entry : ascii * string) : outcome fields :=
  let (group_key, value) := entry in
  let '(mk_fields year month day hour minute second weekday) := st in
  if Ascii.eqb group_key "Y" then
    y <- int value ;;
    Ok (mk_fields (Some y) month day hour minute second weekday)
  else if Ascii.eqb group_key "B" then
    m <- index_of (lower value) f_month ;;
    Ok (mk_fields year m day hour minute second weekday)
  else if Ascii.eqb group_key "d" then
    d <- int value ;; Ok (mk_fields year month d hour minute second weekday)
  else if Ascii.eqb group_key "I" then
    h <- int value ;;
    let ampm := lower (get (lookup "p" found_dict) EmptyString) in
    let h' :=
      if ((ampm =? EmptyString)%string
          || (ampm =? nth 0 am_pm EmptyString)%string)%bool
      then (if h =? 12 then 0 else h)
      else if (ampm =? nth 1 am_pm EmptyString)%string
           then (if negb (h =? 12) then h + 12 else h)
           else h in
    Ok (mk_fields year month day h' minute second weekday)
  else if Ascii.eqb group_key "M" then
    m <- int value ;; Ok (mk_fields year month day hour m second weekday)
  else if Ascii.eqb group_key "S" then
    sec <- int value ;; Ok (mk_fields year month day hour minute sec weekday)
  else if Ascii.eqb group_key "A" then
    w <- index_of (lower value) f_weekday ;;
    Ok (mk_fields year month day hour minute second (Some w))
  else Ok st.

(** [datetime.strptime(data_string, format)] *)
Definition strptime (data_string format : string) : outcome datetime :=
  format_regex <- pattern format ;;
  match re_match format_regex data_string with
  | None => Raise ValueError
  | Some found =>
      (* [len(data_string) != found.end()]: unconverted data remains *)
      if negb (rest found =? EmptyString)%string then Raise ValueError
      else
        let found_dict := groups found in
        st <- for_loop found_dict (convert_group found_dict) initial_fields ;;
        let '(mk_fields year month day hour minute second weekday) := st in
        let leap_year_fix :=
          match year with
          | None => ((month =? 2) && (day =? 29))%bool
          | Some _ => false
          end in
        let year' :=
          match year with
          | None => if leap_year_fix then 1904 else 1900
          | Some y => y
          end in
        (* julian and, when absent, the weekday are computed from the date *)
        o <- date_toordinal year' month day ;;
        o1 <- date_toordinal year' 1 1 ;;
        let julian := o - o1 + 1 in
        let year'' := if leap_year_fix then 1900 else year' in
        new_datetime year'' month day hour minute second
  end.

(** ** The loader *)

(** [datetime_to_epoch]: [None] stands for Python's [None]. *)
Definition datetime_to_epoch (datetime_str : string) : outcome (option Z) :=
  if (datetime_str =? "Unknown Date")%string then Ok None
  else
    let datetime_format := "%A, %B %d, %Y at %I:%M:%S %p %Z" in
    match
      (datetime_obj <-
         strptime (strip (replace "UTC" EmptyString datetime_str))
                  (strip (replace "%Z" EmptyString datetime_format)) ;;
       let datetime_obj_utc := replace_tzinfo_utc datetime_obj in
       let epoch_time := timestamp datetime_obj_utc in
       Ok (Some epoch_time))
    with
    | Raise ValueError => Ok None
    | r => r
    end.

(** *** The parsed JSON inputs *)

Module Creator.
Record t : Set := mk { name : option string }.
(** The default [{}] of [message.get('creator', {})]. *)
Definition empty : t := mk None.
End Creator.

Module Message.
Record t : Set := mk {
  creator : option Creator.t;
  text : option string;
  created_date : option string;
  message_id : option string
}.
End Message.

(** An entry of [user_info_data['membership_info']]; an absent
    ['group_name'] and a null one are both [None]. *)
Module Membership.
Record t : Set := mk {
  group_id : string;
  group_name : option string
}.
End Membership.

(** *** The documents *)

(** The ['name'] entry is a string for a space and a list for a DM. *)
Inductive name_value : Set :=
| NameStr (s : string)
| NameList (l : list string).

Module Metadata.
Record t : Set := mk {
  source : string;
  type : string;
  name : name_value;
  message_id : string;
  date : string;
  unix_time : option Z;
  url : string
}.
End Metadata.

Module Document.
Record t : Set := mk {
  metadata : Metadata.t;
  text : string
}.
End Document.

(** *** [get_space_name] *)

(** The [for item in membership_info] loop with its early [return]. *)
Fixpoint find_group_name (group_id_part : string)
  (membership_info : list Membership.t) : string :=
  match membership_info with
  | [] => "Unknown Space"
  | item :: items =>
      if contains group_id_part (Membership.group_id item) then
        match Membership.group_name item with
        | Some group_name => group_name
        | None => find_group_name group_id_part items
        end
      else find_group_name group_id_part items
  end.

Definition get_space_name (membership_info : list Membership.t)
  (message_id : string) : outcome string :=
  group_id_part <- getitem (split "/" message_id) 0 ;;
  Ok (find_group_name group_id_part membership_info).

(** *** [process_spaces] *)

Definition process_spaces (messages : list Message.t)
  (membership_info : list Membership.t) : outcome (list Document.t) :=
  space_name <-
    match messages with
    | _ :: _ =>
        first <- getitem messages 0 ;;
        get_space_name membership_info
          (get (Message.message_id first) EmptyString)
    | [] => Ok "Unknown Space"
    end ;;
  for_loop (range 10 (len messages) 19)
    (fun result i =>
       middlemessage <- getitem messages i ;;
       startmessage <- getitem messages (i - 10) ;;
       unix_time <-
         datetime_to_epoch
           (get (Message.created_date middlemessage) "Unknown Date") ;;
       let metadata :=
         {| Metadata.source := "chats";
            Metadata.type := "space";
            Metadata.name := NameStr space_name;
            Metadata.message_id :=
              get (Message.message_id startmessage) "Unknown ID";
            Metadata.date :=
              get (Message.created_date middlemessage) "Unknown Date";
            Metadata.unix_time := unix_time;
            Metadata.url :=
              "https://chat.google.com/room/"
              ++ get (Message.message_id startmessage) EmptyString |} in
       text_parts <-
         for_loop (range (Z.max 0 (i - 10)) (Z.min (len messages) (i + 11)) 1)
           (fun text_parts j =>
              j_message <- getitem messages j ;;
              let j_creator := get (Message.creator j_message) Creator.empty in
              let j_name := get (Creator.name j_creator) "Unknown" in
              let j_text := get (Message.text j_message) "No text available" in
              let part := j_name ++ newline ++ j_text ++ newline ++ newline in
              Ok (text_parts ++ [part])%list)
           [] ;;
       let text_str := join EmptyString text_parts in
       Ok (result ++ [ {| Document.metadata := metadata;
                          Document.text := text_str |} ])%list)
    [].

(** *** [process_dms] *)

Definition process_dms (messages : list Message.t)
  : outcome (list Document.t) :=
  unique_names <-
    for_loop messages
      (fun unique_names message =>
         let creator_name :=
           get (Creator.name (get (Message.creator message) Creator.empty))
               "Unknown" in
         if not_in creator_name unique_names
         then Ok (unique_names ++ [creator_name])%list
         else Ok unique_names)
      [] ;;
  for_loop (range 10 (len messages) 19)
    (fun result i =>
       middlemessage <- getitem messages i ;;
       startmessage <- getitem messages (i - 10) ;;
       unix_time <-
         datetime_to_epoch
           (get (Message.created_date middlemessage) "Unknown Date") ;;
       let metadata :=
         {| Metadata.source := "chats";
            Metadata.type := "dm";
            Metadata.name := NameList unique_names;
            Metadata.message_id :=
              get (Message.message_id startmessage) "Unknown ID";
            Metadata.date :=
              get (Message.created_date middlemessage) "Unknown Date";
            Metadata.unix_time := unix_time;
            Metadata.url :=
              "https://chat.google.com/dm/"
              ++ get (Message.message_id startmessage) EmptyString |} in
       text_parts <-
         for_loop (range (Z.max 0 (i - 10)) (Z.min (len messages) (i + 11)) 1)
           (fun text_parts j =>
              j_message <- getitem messages j ;;
              let j_creator := get (Message.creator j_message) Creator.empty in
              let j_name := get (Creator.name j_creator) "Unknown" in
              let j_text := get (Message.text j_message) "No text available" in
              let part := j_name ++ newline ++ j_text ++ newline ++ newline in
              Ok (text_parts ++ [part])%list)
           [] ;;
       let text_str := join EmptyString text_parts in
       Ok (result ++ [ {| Document.metadata := metadata;
                          Document.text := text_str |} ])%list)
    [].

(** ** Vocabulary of the specification *)

(** The block of one message, with the fallbacks for absent fields. *)
Definition creator_name (m : Message.t) : string :=
  match Message.creator m with
  | Some c => match Creator.name c with Some n => n | None => "Unknown" end
  | None => "Unknown"
  end.

Definition message_text (m : Message.t) : string :=
  match Message.text m with
  | Some t => t
  | None => "No text available"
  end.

Definition block (m : Message.t) : string :=
  creator_name m ++ newline ++ message_text m ++ newline ++ newline.

(** The messages at indices [lo .. hi] inclusive, in sequence order. *)
Definition slice {A : Type} (l : list A) (lo hi : Z) : list A :=
  firstn (Z.to_nat (hi - lo + 1)) (skipn (Z.to_nat lo) l).

(** The centre of the [k]-th window. *)
Definition center (k : nat) : Z := 10 + 19 * Z.of_nat k.

(** The document the specification describes for the window centred on [i]:
    identifier and link from the message at [i - 10], date from the message
    at [i], text from the messages at [max(0, i-10) .. min(length-1, i+10)]. *)
Definition spec_document (type : string) (name : name_value)
  (url_prefix : string) (messages : list Message.t) (i : Z)
  (start middle : Message.t) (unix_time : option Z) : Document.t :=
  {| Document.metadata :=
       {| Metadata.source := "chats";
          Metadata.type := type;
          Metadata.name := name;
          Metadata.message_id :=
            match Message.message_id start with
            | Some id => id
            | None => "Unknown ID"
            end;
          Metadata.date :=
            match Message.created_date middle with
            | Some d => d
            | None => "Unknown Date"
            end;
          Metadata.unix_time := unix_time;
          Metadata.url :=
            url_prefix ++ match Message.message_id start with
                          | Some id => id
                          | None => EmptyString
                          end |};
     Document.text :=
       join EmptyString
         (map block (slice messages (Z.max 0 (i - 10))
                                    (Z.min (len messages - 1) (i + 10)))) |}.

(** [d] is the specified document of the window centred on [i]. *)
Definition is_window_document (type : string) (name : name_value)
  (url_prefix : string) (messages : list Message.t) (i : Z) (d : Document.t)
  : Prop :=
  exists start middle unix_time,
    nth_error messages (Z.to_nat (i - 10)) = Some start /\
    nth_error messages (Z.to_nat i) = Some middle /\
    datetime_to_epoch (Metadata.date (Document.metadata d)) = Ok unix_time /\
    d = spec_document type name url_prefix messages i start middle unix_time.

(** The part of [s] before the first [sep]: what [s.split(sep)[0]] is. *)
Fixpoint before (sep : ascii) (s : string) : string :=
  match s with
  | EmptyString => EmptyString
  | String c s' =>
      if Ascii.eqb c sep then EmptyString else String c (before sep s')
  end.

(** A roster entry matches when its ['group_id'] contains the group-id
    part, named or not. *)
Definition id_match (group_id_part : string) (item : Membership.t) : bool :=
  contains group_id_part (Membership.group_id item).

(** A roster entry answers the lookup when its ['group_id'] contains the
    group-id part and it carries a name. *)
Definition named_match (group_id_part : string) (item : Membership.t) : bool :=
  (contains group_id_part (Membership.group_id item)
   && match Membership.group_name item with
      | Some _ => true
      | None => false
      end)%bool.

(** The name the first answering entry gives, by linear search. *)
Definition first_named (group_id_part : string)
  (membership_info : list Membership.t) : string :=
  match find (named_match group_id_part) membership_info with
  | Some item =>
      match Membership.group_name item with
      | Some n => n
      | None => "Unknown Space"
      end
  | None => "Unknown Space"
  end.

(** The space name of a message sequence: looked up under the group-id
    part of the first message's identifier. *)
Definition space_name_of (messages : list Message.t)
  (membership_info : list Membership.t) : string :=
  match messages with
  | [] => "Unknown Space"
  | first :: _ =>
      first_named
        (before "/" (match Message.message_id first with
                     | Some id => id
                     | None => EmptyString
                     end))
        membership_info
  end.

(** The reading under which the first roster entry whose ['group_id']
    matches decides the name, whether it carries one or not. *)
Definition first_match_wins (membership_info : list Membership.t)
  (message_id space_name : string) : Prop :=
  match find (id_match (before "/" message_id)) membership_info with
  | Some item => Membership.group_name item = Some space_name
  | None => space_name = "Unknown Space"
  end.

(** The distinct values of a list, each at its first occurrence. *)
Fixpoint first_seen (names : list string) : list string :=
  match names with
  | [] => []
  | x :: names' =>
      x :: filter (fun y => negb (String.eqb y x)) (first_seen names')
  end.

(** The two chunkers, as [load] tells them apart by the folder's name. *)
Inductive variant : Type :=
| Space (membership_info : list Membership.t)
| DM.

Definition chunk (v : variant) (messages : list Message.t)
  : outcome (list Document.t) :=
  match v with
  | Space membership_info => process_spaces messages membership_info
  | DM => process_dms messages
  end.

(** What differs between the two chunkers' documents. *)
Definition type_of (v : variant) : string :=
  match v with
  | Space _ => "space"
  | DM => "dm"
  end.

Definition url_prefix_of (v : variant) : string :=
  match v with
  | Space _ => "https://chat.google.com/room/"
  | DM => "https://chat.google.com/dm/"
  end.

Definition name_of (v : variant) (messages : list Message.t) : name_value :=
  match v with
  | Space membership_info => NameStr (space_name_of messages membership_info)
  | DM => NameList (first_seen (map creator_name messages))
  end.

(** ** The display format of the export's dates

    [Weekday, Month Day, Year at HH:MM:SS AM/PM]: the year on four digits,
    a twelve-hour clock, minutes and seconds on two digits; the day and the
    hour are written with or without a leading zero. *)

Inductive weekday : Set :=
| Monday | Tuesday | Wednesday | Thursday | Friday | Saturday | Sunday.

Inductive month : Set :=
| January | February | March | April | May | June
| July | August | September | October | November | December.

Definition weekday_name (w : weekday) : string :=
  match w with
  | Monday => "Monday" | Tuesday => "Tuesday" | Wednesday => "Wednesday"
  | Thursday => "Thursday" | Friday => "Friday" | Saturday => "Saturday"
  | Sunday => "Sunday"
  end.

Definition month_name (m : month) : string :=
  match m with
  | January => "January" | February => "February" | March => "March"
  | April => "April" | May => "May" | June => "June" | July => "July"
  | August => "August" | September => "September" | October => "October"
  | November => "November" | December => "December"
  end.

Definition month_number (m : month) : Z :=
  match m with
  | January => 1 | February => 2 | March => 3 | April => 4 | May => 5
  | June => 6 | July => 7 | August => 8 | September => 9 | October => 10
  | November => 11 | December => 12
  end.

Definition digit_char (n : Z) : ascii := chr (48 + Z.to_nat n).

Definition two_digits (n : Z) : string :=
  String (digit_char (n / 10)) (String (digit_char (n mod 10)) EmptyString).

Definition four_digits (n : Z) : string :=
  String (digit_char (n / 1000))
    (String (digit_char (n / 100 mod 10))
       (String (digit_char (n / 10 mod 10))
          (String (digit_char (n mod 10)) EmptyString))).

(** A day or an hour: on two digits when [padded], else without a leading
    zero. *)
Definition number_text (padded : bool) (n : Z) : string :=
  if (padded || negb (n <? 10))%bool then two_digits n
  else String (digit_char n) EmptyString.

Definition am_pm_mark (pm : bool) : string := if pm then "PM" else "AM".

Definition display_date (padded_day padded_hour : bool) (w : weekday)
  (m : month) (day year hour minute second : Z) (pm : bool) : string :=
  weekday_name w ++ ", " ++ month_name m ++ " " ++ number_text padded_day day
  ++ ", " ++ four_digits year ++ " at " ++ number_text padded_hour hour ++ ":"
  ++ two_digits minute ++ ":" ++ two_digits second ++ " " ++ am_pm_mark pm.

(** The hour of the day of a twelve-hour clock reading. *)
Definition hour24 (hour : Z) (pm : bool) : Z :=
  (if hour =? 12 then 0 else hour) + (if pm then 12 else 0).

(** Seconds from 1970-01-01T00:00:00 UTC to the given UTC wall-clock time. *)
Definition utc_seconds (year month day hour minute second : Z) : Z :=
  (ymd2ord year month day - 719163) * 86400
  + hour * 3600 + minute * 60 + second.

(** A string of blanks only (possibly empty). *)
Fixpoint all_blank (s : string) : bool :=
  match s with
  | EmptyString => true
  | String c s' => (isspace c && all_blank s')%bool
  end.

(** ** Auxiliary definitions of the proofs *)

(** The number of values of [range(start, stop, step)]. *)
Definition range_count (start stop step : Z) : nat :=
  Z.to_nat ((stop - start + step - 1) / step).

(** The number of windows of a sequence of [n] messages. *)
Definition windows (n : Z) : nat := range_count 10 n 19.

(** A computation that raises nothing but [ValueError]. *)
Definition only_ValueError {A : Type} (r : outcome A) : Prop :=
  match r with
  | Ok _ => True
  | Raise e => e = ValueError
  end.

(** The body of the inner loop [for j in range(...)], which the two
    chunkers share word for word. *)
Definition text_parts_body (messages : list Message.t)
  (text_parts : list string) (j : Z) : outcome (list string) :=
  j_message <- getitem messages j ;;
  let j_creator := get (Message.creator j_message) Creator.empty in
  let j_name := get (Creator.name j_creator) "Unknown" in
  let j_text := get (Message.text j_message) "No text available" in
  let part := j_name ++ newline ++ j_text ++ newline ++ newline in
  Ok (text_parts ++ [part])%list.

(** The common shape of the two loop bodies over the window centres:
    [process_spaces] and [process_dms] are this body at their own [type],
    [name] and link prefix. *)
Definition window_body (type : string) (name : name_value)
  (url_prefix : string) (messages : list Message.t)
  (result : list Document.t) (i : Z) : outcome (list Document.t) :=
  middlemessage <- getitem messages i ;;
  startmessage <- getitem messages (i - 10) ;;
  unix_time <-
    datetime_to_epoch (get (Message.created_date middlemessage) "Unknown Date") ;;
  let metadata :=
    {| Metadata.source := "chats";
       Metadata.type := type;
       Metadata.name := name;
       Metadata.message_id := get (Message.message_id startmessage) "Unknown ID";
       Metadata.date := get (Message.created_date middlemessage) "Unknown Date";
       Metadata.unix_time := unix_time;
       Metadata.url :=
         url_prefix ++ get (Message.message_id startmessage) EmptyString |} in
  text_parts <-
    for_loop (range (Z.max 0 (i - 10)) (Z.min (len messages) (i + 11)) 1)
      (text_parts_body messages) [] ;;
  let text_str := join EmptyString text_parts in
  Ok (result ++ [ {| Document.metadata := metadata;
                     Document.text := text_str |} ])%list.

(** One round of the loop collecting the creators' names. *)
Definition add_name (unique_names : list string) (creator_name : string)
  : list string :=
  if not_in creator_name unique_names
  then (unique_names ++ [creator_name])%list else unique_names.

(** The format [strptime] is called with: the [%Z] directive removed. *)
Definition parse_format : string :=
  strip (replace "%Z" EmptyString "%A, %B %d, %Y at %I:%M:%S %p %Z").

(** What [strptime] is given for a date string: the literal [UTC] removed. *)
Definition cleaned (datetime_str : string) : string :=
  strip (replace "UTC" EmptyString datetime_str).

(** The regex of a directive of the date format. *)
Definition re_of (d : ascii) : regex :=
  match directive d with
  | Some r => r
  | None => Eps
  end.

(** The regex [pattern] builds for [parse_format]. *)
Definition date_regex : regex :=
  cat_all [re_of "A"; Lit ","; Plus isspace; re_of "B"; Plus isspace;
           re_of "d"; Lit ","; Plus isspace; re_of "Y"; Plus isspace;
           Lit "a"; Lit "t"; Plus isspace; re_of "I"; Lit ":"; re_of "M";
           Lit ":"; re_of "S"; Plus isspace; re_of "p"].

(** The groups captured on a date in the display format. *)
Definition date_groups (pd ph : bool) (w : weekday) (m : month)
  (day year hour minute second : Z) (pm : bool) : list (ascii * string) :=
  [("A"%char, weekday_name w); ("B"%char, month_name m);
   ("d"%char, number_text pd day); ("Y"%char, four_digits year);
   ("I"%char, number_text ph hour); ("M"%char, two_digits minute);
   ("S"%char, two_digits second); ("p"%char, am_pm_mark pm)].

(** [r] matches first at the start of [s], capturing [gs] and leaving [s']. *)
Definition matches_to (r : regex) (s : string) (gs : list (ascii * string))
  (s' : string) : Prop :=
  exists found,
    re_match r s = Some found /\ groups found = gs /\ rest found = s'.

(** The string starts with a character that is not a blank. *)
Definition starts_nonblank (s : string) : bool :=
  match s with
  | EmptyString => false
  | String c _ => negb (isspace c)
  end.

(** No capital U occurs in the string. *)
Fixpoint no_U (s : string) : bool :=
  match s with
  | EmptyString => true
  | String c s' => (negb (Ascii.eqb c "U") && no_U s')%bool
  end.

(** [int (render x)] is [x]. *)
Definition reads_back (render : Z -> string) (x : Z) : bool :=
  match int (render x) with
  | Ok v => v =? x
  | Raise _ => false
  end.

(** ** Sample inputs *)

Definition full_message (who what id : string) : Message.t :=
  {| Message.creator := Some (Creator.mk (Some who));
     Message.text := Some what;
     Message.created_date := Some "Monday, January 1, 2024 at 09:30:00 AM UTC";
     Message.message_id := Some id |}.

(** A message with no field at all. *)
Definition bare_message : Message.t :=
  {| Message.creator := None;
     Message.text := None;
     Message.created_date := None;
     Message.message_id := None |}.

(** A message whose creator has no name and whose date does not parse. *)
Definition odd_message : Message.t :=
  {| Message.creator := Some (Creator.mk None);
     Message.text := Some "bye";
     Message.created_date := Some "garbage";
     Message.message_id := Some "spaceA/m11" |}.

(** Twelve messages: the first lacks every field, the eleventh (the centre
    of the only window) is [odd_message]. *)
Definition sample_messages : list Message.t :=
  (bare_message
   :: repeat (full_message "Ann" "hello" "spaceA/m1") 9
   ++ [odd_message; full_message "Bob" "hi" "spaceA/m12"])%list.

(** Eleven messages whose creators start with A, B, A, C. *)
Definition abac_messages : list Message.t :=
  map (fun who => full_message who "hello" "dm/m")
      ["A"; "B"; "A"; "C"; "A"; "B"; "A"; "C"; "A"; "B"; "A"].

Definition team_messages : list Message.t :=
  repeat (full_message "Ann" "hello" "spaceA/m1") 11.

Definition sample_roster : list Membership.t :=
  [ Membership.mk "spaceB" (Some "Other");
    Membership.mk "spaceA" None;
    Membership.mk "spaceA" (Some "Team") ].

(** [n] messages told apart by their text and identifier. *)
Definition numbered_messages (n : nat) : list Message.t :=
  map (fun k => full_message "Ann" (String (chr (48 + k)) EmptyString)
                             (String (chr (48 + k)) EmptyString))
      (seq 0 n).


(** ** [load]: walking the export folder

    The file system is given as the tree of folders under
    [group_folder_path]: a folder has a name, the parsed content of its
    [messages.json] when that file exists, and its subfolders in the order
    the directory listing returns them (plain directories, no links). *)

#[warnings="-register-all"]
Inductive folder : Type :=
| Folder (dir_name : string) (messages_json : option (list Message.t))
         (dirs : list folder).

(** [str.lower] on code points below 256. *)
Definition str_lower_char (c : ascii) : ascii :=
  if (between 65 90 c
      || (between 192 222 c && negb (Nat.eqb (ord c) 215)))%bool
  then chr (ord c + 32) else c.

Fixpoint str_lower (s : string) : string :=
  match s with
  | EmptyString => EmptyString
  | String c s' => String (str_lower_char c) (str_lower s')
  end.

(** [str(n)] for an integer. *)
Definition str (n : Z) : string := NilZero.string_of_int (Z.to_int n).

(** The truth value of a string: non-empty. *)
Definition truthy (s : string) : bool :=
  match s with
  | EmptyString => false
  | String _ _ => true
  end.

(** [os.walk(top, topdown)]: the [dirs] lists it yields, one for each
    folder visited (the folder itself before its subfolders when [topdown],
    after them otherwise). *)
Fixpoint walk (topdown : bool) (top : folder) : list (list folder) :=
  match top with
  | Folder _ _ dirs =>
      if topdown then dirs :: flat_map (walk topdown) dirs
      else (flat_map (walk topdown) dirs ++ [dirs])%list
  end.

(** [load]: what is printed and what is returned.  [user_info_path] is
    passed on to [os.walk] as its [topdown] argument; [membership_info] is
    the parsed content of the file at that path (an empty path names no
    file: the properties below take a non-empty one). *)
Definition load (group_folder : folder) (user_info_path : string)
  (membership_info : list Membership.t)
  : outcome (string * list Document.t) :=
  all_messages <-
    for_loop (walk (truthy user_info_path) group_folder)
      (fun all_messages dirs =>
         for_loop dirs
           (fun all_messages subfolder =>
              let '(Folder dir_name messages_json _) := subfolder in
              match messages_json with
              | Some messages =>
                  if contains "dm" (str_lower dir_name) then
                    processed_data <- process_dms messages ;;
                    Ok (all_messages ++ processed_data)%list
                  else if contains "space" (str_lower dir_name) then
                    processed_data <-
                      process_spaces messages membership_info ;;
                    Ok (all_messages ++ processed_data)%list
                  else Ok all_messages
              | None => Ok all_messages
              end)
           all_messages)
      [] ;;
  Ok (str (len all_messages) ++ " threads successfully processed!",
      all_messages).

(** ** Vocabulary of the further properties *)

(** The folders strictly below [top], in the order [walk] meets them when
    [topdown]: the subfolders of a folder, then what lies below each. *)
Fixpoint below (top : folder) : list folder :=
  match top with
  | Folder _ _ dirs => (dirs ++ flat_map below dirs)%list
  end.

(** How [load] treats a folder of a given name. *)
Inductive treatment : Set := AsDM | AsSpace | Skipped.

Definition treatment_of (dir_name : string) : treatment :=
  if contains "dm" (str_lower dir_name) then AsDM
  else if contains "space" (str_lower dir_name) then AsSpace
  else Skipped.

(** The documents of a chunker, none if it raised. *)
Definition documents (r : outcome (list Document.t)) : list Document.t :=
  match r with
  | Ok docs => docs
  | Raise _ => []
  end.

(** The documents [load] takes from one folder. *)
Definition folder_documents (membership_info : list Membership.t)
  (subfolder : folder) : list Document.t :=
  let '(Folder dir_name messages_json _) := subfolder in
  match messages_json, treatment_of dir_name with
  | Some messages, AsDM => documents (process_dms messages)
  | Some messages, AsSpace =>
      documents (process_spaces messages membership_info)
  | _, _ => []
  end.

(** The number of documents [load] takes from one folder. *)
Definition folder_windows (subfolder : folder) : nat :=
  let '(Folder dir_name messages_json _) := subfolder in
  match messages_json, treatment_of dir_name with
  | Some messages, AsDM | Some messages, AsSpace => windows (len messages)
  | _, _ => O
  end.

(** A wall-clock reading, as the display format writes it. *)
Record reading : Set := mk_reading {
  r_weekday : weekday;
  r_month : month;
  r_day : Z;
  r_year : Z;
  r_hour : Z;
  r_minute : Z;
  r_second : Z;
  r_pm : bool
}.

(** The reading written in the display format, with the zone [UTC]. *)
Definition written (padded_day padded_hour : bool) (r : reading) : string :=
  display_date padded_day padded_hour (r_weekday r) (r_month r) (r_day r)
    (r_year r) (r_hour r) (r_minute r) (r_second r) (r_pm r)
  ++ " " ++ "UTC".

(** A reading of a day that exists and of a time on the twelve-hour clock. *)
Definition well_formed (r : reading) : Prop :=
  1000 <= r_year r <= 9999 /\
  1 <= r_day r <= days_in_month (r_year r) (month_number (r_month r)) /\
  1 <= r_hour r <= 12 /\ 0 <= r_minute r <= 59 /\ 0 <= r_second r <= 59.

(** Seconds since midnight. *)
Definition second_of_day (r : reading) : Z :=
  hour24 (r_hour r) (r_pm r) * 3600 + r_minute r * 60 + r_second r.

(** [r1] is an earlier instant than [r2]. *)
Definition earlier (r1 r2 : reading) : Prop :=
  r_year r1 < r_year r2 \/
  r_year r1 = r_year r2 /\
  (month_number (r_month r1) < month_number (r_month r2) \/
   r_month r1 = r_month r2 /\
   (r_day r1 < r_day r2 \/
    r_day r1 = r_day r2 /\ second_of_day r1 < second_of_day r2)).
(** ** The export as [json.load] delivers it

    The chunkers above take their input typed: a message has fields that
    are absent or strings.  [json.load] returns a value of any shape, and
    the code applies [.get], [[...]], [len], [in], [==] and string
    formatting to whatever it finds.  This part models these operations on
    every JSON value and embeds the same functions on top of them, down to
    the files they open.

    A JSON number is an integer here: one with a fraction or an exponent
    is a float, which is not modelled.  An object is its list of entries
    in insertion order, with distinct keys (as [json.load] builds it). *)

#[warnings="-register-all"]
Inductive json : Set :=
| JNull
| JBool (b : bool)
| JInt (n : Z)
| JStr (s : string)
| JList (items : list json)
| JObj (entries : list (string * json)).

(** A path of the file system: [open] followed by [json.load] raises
    (no such file, a directory, no permission: [OSError]; bytes that are
    not UTF-8 or not JSON: [ValueError]) or gives the parsed content. *)
Inductive file : Set :=
| Unreadable (e : exn)
| Parsed (data : json).

Module Raw.

(** [with open(path) as file: json.load(file)] *)
Definition json_load (path : file) : outcome json :=
  match path with
  | Unreadable e => Raise e
  | Parsed data => Ok data
  end.

(** The value of [key] in a dict. *)
Fixpoint entry (key : string) (entries : list (string * json))
  : option json :=
  match entries with
  | [] => None
  | (k, v) :: entries' =>
      if (k =? key)%string then Some v else entry key entries'
  end.

(** [v[key]] for a string [key]: only a dict takes it. *)
Definition subscript (v : json) (key : string) : outcome json :=
  match v with
  | JObj entries =>
      match entry key entries with
      | Some x => Ok x
      | None => Raise KeyError
      end
  | _ => Raise TypeError
  end.

(** The characters of a string, each a string of length one. *)
Fixpoint chars (s : string) : list json :=
  match s with
  | EmptyString => []
  | String c s' => JStr (String c EmptyString) :: chars s'
  end.

(** [v[i]] for an integer [i]: a list or a string takes it; a dict made
    from JSON has no integer key. *)
Definition index (v : json) (i : Z) : outcome json :=
  match v with
  | JList items => getitem items i
  | JStr s => getitem (chars s) i
  | JObj _ => Raise KeyError
  | _ => Raise TypeError
  end.

(** [len(v)] *)
Definition size (v : json) : outcome Z :=
  match v with
  | JList items => Ok (len items)
  | JStr s => Ok (len (chars s))
  | JObj entries => Ok (len entries)
  | _ => Raise TypeError
  end.

(** The truth value of [v], as [if v:] takes it. *)
Definition truth (v : json) : bool :=
  match v with
  | JNull => false
  | JBool b => b
  | JInt n => negb (n =? 0)
  | JStr s => negb (s =? EmptyString)%string
  | JList items => match items with [] => false | _ :: _ => true end
  | JObj entries => match entries with [] => false | _ :: _ => true end
  end.

(** What [for x in v] runs over: a dict gives its keys. *)
Definition iter (v : json) : outcome (list json) :=
  match v with
  | JList items => Ok items
  | JStr s => Ok (chars s)
  | JObj entries => Ok (map (fun kv => JStr (fst kv)) entries)
  | _ => Raise TypeError
  end.

(** [v.get(key, default)]: only a dict has the method. *)
Definition dict_get (v : json) (key : string) (default : json)
  : outcome json :=
  match v with
  | JObj entries =>
      match entry key entries with
      | Some x => Ok x
      | None => Ok default
      end
  | _ => Raise AttributeError
  end.

(** [a == b]: [True] and [False] are the integers 1 and 0; dicts are
    equal when they have the same keys with equal values, in any order. *)
Fixpoint equal (a b : json) {struct a} : bool :=
  match a, b with
  | JNull, JNull => true
  | JBool x, JBool y => Bool.eqb x y
  | JBool x, JInt n => (if x then 1 else 0) =? n
  | JInt m, JBool y => m =? (if y then 1 else 0)
  | JInt m, JInt n => m =? n
  | JStr s, JStr t => (s =? t)%string
  | JList xs, JList ys =>
      (fix all2 (xs : list json) (ys : list json) {struct xs} : bool :=
         match xs, ys with
         | [], [] => true
         | x :: xs', y :: ys' => equal x y && all2 xs' ys'
         | _, _ => false
         end) xs ys
  | JObj xs, JObj ys =>
      (len xs =? len ys)
      && (fix all (xs : list (string * json)) {struct xs} : bool :=
            match xs with
            | [] => true
            | (k, x) :: xs' =>
                match entry k ys with
                | Some y => equal x y && all xs'
                | None => false
                end
            end) xs
  | _, _ => false
  end.

(** [x in v] for a string [x]: a substring of a string, an element of a
    list, a key of a dict. *)
Definition str_in (x : string) (v : json) : outcome bool :=
  match v with
  | JStr s => Ok (contains x s)
  | JList items => Ok (existsb (equal (JStr x)) items)
  | JObj entries =>
      Ok (match entry x entries with Some _ => true | None => false end)
  | _ => Raise TypeError
  end.

(** [x not in l] for a list [l]. *)
Definition not_in (x : json) (l : list json) : bool :=
  negb (existsb (equal x) l).

(** Two hexadecimal digits, in lower case. *)
Definition hex_digit (n : nat) : ascii :=
  if (n <? 10)%nat then chr (48 + n) else chr (87 + n).

Definition hex2 (n : nat) : string :=
  String (hex_digit (n / 16)) (String (hex_digit (n mod 16)) EmptyString).

Definition backslash : ascii := chr 92.
Definition single_quote : ascii := chr 39.
Definition double_quote : ascii := chr 34.

Fixpoint has_char (c : ascii) (s : string) : bool :=
  match s with
  | EmptyString => false
  | String c' s' => Ascii.eqb c c' || has_char c s'
  end.

(** [repr] of a character inside the quotes: code points below 256 that
    are not printable are 0 to 31, 127 to 160 and 173. *)
Definition repr_char (quote c : ascii) : string :=
  let n := ord c in
  if (Ascii.eqb c quote || Ascii.eqb c backslash)%bool
  then String backslash (String c EmptyString)
  else if (n =? 9)%nat then String backslash "t"
  else if (n =? 10)%nat then String backslash "n"
  else if (n =? 13)%nat then String backslash "r"
  else if ((n <? 32) || (n =? 127))%nat%bool
  then String backslash (String "x" (hex2 n))
  else if (n <? 127)%nat then String c EmptyString
  else if (((128 <=? n) && (n <=? 160)) || (n =? 173))%nat%bool
  then String backslash (String "x" (hex2 n))
  else String c EmptyString.

Fixpoint repr_chars (quote : ascii) (s : string) : string :=
  match s with
  | EmptyString => EmptyString
  | String c s' => repr_char quote c ++ repr_chars quote s'
  end.

(** [repr] of a string: double quotes when it holds a single quote and no
    double quote. *)
Definition repr_str (s : string) : string :=
  let quote :=
    if (has_char single_quote s && negb (has_char double_quote s))%bool
    then double_quote else single_quote in
  String quote (repr_chars quote s ++ String quote EmptyString).

(** [repr(v)] *)
Fixpoint repr (v : json) : string :=
  match v with
  | JNull => "None"
  | JBool b => if b then "True" else "False"
  | JInt n => str n
  | JStr s => repr_str s
  | JList items => "[" ++ join ", " (map repr items) ++ "]"
  | JObj entries =>
      "{"
      ++ join ", "
           (map (fun kv =>
                   match kv with
                   | (k, x) => repr_str k ++ ": " ++ repr x
                   end) entries)
      ++ "}"
  end.

(** [str(v)], which is what [f"{v}"] inserts. *)
Definition format (v : json) : string :=
  match v with
  | JStr s => s
  | _ => repr v
  end.

(** [datetime_to_epoch] *)
Definition datetime_to_epoch (datetime_str : json) : outcome json :=
  if equal datetime_str (JStr "Unknown Date") then Ok JNull
  else
    let datetime_format := "%A, %B %d, %Y at %I:%M:%S %p %Z" in
    match
      (replaced <-
         match datetime_str with
         | JStr s => Ok (replace "UTC" EmptyString s)
         | _ => Raise AttributeError
         end ;;
       datetime_obj <-
         strptime (strip replaced)
                  (strip (replace "%Z" EmptyString datetime_format)) ;;
       let datetime_obj_utc := replace_tzinfo_utc datetime_obj in
       let epoch_time := timestamp datetime_obj_utc in
       Ok (JInt epoch_time))
    with
    | Raise ValueError => Ok JNull
    | r => r
    end.

(** The [for item in membership_info] loop of [get_space_name] with its
    early [return]. *)
Fixpoint find_group_name (group_id_part : string) (items : list json)
  : outcome json :=
  match items with
  | [] => Ok (JStr "Unknown Space")
  | item :: items' =>
      group_id <- subscript item "group_id" ;;
      found <- str_in group_id_part group_id ;;
      if found then
        named <- str_in "group_name" item ;;
        if named then
          group_name <- subscript item "group_name" ;;
          match group_name with
          | JNull => find_group_name group_id_part items'
          | _ => Ok group_name
          end
        else find_group_name group_id_part items'
      else find_group_name group_id_part items'
  end.

Definition get_space_name (user_info_path : file) (message_id : json)
  : outcome json :=
  user_info_data <- json_load user_info_path ;;
  group_id_part <-
    match message_id with
    | JStr s => getitem (split "/" s) 0
    | _ => Raise AttributeError
    end ;;
  membership_info <- subscript user_info_data "membership_info" ;;
  items <- iter membership_info ;;
  find_group_name group_id_part items.

(** The body of [for i in range(10, len(messages), 19)], the same in both
    chunkers but for the type, the name and the link. *)
Definition window (type : string) (name : json) (link : string)
  (messages : json) (result : list json) (i : Z) : outcome (list json) :=
  middlemessage <- index messages i ;;
  startmessage <- index messages (i - 10) ;;
  message_id <- dict_get startmessage "message_id" (JStr "Unknown ID") ;;
  date <- dict_get middlemessage "created_date" (JStr "Unknown Date") ;;
  created_date <-
    dict_get middlemessage "created_date" (JStr "Unknown Date") ;;
  unix_time <- datetime_to_epoch created_date ;;
  start_id <- dict_get startmessage "message_id" (JStr EmptyString) ;;
  let metadata :=
    JObj [("source", JStr "chats");
          ("type", JStr type);
          ("name", name);
          ("message_id", message_id);
          ("date", date);
          ("unix_time", unix_time);
          ("url", JStr (link ++ format start_id))] in
  n <- size messages ;;
  text_parts <-
    for_loop (range (Z.max 0 (i - 10)) (Z.min n (i + 11)) 1)
      (fun text_parts j =>
         j_message <- index messages j ;;
         j_creator <- dict_get j_message "creator" (JObj []) ;;
         j_name <- dict_get j_creator "name" (JStr "Unknown") ;;
         j_text <- dict_get j_message "text" (JStr "No text available") ;;
         let part :=
           format j_name ++ newline ++ format j_text ++ newline ++ newline in
         Ok (text_parts ++ [part])%list)
      [] ;;
  let text_str := join EmptyString text_parts in
  Ok (result ++ [JObj [("metadata", metadata); ("text", JStr text_str)]])%list.

(** [process_spaces] *)
Definition process_spaces (file_path user_info_path : file)
  : outcome (list json) :=
  data <- json_load file_path ;;
  messages <- subscript data "messages" ;;
  space_name <-
    (if truth messages then
       first <- index messages 0 ;;
       message_id <- dict_get first "message_id" (JStr EmptyString) ;;
       get_space_name user_info_path message_id
     else Ok (JStr "Unknown Space")) ;;
  n <- size messages ;;
  for_loop (range 10 n 19)
    (window "space" space_name "https://chat.google.com/room/" messages)
    [].

(** [process_dms] *)
Definition process_dms (file_path : file) : outcome (list json) :=
  data <- json_load file_path ;;
  messages <- subscript data "messages" ;;
  items <- iter messages ;;
  unique_names <-
    for_loop items
      (fun unique_names message =>
         creator <- dict_get message "creator" (JObj []) ;;
         creator_name <- dict_get creator "name" (JStr "Unknown") ;;
         if not_in creator_name unique_names
         then Ok (unique_names ++ [creator_name])%list
         else Ok unique_names)
      [] ;;
  n <- size messages ;;
  for_loop (range 10 n 19)
    (window "dm" (JList unique_names) "https://chat.google.com/dm/" messages)
    [].

(** The tree of folders under [group_folder_path]: a folder has a name,
    the file at its [messages.json] when that path exists, and its
    subfolders in the order the directory listing returns them (plain
    directories, no links). *)
#[warnings="-register-all"]
Inductive folder : Set :=
| Folder (dir_name : string) (messages_json : option file)
         (dirs : list folder).

(** [os.walk(top, topdown)]: the [dirs] lists it yields. *)
Fixpoint walk (topdown : bool) (top : folder) : list (list folder) :=
  match top with
  | Folder _ _ dirs =>
      if topdown then dirs :: flat_map (walk topdown) dirs
      else (flat_map (walk topdown) dirs ++ [dirs])%list
  end.

(** What [open(user_info_path)] finds: [user_info] is the file at a
    non-empty path; the empty path names no file. *)
Definition open_user_info (user_info_path : string) (user_info : file)
  : file :=
  if truthy user_info_path then user_info else Unreadable OSError.

(** [load]: what is printed and what is returned.  [user_info_path] is
    passed on to [os.walk] as its [topdown] argument, and to
    [process_spaces] as the path of the roster. *)
Definition load (group_folder : folder) (user_info_path : string)
  (user_info : file) : outcome (string * list json) :=
  all_messages <-
    for_loop (walk (truthy user_info_path) group_folder)
      (fun all_messages dirs =>
         for_loop dirs
           (fun all_messages subfolder =>
              let '(Folder dir_name messages_json _) := subfolder in
              match messages_json with
              | Some messages_file =>
                  if contains "dm" (str_lower dir_name) then
                    processed_data <- process_dms messages_file ;;
                    Ok (all_messages ++ processed_data)%list
                  else if contains "space" (str_lower dir_name) then
                    processed_data <-
                      process_spaces messages_file
                        (open_user_info user_info_path user_info) ;;
                    Ok (all_messages ++ processed_data)%list
                  else Ok all_messages
              | None => Ok all_messages
              end)
           all_messages)
      [] ;;
  Ok (str (len all_messages) ++ " threads successfully processed!",
      all_messages).

End Raw.

(** ** Exports of the expected types

    What the typed functions above assume of their input, as a test on the
    parsed JSON: every field is absent or has the type the export gives
    it. *)

Definition is_str (v : json) : bool :=
  match v with
  | JStr _ => true
  | _ => false
  end.

(** The entry at [key] is absent or passes [test]. *)
Definition optional (test : json -> bool) (key : string)
  (entries : list (string * json)) : bool :=
  match Raw.entry key entries with
  | Some x => test x
  | None => true
  end.

Definition is_creator (v : json) : bool :=
  match v with
  | JObj entries => optional is_str "name" entries
  | _ => false
  end.

Definition is_message (v : json) : bool :=
  match v with
  | JObj entries =>
      optional is_creator "creator" entries
      && optional is_str "text" entries
      && optional is_str "created_date" entries
      && optional is_str "message_id" entries
  | _ => false
  end.

(** The content of a [messages.json]: a dict whose ['messages'] is a list
    of messages. *)
Definition is_export (data : json) : bool :=
  match data with
  | JObj entries =>
      match Raw.entry "messages" entries with
      | Some (JList items) => forallb is_message items
      | _ => false
      end
  | _ => false
  end.

(** A roster entry: a string ['group_id'], and a ['group_name'] that is
    absent, null or a string. *)
Definition is_member (v : json) : bool :=
  match v with
  | JObj entries =>
      match Raw.entry "group_id" entries with
      | Some (JStr _) => true
      | _ => false
      end
      && optional (fun x => match x with
                            | JNull | JStr _ => true
                            | _ => false
                            end) "group_name" entries
  | _ => false
  end.

(** The content of the user-info file. *)
Definition is_roster (data : json) : bool :=
  match data with
  | JObj entries =>
      match Raw.entry "membership_info" entries with
      | Some (JList items) => forallb is_member items
      | _ => false
      end
  | _ => false
  end.

(** *** From the parsed JSON to the typed input *)

(** The string at [key], if there is one. *)
Definition string_at (key : string) (v : json) : option string :=
  match v with
  | JObj entries =>
      match Raw.entry key entries with
      | Some (JStr s) => Some s
      | _ => None
      end
  | _ => None
  end.

Definition creator_of (v : json) : Creator.t :=
  Creator.mk (string_at "name" v).

Definition message_of (v : json) : Message.t :=
  {| Message.creator :=
       match v with
       | JObj entries => option_map creator_of (Raw.entry "creator" entries)
       | _ => None
       end;
     Message.text := string_at "text" v;
     Message.created_date := string_at "created_date" v;
     Message.message_id := string_at "message_id" v |}.

Definition items_at (key : string) (data : json) : list json :=
  match data with
  | JObj entries =>
      match Raw.entry key entries with
      | Some (JList items) => items
      | _ => []
      end
  | _ => []
  end.

Definition messages_of (data : json) : list Message.t :=
  map message_of (items_at "messages" data).

Definition member_of (v : json) : Membership.t :=
  {| Membership.group_id :=
       match string_at "group_id" v with
       | Some s => s
       | None => EmptyString
       end;
     Membership.group_name := string_at "group_name" v |}.

Definition roster_of (data : json) : list Membership.t :=
  map member_of (items_at "membership_info" data).

(** *** From the typed documents to the dicts returned *)

Definition name_json (name : name_value) : json :=
  match name with
  | NameStr s => JStr s
  | NameList l => JList (map JStr l)
  end.

Definition unix_time_json (unix_time : option Z) : json :=
  match unix_time with
  | Some n => JInt n
  | None => JNull
  end.

Definition document_json (d : Document.t) : json :=
  let md := Document.metadata d in
  JObj [("metadata",
         JObj [("source", JStr (Metadata.source md));
               ("type", JStr (Metadata.type md));
               ("name", name_json (Metadata.name md));
               ("message_id", JStr (Metadata.message_id md));
               ("date", JStr (Metadata.date md));
               ("unix_time", unix_time_json (Metadata.unix_time md));
               ("url", JStr (Metadata.url md))]);
        ("text", JStr (Document.text d))].

(** *** Folders of exports *)

(** The folders strictly below [top], as for [below]. *)
Fixpoint raw_below (top : Raw.folder) : list Raw.folder :=
  match top with
  | Raw.Folder _ _ dirs => (dirs ++ flat_map raw_below dirs)%list
  end.

(** A folder [load] reads nothing of, or whose [messages.json] is an
    export of the expected types. *)
Definition is_export_folder (subfolder : Raw.folder) : bool :=
  let '(Raw.Folder dir_name messages_json _) := subfolder in
  match messages_json, treatment_of dir_name with
  | Some (Parsed data), AsDM | Some (Parsed data), AsSpace => is_export data
  | Some (Unreadable _), AsDM | Some (Unreadable _), AsSpace => false
  | _, _ => true
  end.

(** The typed tree of a tree of files; a file that is not read counts as
    one without messages. *)
Definition file_messages (messages_file : file) : list Message.t :=
  match messages_file with
  | Parsed data => messages_of data
  | Unreadable _ => []
  end.

Fixpoint folder_of (top : Raw.folder) : folder :=
  match top with
  | Raw.Folder dir_name messages_json dirs =>
      Folder dir_name (option_map file_messages messages_json)
             (map folder_of dirs)
  end.

(** The dict of a message of the typed model, and the export of a
    sequence. *)
Definition optional_entry (key : string) (value : option json)
  : list (string * json) :=
  match value with
  | Some x => [(key, x)]
  | None => []
  end.

Definition message_json (m : Message.t) : json :=
  JObj (optional_entry "creator"
          (option_map (fun c => JObj (optional_entry "name"
                                        (option_map JStr (Creator.name c))))
                      (Message.creator m))
        ++ optional_entry "text" (option_map JStr (Message.text m))
        ++ optional_entry "created_date"
             (option_map JStr (Message.created_date m))
        ++ optional_entry "message_id"
             (option_map JStr (Message.message_id m)))%list.

Definition export (messages : list json) : json :=
  JObj [("messages", JList messages)].

Definition member_json (item : Membership.t) : json :=
  JObj (("group_id", JStr (Membership.group_id item))
        :: optional_entry "group_name"
             (option_map JStr (Membership.group_name item))).

Definition roster (items : list json) : json :=
  JObj [("membership_info", JList items)].

(** A dict of the shape both chunkers append for a window: the link ends
    in the identifier unless that is the sentinel, and the timestamp is
    the conversion of the date. *)
Definition window_dict (type : string) (name : json) (link : string)
  (d : json) : Prop :=
  exists message_id date unix_time start_id text,
    d = JObj [("metadata",
               JObj [("source", JStr "chats");
                     ("type", JStr type);
                     ("name", name);
                     ("message_id", message_id);
                     ("date", date);
                     ("unix_time", unix_time);
                     ("url", JStr (link ++ Raw.format start_id))]);
              ("text", JStr text)] /\
    (start_id = message_id \/
     message_id = JStr "Unknown ID" /\ start_id = JStr EmptyString) /\
    Raw.datetime_to_epoch date = Ok unix_time /\
    (unix_time = JNull \/ exists n, unix_time = JInt n).

(** *** Sample exports *)

Definition sample_export : json := export (map message_json sample_messages).

Definition sample_user_info : json := roster (map member_json sample_roster).

(** A message whose creator is [null]. *)
Definition null_creator_message : json := JObj [("creator", JNull)].

(** Eleven messages without fields but for the last, the centre of the
    only window, whose date is [null]. *)
Definition null_date_export : json :=
  export (repeat (JObj []) 10 ++ [JObj [("created_date", JNull)]])%list.

(** A roster whose only entry has a name and no ['group_id']. *)
Definition no_group_id_roster : json :=
  roster [JObj [("group_name", JStr "Team")]].

(** A folder of exports: a DM, a space, a folder that is neither and is
    not read, and a DM nested in it. *)
Definition sample_tree : Raw.folder :=
  Raw.Folder "Groups" None
    [ Raw.Folder "DM 1" (Some (Parsed sample_export)) [];
      Raw.Folder "Space 2"
        (Some (Parsed (export (map message_json team_messages)))) [];
      Raw.Folder "Other" (Some (Unreadable OSError))
        [ Raw.Folder "dm 3" (Some (Parsed (export []))) [] ] ].

(** The sample tree with a DM whose only message has a [null] creator,
    between the DM and the space. *)
Definition broken_tree : Raw.folder :=
  Raw.Folder "Groups" None
    [ Raw.Folder "DM 1" (Some (Parsed sample_export)) [];
      Raw.Folder "DM 2" (Some (Parsed (export [null_creator_message]))) [];
      Raw.Folder "Space 2"
        (Some (Parsed (export (map message_json team_messages)))) [] ].

(** ** Loops, indexing and ranges *)

Section Loops.
Context {A B : Type}.

(** A loop that appends one item per round returns the items in order,
    as long as every round returns. *)
Lemma for_loop_append (body : list B -> A -> outcome (list B))
  (xs : list A) (ys acc : list B) :
  Forall2 (fun x y => forall acc, body acc x = Ok (acc ++ [y])%list) xs ys ->
  for_loop xs body acc = Ok (acc ++ ys)%list.
Proof.
  intros H; revert acc; induction H as [|x y xs ys Hxy _ IH]; intros acc; simpl.
  - now rewrite app_nil_r.
  - rewrite Hxy; simpl. rewrite IH, <- app_assoc. reflexivity.
Qed.
End Loops.

Lemma len_nonneg {A : Type} (l : list A) : 0 <= len l.
Proof. unfold len; lia. Qed.

Lemma getitem_in_range {A : Type} (l : list A) (i : Z) :
  0 <= i < len l ->
  exists x, nth_error l (Z.to_nat i) = Some x /\ getitem l i = Ok x.
Proof.
  intros [H0 H1]. unfold getitem.
  destruct (i <? 0) eqn:E; [apply Z.ltb_lt in E; lia|]. rewrite E.
  destruct (nth_error l (Z.to_nat i)) as [x|] eqn:N.
  - exists x; split; reflexivity.
  - apply nth_error_None in N. unfold len in H1. lia.
Qed.

Lemma range_loop_closed (step stop : Z) (fuel : nat) (i : Z) :
  0 < step -> (Z.to_nat (stop - i) <= fuel)%nat ->
  range_loop fuel i stop step
  = map (fun k => i + step * Z.of_nat k) (seq 0 (range_count i stop step)).
Proof.
  intros Hs. revert i. induction fuel as [|fuel IH]; intros i Hf; simpl.
  - assert (stop <= i) by lia.
    unfold range_count.
    assert ((stop - i + step - 1) / step <= 0).
    { assert ((stop - i + step - 1) / step < 1); [|lia].
      apply Z.div_lt_upper_bound; lia. }
    replace (Z.to_nat _) with O by lia. reflexivity.
  - destruct (i <? stop) eqn:E.
    + apply Z.ltb_lt in E.
      rewrite IH by lia.
      assert (Hc : range_count i stop step = S (range_count (i + step) stop step)).
      { unfold range_count.
        replace (stop - i + step - 1)
          with ((stop - (i + step) + step - 1) + 1 * step) by lia.
        rewrite Z.div_add by lia.
        assert (0 <= (stop - (i + step) + step - 1) / step).
        { apply Z.div_pos; lia. }
        lia. }
      rewrite Hc. simpl. f_equal; [lia|].
      rewrite <- seq_shift, map_map. apply map_ext. intros k. lia.
    + apply Z.ltb_ge in E. unfold range_count.
      assert ((stop - i + step - 1) / step <= 0).
      { assert ((stop - i + step - 1) / step < 1); [|lia].
        apply Z.div_lt_upper_bound; lia. }
      replace (Z.to_nat _) with O by lia. reflexivity.
Qed.

Lemma range_closed (start stop step : Z) :
  0 < step ->
  range start stop step
  = map (fun k => start + step * Z.of_nat k) (seq 0 (range_count start stop step)).
Proof. intros H. unfold range. apply range_loop_closed; [assumption|lia]. Qed.

(** ** [datetime_to_epoch] always returns *)

Lemma only_ValueError_bind {A B : Type} (m : outcome A) (k : A -> outcome B) :
  only_ValueError m -> (forall a, only_ValueError (k a)) ->
  only_ValueError (bind m k).
Proof. destruct m; simpl; auto. Qed.

Lemma only_ValueError_for_loop {A S : Type} (xs : list A)
  (body : S -> A -> outcome S) (s : S) :
  (forall s x, only_ValueError (body s x)) ->
  only_ValueError (for_loop xs body s).
Proof.
  intros H; revert s; induction xs as [|x xs IH]; intros s; simpl; [exact I|].
  apply only_ValueError_bind; auto.
Qed.

Lemma int_digits_only_ValueError (s : string) (acc : Z) :
  only_ValueError (int_digits acc s).
Proof.
  revert acc; induction s as [|c s IH]; intros acc; simpl; [exact I|].
  destruct (isdigit c); simpl; auto.
Qed.

Lemma int_only_ValueError (s : string) : only_ValueError (int s).
Proof.
  unfold int. destruct (strip s); simpl; [reflexivity|].
  match goal with |- context [if ?b then _ else _] => destruct b end;
    simpl; auto using int_digits_only_ValueError.
Qed.

Lemma index_of_only_ValueError (x : string) (l : list string) :
  only_ValueError (index_of x l).
Proof.
  induction l as [|y l IH]; simpl; [reflexivity|].
  destruct (x =? y)%string; simpl; [exact I|].
  apply only_ValueError_bind; simpl; auto.
Qed.

Lemma pattern_from_only_ValueError (format : string) (b : bool) :
  only_ValueError (pattern_from b format).
Proof.
  remember (String.length format) as n eqn:Hn.
  assert (Hle : (String.length format <= n)%nat) by lia. clear Hn.
  revert format b Hle. induction n as [|n IH]; intros format b Hle.
  - destruct format; simpl in *; [exact I|lia].
  - destruct format as [|c f]; simpl in *; [exact I|].
    assert (Hf : (String.length f <= n)%nat) by lia.
    destruct (isspace c).
    + destruct b; [auto|]. apply only_ValueError_bind; simpl; auto.
    + destruct (Ascii.eqb c "%").
      * destruct f as [|d f']; simpl in *; [reflexivity|].
        destruct (directive d); simpl; [|reflexivity].
        apply only_ValueError_bind; simpl; auto. apply IH; lia.
      * apply only_ValueError_bind; simpl; auto.
Qed.

Lemma check_date_fields_only_ValueError (y m d : Z) :
  only_ValueError (check_date_fields y m d).
Proof.
  unfold check_date_fields.
  repeat match goal with |- context [if ?b then _ else _] => destruct b end;
    simpl; auto.
Qed.

Lemma check_time_fields_only_ValueError (h m s : Z) :
  only_ValueError (check_time_fields h m s).
Proof.
  unfold check_time_fields.
  repeat match goal with |- context [if ?b then _ else _] => destruct b end;
    simpl; auto.
Qed.

Lemma convert_group_only_ValueError found_dict st entry :
  only_ValueError (convert_group found_dict st entry).
Proof.
  unfold convert_group. destruct entry as [k v]. destruct st.
  repeat match goal with
         | |- context [if Ascii.eqb ?a ?b then _ else _] =>
             destruct (Ascii.eqb a b)
         end;
    try (apply only_ValueError_bind;
         [auto using int_only_ValueError, index_of_only_ValueError
         |intros; exact I]);
    exact I.
Qed.

Lemma strptime_only_ValueError (data_string format : string) :
  only_ValueError (strptime data_string format).
Proof.
  unfold strptime, pattern, new_datetime, date_toordinal.
  apply only_ValueError_bind.
  { apply only_ValueError_bind;
      [apply pattern_from_only_ValueError|intros; exact I]. }
  intros r. destruct (re_match r data_string) as [found|]; [|reflexivity].
  destruct (negb _); [reflexivity|].
  apply only_ValueError_bind.
  { apply only_ValueError_for_loop. apply convert_group_only_ValueError. }
  intros [year month day hour minute second weekday].
  repeat (apply only_ValueError_bind;
          [try apply only_ValueError_bind;
           auto using check_date_fields_only_ValueError,
             check_time_fields_only_ValueError; intros; exact I
          |intros]).
  exact I.
Qed.

Lemma datetime_to_epoch_returns (datetime_str : string) :
  exists unix_time, datetime_to_epoch datetime_str = Ok unix_time.
Proof.
  unfold datetime_to_epoch.
  destruct (datetime_str =? "Unknown Date")%string; [eauto|].
  pose proof (strptime_only_ValueError
    (strip (replace "UTC" EmptyString datetime_str))
    (strip (replace "%Z" EmptyString "%A, %B %d, %Y at %I:%M:%S %p %Z"))) as H.
  destruct (strptime _ _) as [dt|e]; simpl in *; [eauto|].
  subst e. eauto.
Qed.

(** ** The window loop *)

Lemma string_app_assoc (a b c : string) : (a ++ b) ++ c = a ++ (b ++ c).
Proof. induction a as [|x a IH]; simpl; [reflexivity|now rewrite IH]. Qed.

Lemma string_app_nil_r (a : string) : a ++ EmptyString = a.
Proof. induction a as [|x a IH]; simpl; [reflexivity|now rewrite IH]. Qed.

Lemma skipn_nth_error_cons {A : Type} (l : list A) (a : nat) (x : A) :
  nth_error l a = Some x -> skipn a l = x :: skipn (S a) l.
Proof.
  revert a; induction l as [|y l IH]; intros [|a] H; simpl in *; try discriminate.
  - now inversion H.
  - now apply IH.
Qed.

Lemma part_is_block (m : Message.t) :
  get (Creator.name (get (Message.creator m) Creator.empty)) "Unknown"
  ++ newline ++ get (Message.text m) "No text available" ++ newline ++ newline
  = block m.
Proof.
  unfold block, creator_name, message_text, get.
  destruct (Message.creator m); reflexivity.
Qed.

Lemma getitem_nth_error {A : Type} (l : list A) (i : Z) (x : A) :
  0 <= i -> nth_error l (Z.to_nat i) = Some x -> getitem l i = Ok x.
Proof.
  intros H0 H. unfold getitem.
  destruct (i <? 0) eqn:E; [apply Z.ltb_lt in E; lia|]. rewrite E, H. reflexivity.
Qed.

Lemma text_parts_items (messages : list Message.t) (n a : nat) :
  (a + n <= List.length messages)%nat ->
  Forall2 (fun j part => forall text_parts,
             text_parts_body messages text_parts j = Ok (text_parts ++ [part])%list)
    (map (fun k => Z.of_nat a + 1 * Z.of_nat k) (seq 0 n))
    (map block (firstn n (skipn a messages))).
Proof.
  revert a; induction n as [|n IH]; intros a H; [constructor|].
  destruct (nth_error messages a) as [m|] eqn:E.
  - rewrite (skipn_nth_error_cons _ _ _ E).
    change (seq 0 (S n)) with (0%nat :: seq 1 n).
    rewrite <- seq_shift. cbn [map firstn]. rewrite map_map. constructor.
    + intros text_parts. unfold text_parts_body.
      rewrite (getitem_nth_error messages _ m); [|lia|].
      * simpl. rewrite part_is_block. reflexivity.
      * replace (Z.to_nat _) with a by lia. assumption.
    + rewrite (map_ext _ (fun k => Z.of_nat (S a) + 1 * Z.of_nat k)).
      * apply (IH (S a)); lia.
      * intros k; lia.
  - apply nth_error_None in E. lia.
Qed.

(** The inner loop reads the messages at [lo .. hi - 1] and returns their
    blocks in order. *)
Lemma text_parts_loop (messages : list Message.t) (lo hi : Z) :
  0 <= lo <= len messages -> hi <= len messages ->
  for_loop (range lo hi 1) (text_parts_body messages) []
  = Ok (map block (slice messages lo (hi - 1))).
Proof.
  intros [Hlo Hlo'] Hhi.
  rewrite range_closed by lia.
  apply (for_loop_append (text_parts_body messages) _ _ []).
  unfold slice.
  assert (Hn : range_count lo hi 1 = Z.to_nat (hi - 1 - lo + 1)).
  { unfold range_count. rewrite Z.div_1_r. f_equal. lia. }
  rewrite <- Hn.
  assert (Hb : (Z.to_nat lo + range_count lo hi 1 <= List.length messages)%nat).
  { rewrite Hn. unfold len in Hhi, Hlo'. lia. }
  pose proof (text_parts_items messages _ _ Hb) as F.
  rewrite Z2Nat.id in F by assumption. exact F.
Qed.

(** One round of the outer loop appends the specified document. *)
Lemma window_body_ok (type : string) (name : name_value) (url_prefix : string)
  (messages : list Message.t) (i : Z) :
  10 <= i < len messages ->
  exists d,
    is_window_document type name url_prefix messages i d /\
    forall result,
      window_body type name url_prefix messages result i = Ok (result ++ [d])%list.
Proof.
  intros Hi.
  destruct (getitem_in_range messages i) as [middle [Nm Gm]]; [lia|].
  destruct (getitem_in_range messages (i - 10)) as [start [Ns Gs]]; [lia|].
  destruct (datetime_to_epoch_returns
              (get (Message.created_date middle) "Unknown Date")) as [ut Hut].
  exists (spec_document type name url_prefix messages i start middle ut).
  split.
  - exists start, middle, ut. split; [assumption|]. split; [assumption|].
    split; [exact Hut|reflexivity].
  - intros result. unfold window_body.
    rewrite Gm, Gs. cbn [bind]. rewrite Hut. cbn [bind].
    rewrite text_parts_loop by lia. cbn [bind].
    unfold spec_document, get.
    replace (Z.min (len messages) (i + 11) - 1)
      with (Z.min (len messages - 1) (i + 10)) by lia.
    reflexivity.
Qed.

Lemma window_loop_ok (type : string) (name : name_value) (url_prefix : string)
  (messages : list Message.t) :
  exists docs,
    for_loop (range 10 (len messages) 19)
      (window_body type name url_prefix messages) [] = Ok docs /\
    Forall2 (is_window_document type name url_prefix messages)
      (range 10 (len messages) 19) docs.
Proof.
  assert (H : forall is_,
    (forall i, In i is_ -> 10 <= i < len messages) ->
    exists docs,
      Forall2 (fun i d => forall result,
                 window_body type name url_prefix messages result i
                 = Ok (result ++ [d])%list) is_ docs /\
      Forall2 (is_window_document type name url_prefix messages) is_ docs).
  { induction is_ as [|i is_ IH]; intros Hin.
    - exists []; split; constructor.
    - destruct IH as [docs [F1 F2]]; [intros; apply Hin; now right|].
      destruct (window_body_ok type name url_prefix messages i) as [d [Hd Hb]];
        [apply Hin; now left|].
      exists (d :: docs); split; constructor; assumption. }
  destruct (H (range 10 (len messages) 19)) as [docs [F1 F2]].
  - intros i Hi. rewrite range_closed in Hi by lia.
    apply in_map_iff in Hi. destruct Hi as [k [<- Hk]].
    apply in_seq in Hk. unfold range_count in Hk.
    assert (Z.of_nat k < (len messages - 10 + 19 - 1) / 19) by lia.
    assert (19 * ((len messages - 10 + 19 - 1) / 19) <= len messages - 10 + 19 - 1).
    { apply Z.mul_div_le; lia. }
    lia.
  - exists docs; split; [|assumption].
    apply (for_loop_append _ _ _ [] F1).
Qed.

(** ** The roster lookup *)

Lemma split_from_before (sep : ascii) (s cur : string) :
  exists pieces, split_from sep cur s = (cur ++ before sep s) :: pieces.
Proof.
  revert cur; induction s as [|c s IH]; intros cur; simpl.
  - exists []. now rewrite string_app_nil_r.
  - destruct (Ascii.eqb c sep).
    + eexists. now rewrite string_app_nil_r.
    + destruct (IH (cur ++ String c EmptyString)) as [pieces ->].
      exists pieces. now rewrite string_app_assoc.
Qed.

Lemma find_group_name_first_named (group_id_part : string)
  (membership_info : list Membership.t) :
  find_group_name group_id_part membership_info
  = first_named group_id_part membership_info.
Proof.
  unfold first_named.
  induction membership_info as [|item items IH]; simpl; [reflexivity|].
  unfold named_match at 1.
  destruct (contains group_id_part (Membership.group_id item)); simpl;
    [|exact IH].
  destruct (Membership.group_name item) eqn:E; simpl; [now rewrite E|exact IH].
Qed.

Lemma get_space_name_ok (membership_info : list Membership.t)
  (message_id : string) :
  get_space_name membership_info message_id
  = Ok (first_named (before "/" message_id) membership_info).
Proof.
  unfold get_space_name, split.
  destruct (split_from_before "/" message_id EmptyString) as [pieces ->].
  simpl. now rewrite find_group_name_first_named.
Qed.

(** ** The collected names *)

Lemma not_in_app (x : string) (l1 l2 : list string) :
  not_in x (l1 ++ l2) = (not_in x l1 && not_in x l2)%bool.
Proof. unfold not_in. now rewrite existsb_app, negb_orb. Qed.

Lemma filter_filter {A : Type} (p q : A -> bool) (l : list A) :
  filter p (filter q l) = filter (fun y => q y && p y)%bool l.
Proof.
  induction l as [|x l IH]; simpl; [reflexivity|].
  destruct (q x); simpl; [destruct (p x)|]; now rewrite IH.
Qed.

Lemma filter_all {A : Type} (p : A -> bool) (l : list A) :
  (forall x, p x = true) -> filter p l = l.
Proof.
  intros H; induction l as [|x l IH]; simpl; [reflexivity|].
  now rewrite H, IH.
Qed.

(** The accumulating loop keeps, after what it already holds, the first
    occurrences of the names it has not seen. *)
Lemma fold_add_name (names acc : list string) :
  fold_left add_name names acc
  = (acc ++ filter (fun y => not_in y acc) (first_seen names))%list.
Proof.
  revert acc; induction names as [|x names IH]; intros acc; simpl.
  - now rewrite app_nil_r.
  - rewrite IH. unfold add_name.
    rewrite filter_filter.
    destruct (not_in x acc) eqn:E.
    + rewrite <- app_assoc. simpl. do 2 f_equal.
      apply filter_ext. intros y. rewrite not_in_app. unfold not_in at 2. simpl.
      rewrite orb_false_r. apply andb_comm.
    + f_equal. apply filter_ext. intros y.
      destruct (String.eqb_spec y x) as [->|]; simpl; [now rewrite E|reflexivity].
Qed.

Lemma names_loop (messages : list Message.t) (acc : list string) :
  for_loop messages
    (fun unique_names message =>
       let creator_name :=
         get (Creator.name (get (Message.creator message) Creator.empty))
             "Unknown" in
       if not_in creator_name unique_names
       then Ok (unique_names ++ [creator_name])%list
       else Ok unique_names)
    acc
  = Ok (fold_left add_name (map creator_name messages) acc).
Proof.
  revert acc; induction messages as [|m messages IH]; intros acc; simpl;
    [reflexivity|].
  assert (E : get (Creator.name (get (Message.creator m) Creator.empty)) "Unknown"
              = creator_name m).
  { unfold creator_name, get. destruct (Message.creator m); reflexivity. }
  rewrite E. unfold add_name at 2.
  destruct (not_in (creator_name m) acc); simpl; apply IH.
Qed.

Lemma first_seen_In (x : string) (names : list string) :
  In x (first_seen names) <-> In x names.
Proof.
  induction names as [|y names IH]; simpl; [tauto|].
  rewrite filter_In, IH, negb_true_iff, String.eqb_neq.
  destruct (string_dec y x) as [->|]; [tauto|].
  split; [tauto|]. intros [H|H]; [tauto|]. right; split; congruence.
Qed.

Lemma first_seen_NoDup (names : list string) : NoDup (first_seen names).
Proof.
  induction names as [|y names IH]; simpl; constructor.
  - rewrite filter_In, negb_true_iff, String.eqb_neq. tauto.
  - now apply NoDup_filter.
Qed.

(** ** The chunkers return the specified documents *)

Lemma windows_spec (n : Z) (k : nat) :
  (k < windows n)%nat <-> center k < n.
Proof.
  unfold windows, range_count, center.
  replace (n - 10 + 19 - 1) with (n + 8) by lia.
  pose proof (Z.div_mod (n + 8) 19 ltac:(lia)) as D.
  pose proof (Z.mod_pos_bound (n + 8) 19 ltac:(lia)) as M.
  lia.
Qed.

Lemma windows_count (n : Z) :
  0 <= n ->
  Z.of_nat (windows n) = if n <=? 10 then 0 else (n - 11) / 19 + 1.
Proof.
  intros Hn. unfold windows, range_count.
  replace (n - 10 + 19 - 1) with (n + 8) by lia.
  destruct (n <=? 10) eqn:E.
  - apply Z.leb_le in E. rewrite Z.div_small by lia. reflexivity.
  - apply Z.leb_gt in E.
    replace (n + 8) with ((n - 11) + 1 * 19) by lia.
    rewrite Z.div_add by lia.
    assert (0 <= (n - 11) / 19) by (apply Z.div_pos; lia).
    lia.
Qed.

Lemma range_centers (n : Z) :
  range 10 n 19 = map center (seq 0 (windows n)).
Proof. rewrite range_closed by lia. reflexivity. Qed.

Lemma process_spaces_documents (messages : list Message.t)
  (membership_info : list Membership.t) :
  exists docs,
    process_spaces messages membership_info = Ok docs /\
    Forall2 (is_window_document "space"
               (NameStr (space_name_of messages membership_info))
               "https://chat.google.com/room/" messages)
      (map center (seq 0 (windows (len messages)))) docs.
Proof.
  destruct (window_loop_ok "space"
              (NameStr (space_name_of messages membership_info))
              "https://chat.google.com/room/" messages) as [docs [L F]].
  exists docs. rewrite <- range_centers. split; [|exact F].
  unfold process_spaces.
  assert (E : match messages with
              | [] => Ok "Unknown Space"
              | _ :: _ =>
                  first <- getitem messages 0 ;;
                  get_space_name membership_info
                    (get (Message.message_id first) EmptyString)
              end = Ok (space_name_of messages membership_info)).
  { destruct messages as [|m ms]; [reflexivity|].
    change (getitem (m :: ms) 0) with (Ok m). cbn [bind].
    now rewrite get_space_name_ok. }
  rewrite E. cbn [bind]. exact L.
Qed.

Lemma process_dms_documents (messages : list Message.t) :
  exists docs,
    process_dms messages = Ok docs /\
    Forall2 (is_window_document "dm"
               (NameList (first_seen (map creator_name messages)))
               "https://chat.google.com/dm/" messages)
      (map center (seq 0 (windows (len messages)))) docs.
Proof.
  destruct (window_loop_ok "dm"
              (NameList (first_seen (map creator_name messages)))
              "https://chat.google.com/dm/" messages) as [docs [L F]].
  exists docs. rewrite <- range_centers. split; [|exact F].
  unfold process_dms. rewrite names_loop. cbn [bind].
  rewrite fold_add_name. cbn [app]. rewrite filter_all by reflexivity.
  exact L.
Qed.

Lemma chunk_documents (v : variant) (messages : list Message.t) :
  exists docs,
    chunk v messages = Ok docs /\
    Forall2 (is_window_document (type_of v) (name_of v messages)
               (url_prefix_of v) messages)
      (map center (seq 0 (windows (len messages)))) docs.
Proof.
  destruct v as [membership_info|]; simpl.
  - apply process_spaces_documents.
  - apply process_dms_documents.
Qed.

Lemma Forall2_nth_error {A B : Type} (P : A -> B -> Prop) (xs : list A)
  (ys : list B) (k : nat) (x : A) :
  Forall2 P xs ys -> nth_error xs k = Some x ->
  exists y, nth_error ys k = Some y /\ P x y.
Proof.
  intros F; revert k; induction F as [|x' y' xs ys Hxy F IH];
    intros [|k] H; simpl in *; try discriminate.
  - inversion H; subst. eauto.
  - now apply IH.
Qed.

Lemma Forall2_nth_error_r {A B : Type} (P : A -> B -> Prop) (xs : list A)
  (ys : list B) (k : nat) (y : B) :
  Forall2 P xs ys -> nth_error ys k = Some y ->
  exists x, nth_error xs k = Some x /\ P x y.
Proof.
  intros F; revert k; induction F as [|x' y' xs ys Hxy F IH];
    intros [|k] H; simpl in *; try discriminate.
  - inversion H; subst. eauto.
  - now apply IH.
Qed.

Lemma nth_error_centers (n k : nat) :
  (k < n)%nat -> nth_error (map center (seq 0 n)) k = Some (center k).
Proof.
  intros H. rewrite nth_error_map, nth_error_seq.
  destruct (Nat.ltb_spec k n); [reflexivity|lia].
Qed.

(** The document of the [k]-th window, when the sequence reaches its centre. *)
Lemma chunk_window (v : variant) (messages : list Message.t) (k : nat) :
  center k < len messages ->
  exists docs d,
    chunk v messages = Ok docs /\
    nth_error docs k = Some d /\
    is_window_document (type_of v) (name_of v messages) (url_prefix_of v)
      messages (center k) d.
Proof.
  intros H. apply windows_spec in H.
  destruct (chunk_documents v messages) as [docs [E F]].
  destruct (Forall2_nth_error _ _ _ k _ F (nth_error_centers _ _ H))
    as [d [Hd Hw]].
  exists docs, d. auto.
Qed.

(** ** The chunkers on sample sequences *)

Example twenty_one_messages :
  exists d,
    process_dms (numbered_messages 21) = Ok [d] /\
    Document.text d = join EmptyString (map block (numbered_messages 21)) /\
    Metadata.message_id (Document.metadata d) = "0" /\
    Metadata.unix_time (Document.metadata d) = Some 1704101400.
Proof. eexists. split; [vm_compute; reflexivity|]. repeat split; reflexivity. Qed.

Example forty_messages :
  exists d1 d2,
    process_spaces (numbered_messages 40) sample_roster = Ok [d1; d2] /\
    Document.text d2
    = join EmptyString (map block (slice (numbered_messages 40) 19 39)) /\
    Metadata.message_id (Document.metadata d2) = "C" /\
    Metadata.url (Document.metadata d2) = "https://chat.google.com/room/C".
Proof.
  do 2 eexists. split; [vm_compute; reflexivity|]. repeat split; reflexivity.
Qed.

Example ten_messages :
  process_dms (numbered_messages 10) = Ok [] /\
  process_spaces (numbered_messages 10) sample_roster = Ok [].
Proof. split; reflexivity. Qed.

(** ** The claims about the chunker *)

(** C1: for every message sequence and every window centre
    [i = 10 + 19 k] below the length, the [k]-th document's text is the
    concatenation, in sequence order, of the blocks
    [creator_name, newline, text, newline, newline] of exactly the messages at
    indices [max(0, i-10)] to [min(length-1, i+10)] inclusive, where an
    absent creator name reads [Unknown] and an absent text reads
    [No text available]; this holds for both chunkers. *)
Theorem C1_window_text (v : variant) (messages : list Message.t) (k : nat) :
  center k < len messages ->
  exists docs d,
    chunk v messages = Ok docs /\
    nth_error docs k = Some d /\
    Document.text d
    = join EmptyString
        (map block (slice messages (Z.max 0 (center k - 10))
                                   (Z.min (len messages - 1) (center k + 10)))).
Proof.
  intros H.
  destruct (chunk_window v messages k H)
    as [docs [d [E [N [start [middle [ut [_ [_ [_ ->]]]]]]]]]].
  exists docs, (spec_document (type_of v) (name_of v messages) (url_prefix_of v)
                  messages (center k) start middle ut).
  repeat split; assumption || reflexivity.
Qed.

(** C1 on the sample sequence, for its only window. *)
Lemma C1_window_text_witness :
  center 0 < len sample_messages /\
  exists docs d,
    chunk DM sample_messages = Ok docs /\
    nth_error docs 0 = Some d /\
    Document.text d
    = join EmptyString
        (map block (slice sample_messages (Z.max 0 (center 0 - 10))
                          (Z.min (len sample_messages - 1) (center 0 + 10)))).
Proof.
  split; [reflexivity|].
  apply (C1_window_text DM sample_messages 0). reflexivity.
Defined.

(** C2: for every message sequence, each chunker returns no document when
    the sequence has at most ten messages and exactly
    [floor((length - 11) / 19) + 1] documents otherwise. *)
Theorem C2_document_count (v : variant) (messages : list Message.t) :
  exists docs,
    chunk v messages = Ok docs /\
    len docs = if len messages <=? 10 then 0
               else (len messages - 11) / 19 + 1.
Proof.
  destruct (chunk_documents v messages) as [docs [E F]].
  exists docs. split; [assumption|].
  apply Forall2_length in F. rewrite length_map, length_seq in F.
  unfold len at 1. rewrite <- F. apply windows_count, len_nonneg.
Qed.

(** C3: for every message sequence and every window centre [i], the
    document's [date] is the [created_date] of the message at index [i]
    (or [Unknown Date] when absent), its [unix_time] is the conversion of
    that date, and its [message_id] is the [message_id] of the message at
    index [i - 10] (or [Unknown ID] when absent). *)
Theorem C3_anchor_metadata (v : variant) (messages : list Message.t) (k : nat) :
  center k < len messages ->
  exists docs d start middle,
    chunk v messages = Ok docs /\
    nth_error docs k = Some d /\
    nth_error messages (Z.to_nat (center k - 10)) = Some start /\
    nth_error messages (Z.to_nat (center k)) = Some middle /\
    Metadata.date (Document.metadata d)
    = match Message.created_date middle with
      | Some date => date
      | None => "Unknown Date"
      end /\
    datetime_to_epoch (match Message.created_date middle with
                       | Some date => date
                       | None => "Unknown Date"
                       end)
    = Ok (Metadata.unix_time (Document.metadata d)) /\
    Metadata.message_id (Document.metadata d)
    = match Message.message_id start with
      | Some id => id
      | None => "Unknown ID"
      end.
Proof.
  intros H.
  destruct (chunk_window v messages k H)
    as [docs [d [E [N [start [middle [ut [Hs [Hm [Hut ->]]]]]]]]]].
  exists docs, (spec_document (type_of v) (name_of v messages) (url_prefix_of v)
                  messages (center k) start middle ut), start, middle.
  repeat split; try assumption; reflexivity.
Qed.

(** C3 on the sample sequence, for its only window. *)
Lemma C3_anchor_metadata_witness :
  center 0 < len sample_messages /\
  exists docs d start middle,
    chunk (Space sample_roster) sample_messages = Ok docs /\
    nth_error docs 0 = Some d /\
    nth_error sample_messages (Z.to_nat (center 0 - 10)) = Some start /\
    nth_error sample_messages (Z.to_nat (center 0)) = Some middle /\
    Metadata.date (Document.metadata d)
    = match Message.created_date middle with
      | Some date => date
      | None => "Unknown Date"
      end /\
    datetime_to_epoch (match Message.created_date middle with
                       | Some date => date
                       | None => "Unknown Date"
                       end)
    = Ok (Metadata.unix_time (Document.metadata d)) /\
    Metadata.message_id (Document.metadata d)
    = match Message.message_id start with
      | Some id => id
      | None => "Unknown ID"
      end.
Proof.
  split; [reflexivity|].
  apply (C3_anchor_metadata (Space sample_roster) sample_messages 0). reflexivity.
Defined.

(** C7: for every message sequence, [process_dms] gives every document the
    same ['name']: the list of the distinct creator names of the whole
    sequence, each at its first occurrence, without duplicates (an absent
    name counting as [Unknown]); for creators A, B, A, C the list is
    A, B, C. *)
Theorem C7_collected_names (messages : list Message.t) :
  exists docs,
    process_dms messages = Ok docs /\
    Forall (fun d => Metadata.name (Document.metadata d)
                     = NameList (first_seen (map creator_name messages))) docs /\
    NoDup (first_seen (map creator_name messages)) /\
    (forall x, In x (first_seen (map creator_name messages))
               <-> In x (map creator_name messages)) /\
    first_seen ["A"; "B"; "A"; "C"] = ["A"; "B"; "C"] /\
    (exists d, process_dms abac_messages = Ok [d] /\
               Metadata.name (Document.metadata d) = NameList ["A"; "B"; "C"]).
Proof.
  destruct (process_dms_documents messages) as [docs [E F]].
  exists docs. split; [assumption|]. split.
  - apply Forall_forall. intros d Hd.
    apply In_nth_error in Hd. destruct Hd as [k Hk].
    destruct (Forall2_nth_error_r _ _ _ _ _ F Hk)
      as [i [_ [start [middle [ut [_ [_ [_ ->]]]]]]]].
    reflexivity.
  - split; [apply first_seen_NoDup|].
    split; [intros x; apply first_seen_In|].
    split; [reflexivity|].
    eexists. split; [vm_compute; reflexivity|reflexivity].
Qed.

(** C9: for every window whose first message (index [i - 10]) has no
    [message_id], the document's [message_id] is [Unknown ID] while its
    [url] is the bare prefix, [https://chat.google.com/room/] for a space
    and [https://chat.google.com/dm/] for a DM. *)
Theorem C9_missing_id_defaults (v : variant) (messages : list Message.t)
  (k : nat) (start : Message.t) :
  center k < len messages ->
  nth_error messages (Z.to_nat (center k - 10)) = Some start ->
  Message.message_id start = None ->
  exists docs d,
    chunk v messages = Ok docs /\
    nth_error docs k = Some d /\
    Metadata.message_id (Document.metadata d) = "Unknown ID" /\
    Metadata.url (Document.metadata d)
    = match v with
      | Space _ => "https://chat.google.com/room/"
      | DM => "https://chat.google.com/dm/"
      end.
Proof.
  intros H Hs Hid.
  destruct (chunk_window v messages k H)
    as [docs [d [E [N [start' [middle [ut [Hs' [Hm [Hut ->]]]]]]]]]].
  assert (start' = start) by congruence. subst start'.
  exists docs, (spec_document (type_of v) (name_of v messages) (url_prefix_of v)
                  messages (center k) start middle ut).
  split; [assumption|]. split; [assumption|].
  unfold spec_document; simpl. rewrite Hid.
  split; [reflexivity|]. rewrite string_app_nil_r. destruct v; reflexivity.
Qed.

(** C9 on the sample sequence, whose first message has no identifier. *)
Lemma C9_missing_id_defaults_witness :
  center 0 < len sample_messages /\
  nth_error sample_messages (Z.to_nat (center 0 - 10)) = Some bare_message /\
  Message.message_id bare_message = None /\
  exists docs d,
    chunk (Space sample_roster) sample_messages = Ok docs /\
    nth_error docs 0 = Some d /\
    Metadata.message_id (Document.metadata d) = "Unknown ID" /\
    Metadata.url (Document.metadata d) = "https://chat.google.com/room/".
Proof.
  split; [reflexivity|]. split; [reflexivity|]. split; [reflexivity|].
  apply (C9_missing_id_defaults (Space sample_roster) sample_messages 0
           bare_message); reflexivity.
Defined.

Lemma Forall2_same_index {A B C : Type} (P : A -> B -> Prop)
  (Q : A -> C -> Prop) (R : B -> C -> Prop) (xs : list A) (ys : list B)
  (zs : list C) :
  (forall x y z, P x y -> Q x z -> R y z) ->
  Forall2 P xs ys -> Forall2 Q xs zs -> Forall2 R ys zs.
Proof.
  intros H F; revert zs; induction F as [|x y xs ys Hxy F IH];
    intros zs G; inversion G; subst; constructor; eauto.
Qed.

(** C10: for every message sequence, [process_spaces] and [process_dms]
    return the same number of documents with pairwise equal texts; only
    the metadata differ (and there only the type, the name and the link:
    source, identifier, date and timestamp agree as well). *)
Theorem C10_same_texts (messages : list Message.t)
  (membership_info : list Membership.t) :
  exists space_docs dm_docs,
    process_spaces messages membership_info = Ok space_docs /\
    process_dms messages = Ok dm_docs /\
    List.length space_docs = List.length dm_docs /\
    map Document.text space_docs = map Document.text dm_docs /\
    Forall2 (fun s d =>
               let ms := Document.metadata s in
               let md := Document.metadata d in
               Metadata.source ms = Metadata.source md /\
               Metadata.message_id ms = Metadata.message_id md /\
               Metadata.date ms = Metadata.date md /\
               Metadata.unix_time ms = Metadata.unix_time md)
      space_docs dm_docs.
Proof.
  destruct (process_spaces_documents messages membership_info) as [ds [Es Fs]].
  destruct (process_dms_documents messages) as [dd [Ed Fd]].
  exists ds, dd. split; [assumption|]. split; [assumption|].
  assert (T : forall type name url_prefix centers docs,
    Forall2 (is_window_document type name url_prefix messages) centers docs ->
    map Document.text docs
    = map (fun i => join EmptyString
                      (map block (slice messages (Z.max 0 (i - 10))
                                        (Z.min (len messages - 1) (i + 10)))))
        centers).
  { intros type name url_prefix centers docs F.
    induction F as [|i d is_ docs [start [middle [ut [_ [_ [_ ->]]]]]] _ IH];
      simpl; [reflexivity|]. now rewrite IH. }
  split; [|split].
  - rewrite <- (Forall2_length Fs). apply (Forall2_length Fd).
  - rewrite (T _ _ _ _ _ Fs), (T _ _ _ _ _ Fd). reflexivity.
  - refine (Forall2_same_index _ _ _ _ _ _ _ Fs Fd).
    intros i s d Hs Hd.
    destruct Hs as [start [middle [ut [S1 [M1 [U1 ->]]]]]].
    destruct Hd as [start' [middle' [ut' [S2 [M2 [U2 ->]]]]]].
    assert (start' = start) by congruence.
    assert (middle' = middle) by congruence. subst.
    cbn in U1, U2. assert (ut' = ut) by congruence. subst.
    cbn. repeat split; reflexivity.
Qed.

(** C5 (as amended): the space name of every document is that of the first
    roster entry whose ['group_id'] contains the group-id part (the part of
    the first message's [message_id] before the first slash, the empty
    string when the identifier is absent) and whose ['group_name'] is
    present; entries that match without a name are passed over, and the
    name is [Unknown Space] when no entry answers or the sequence is
    empty.  (Every ['group_id'] contains the empty group-id part of an
    absent identifier.) *)
Theorem C5_space_name (messages : list Message.t)
  (membership_info : list Membership.t) :
  exists docs,
    process_spaces messages membership_info = Ok docs /\
    Forall (fun d => Metadata.name (Document.metadata d)
                     = NameStr (space_name_of messages membership_info)) docs /\
    (forall message_id,
       get_space_name membership_info message_id
       = Ok (match find (named_match (before "/" message_id)) membership_info with
             | Some item =>
                 match Membership.group_name item with
                 | Some group_name => group_name
                 | None => "Unknown Space"
                 end
             | None => "Unknown Space"
             end)) /\
    space_name_of [] membership_info = "Unknown Space" /\
    (forall group_id, contains EmptyString group_id = true).
Proof.
  destruct (process_spaces_documents messages membership_info) as [docs [E F]].
  exists docs. split; [assumption|]. split.
  - apply Forall_forall. intros d Hd.
    apply In_nth_error in Hd. destruct Hd as [k Hk].
    destruct (Forall2_nth_error_r _ _ _ _ _ F Hk)
      as [i [_ [start [middle [ut [_ [_ [_ ->]]]]]]]].
    reflexivity.
  - split; [intros message_id; apply get_space_name_ok|].
    split; [reflexivity|]. intros [|c s]; reflexivity.
Qed.

(** C5 (as stated) fails: in [sample_roster] the first entry matching
    [spaceA] has no name, yet the lookup answers [Team], the name of a
    later entry, and the document carries it. *)
Lemma C5_first_match_passed_over :
  find (id_match (before "/" "spaceA/m1")) sample_roster
  = Some {| Membership.group_id := "spaceA"; Membership.group_name := None |} /\
  get_space_name sample_roster "spaceA/m1" = Ok "Team" /\
  ~ first_match_wins sample_roster "spaceA/m1" "Team" /\
  exists d,
    process_spaces team_messages sample_roster = Ok [d] /\
    Metadata.name (Document.metadata d) = NameStr "Team".
Proof.
  split; [reflexivity|]. split; [reflexivity|]. split.
  - unfold first_match_wins. simpl. discriminate.
  - eexists. split; [vm_compute; reflexivity|reflexivity].
Qed.

(** ** The date conversion *)

(** C6: the conversion maps [Monday, January 1, 2024 at 09:30:00 AM UTC] to
    1704101400, and both [Unknown Date] and [garbage] to [None], returning
    in each case. *)
Theorem C6_date_examples :
  datetime_to_epoch "Monday, January 1, 2024 at 09:30:00 AM UTC"
  = Ok (Some 1704101400) /\
  datetime_to_epoch "Unknown Date" = Ok None /\
  datetime_to_epoch "garbage" = Ok None.
Proof. repeat split; vm_compute; reflexivity. Qed.

(** *** Matching the date format *)

Lemma pattern_parse_format : pattern parse_format = Ok date_regex.
Proof. reflexivity. Qed.

Lemma re_match_cat (r1 r2 : regex) (s : string) (m1 m2 : matched) :
  re_match r1 s = Some m1 ->
  re_match r2 (rest m1) = Some m2 ->
  re_match (Cat r1 r2) s
  = Some (mk_matched (consumed m1 ++ consumed m2)
                     (groups m1 ++ groups m2)%list (rest m2)).
Proof.
  unfold re_match. cbn [matches].
  destruct (matches r1 s) as [|m1' o1]; cbn; [discriminate|].
  intros H1; inversion H1; subst m1'.
  destruct (matches r2 (rest m1)) as [|m2' o2]; cbn; [discriminate|].
  intros H2; inversion H2; subst m2'. reflexivity.
Qed.

Lemma re_match_group (name : ascii) (r : regex) (s : string) (m : matched) :
  re_match r s = Some m ->
  re_match (Group name r) s
  = Some (mk_matched (consumed m) ((name, consumed m) :: groups m) (rest m)).
Proof.
  unfold re_match. cbn [matches].
  destruct (matches r s) as [|m' o]; cbn; [discriminate|].
  intros H; inversion H; subst m'. reflexivity.
Qed.

Lemma re_match_blank (c : ascii) (s : string) :
  isspace c = false ->
  re_match (Plus isspace) (String " " (String c s))
  = Some (mk_matched " " [] (String c s)).
Proof.
  intros H. unfold re_match. cbn [matches plus_matches].
  change (isspace " ") with true. rewrite H. reflexivity.
Qed.

(** Case analysis on an integer of a known range. *)
Lemma Z_cases (P : Z -> Prop) (lo : Z) (n : nat) :
  (forall k, (k < n)%nat -> P (lo + Z.of_nat k)) ->
  forall x, lo <= x < lo + Z.of_nat n -> P x.
Proof.
  intros H x Hx. replace x with (lo + Z.of_nat (Z.to_nat (x - lo))) by lia.
  apply H. lia.
Qed.

(** A property checked on every integer of a range. *)
Lemma Z_range_check (p : Z -> bool) (lo : Z) (n : nat) :
  forallb p (map (fun k => lo + Z.of_nat k) (seq 0 n)) = true ->
  forall x, lo <= x < lo + Z.of_nat n -> p x = true.
Proof.
  intros H. apply Z_cases. intros k Hk.
  rewrite forallb_forall in H. apply H.
  apply in_map_iff. exists k. split; [reflexivity|]. apply in_seq. lia.
Qed.

Ltac each_case k :=
  repeat (destruct k as [|k]; [vm_compute; reflexivity|]); exfalso; lia.

Lemma digit_char_facts (a : Z) :
  0 <= a <= 9 ->
  isdigit (digit_char a) = true /\
  isspace (digit_char a) = false /\
  Ascii.eqb (digit_char a) "U" = false /\
  Z.of_nat (ord (digit_char a) - 48) = a.
Proof.
  intros H.
  assert (C : (isdigit (digit_char a) && negb (isspace (digit_char a))
               && negb (Ascii.eqb (digit_char a) "U")
               && (Z.of_nat (ord (digit_char a) - 48) =? a))%bool = true).
  { apply (Z_range_check
      (fun a => isdigit (digit_char a) && negb (isspace (digit_char a))
                && negb (Ascii.eqb (digit_char a) "U")
                && (Z.of_nat (ord (digit_char a) - 48) =? a))%bool 0 10).
    - vm_compute. reflexivity.
    - lia. }
  repeat rewrite andb_true_iff in C. rewrite !negb_true_iff in C.
  destruct C as [[[C1 C2] C3] C4]. apply Z.eqb_eq in C4. auto.
Qed.

Lemma re_match_digit (a : Z) (s : string) :
  0 <= a <= 9 ->
  re_match digit (String (digit_char a) s)
  = Some (mk_matched (String (digit_char a) EmptyString) [] s).
Proof.
  intros H. destruct (digit_char_facts a H) as [D _].
  unfold re_match, digit. cbn [matches]. rewrite D. reflexivity.
Qed.

Lemma re_match_A (w : weekday) (s : string) :
  re_match (re_of "A") (weekday_name w ++ s)
  = Some (mk_matched (weekday_name w) [("A"%char, weekday_name w)] s).
Proof. destruct w; vm_compute; reflexivity. Qed.

Lemma re_match_B (m : month) (s : string) :
  re_match (re_of "B") (month_name m ++ s)
  = Some (mk_matched (month_name m) [("B"%char, month_name m)] s).
Proof. destruct m; vm_compute; reflexivity. Qed.

Lemma re_match_d (pd : bool) (day : Z) (s : string) :
  1 <= day <= 31 ->
  re_match (re_of "d") (number_text pd day ++ String "," s)
  = Some (mk_matched (number_text pd day) [("d"%char, number_text pd day)]
                     (String "," s)).
Proof.
  intros H. pattern day. apply (Z_cases _ 1 31); [|lia].
  clear day H. intros k Hk. destruct pd; each_case k.
Qed.

Lemma re_match_Y (year : Z) (s : string) :
  1000 <= year <= 9999 ->
  re_match (re_of "Y") (four_digits year ++ s)
  = Some (mk_matched (four_digits year) [("Y"%char, four_digits year)] s).
Proof.
  intros H.
  assert (0 <= year / 1000 <= 9).
  { split; [apply Z.div_pos; lia|].
    assert (year / 1000 < 10) by (apply Z.div_lt_upper_bound; lia). lia. }
  assert (0 <= year / 100 mod 10 <= 9)
    by (pose proof (Z.mod_pos_bound (year / 100) 10); lia).
  assert (0 <= year / 10 mod 10 <= 9)
    by (pose proof (Z.mod_pos_bound (year / 10) 10); lia).
  assert (0 <= year mod 10 <= 9) by (pose proof (Z.mod_pos_bound year 10); lia).
  change (re_of "Y") with (Group "Y" (Cat digit (Cat digit (Cat digit digit)))).
  unfold four_digits. cbn [String.append].
  erewrite re_match_group.
  2: { repeat (eapply re_match_cat; [apply re_match_digit; assumption|cbn [rest]]).
       apply re_match_digit; assumption. }
  reflexivity.
Qed.

Lemma re_match_I (ph : bool) (hour : Z) (s : string) :
  1 <= hour <= 12 ->
  re_match (re_of "I") (number_text ph hour ++ String ":" s)
  = Some (mk_matched (number_text ph hour) [("I"%char, number_text ph hour)]
                     (String ":" s)).
Proof.
  intros H. pattern hour. apply (Z_cases _ 1 12); [|lia].
  clear hour H. intros k Hk. destruct ph; each_case k.
Qed.

Lemma re_match_M (minute : Z) (s : string) :
  0 <= minute <= 59 ->
  re_match (re_of "M") (two_digits minute ++ s)
  = Some (mk_matched (two_digits minute) [("M"%char, two_digits minute)] s).
Proof.
  intros H. pattern minute. apply (Z_cases _ 0 60); [|lia].
  clear minute H. intros k Hk. each_case k.
Qed.

Lemma re_match_S (second : Z) (s : string) :
  0 <= second <= 59 ->
  re_match (re_of "S") (two_digits second ++ s)
  = Some (mk_matched (two_digits second) [("S"%char, two_digits second)] s).
Proof.
  intros H. pattern second. apply (Z_cases _ 0 60); [|lia].
  clear second H. intros k Hk. each_case k.
Qed.

Lemma re_match_p (pm : bool) (s : string) :
  re_match (re_of "p") (am_pm_mark pm ++ s)
  = Some (mk_matched (am_pm_mark pm) [("p"%char, am_pm_mark pm)] s).
Proof. destruct pm; vm_compute; reflexivity. Qed.

Lemma re_match_lit (c : ascii) (s : string) :
  re_match (Lit c) (String c s)
  = Some (mk_matched (String c EmptyString) [] s).
Proof. unfold re_match. cbn. rewrite Ascii.eqb_refl. reflexivity. Qed.

Lemma starts_nonblank_weekday (w : weekday) :
  starts_nonblank (weekday_name w) = true.
Proof. destruct w; reflexivity. Qed.

Lemma starts_nonblank_month (m : month) :
  starts_nonblank (month_name m) = true.
Proof. destruct m; reflexivity. Qed.

Lemma starts_nonblank_number (padded : bool) (n : Z) :
  1 <= n <= 31 -> starts_nonblank (number_text padded n) = true.
Proof.
  intros H.
  apply (Z_range_check (fun d => starts_nonblank (number_text padded d)) 1 31);
    [destruct padded; vm_compute; reflexivity|lia].
Qed.

Lemma starts_nonblank_year (year : Z) :
  1000 <= year <= 9999 -> starts_nonblank (four_digits year) = true.
Proof.
  intros H. unfold four_digits, starts_nonblank.
  assert (D : 0 <= year / 1000 <= 9).
  { split; [apply Z.div_pos; lia|].
    assert (year / 1000 < 10) by (apply Z.div_lt_upper_bound; lia). lia. }
  destruct (digit_char_facts _ D) as [_ [-> _]]. reflexivity.
Qed.

Lemma starts_nonblank_am_pm (pm : bool) :
  starts_nonblank (am_pm_mark pm) = true.
Proof. destruct pm; reflexivity. Qed.

(** A blank followed by a text that starts with a non-blank. *)
Lemma re_match_blank_before (t s : string) :
  starts_nonblank t = true ->
  re_match (Plus isspace) (String " " (t ++ s))
  = Some (mk_matched " " [] (t ++ s)).
Proof.
  destruct t as [|c t']; cbn [starts_nonblank]; [discriminate|].
  intros H. apply negb_true_iff in H.
  cbn [String.append]. now apply re_match_blank.
Qed.

Lemma matches_to_intro (r : regex) (s c : string) (gs : list (ascii * string))
  (s' : string) :
  re_match r s = Some (mk_matched c gs s') -> matches_to r s gs s'.
Proof. intros H. eexists. split; [exact H|split; reflexivity]. Qed.

Lemma matches_to_cat (r1 r2 : regex) (s s1 s2 : string)
  (g1 g2 : list (ascii * string)) :
  matches_to r1 s g1 s1 -> matches_to r2 s1 g2 s2 ->
  matches_to (Cat r1 r2) s (g1 ++ g2)%list s2.
Proof.
  intros [m1 [H1 [<- <-]]] [m2 [H2 [<- <-]]].
  eexists. split; [apply (re_match_cat _ _ _ _ _ H1 H2)|split; reflexivity].
Qed.

(** On a date in the display format followed by anything, the first match
    captures the eight fields and leaves what follows. *)
Lemma re_match_display (pd ph : bool) (w : weekday) (m : month)
  (day year hour minute second : Z) (pm : bool) (s : string) :
  1 <= day <= 31 -> 1000 <= year <= 9999 -> 1 <= hour <= 12 ->
  0 <= minute <= 59 -> 0 <= second <= 59 ->
  matches_to date_regex
    (display_date pd ph w m day year hour minute second pm ++ s)
    (date_groups pd ph w m day year hour minute second pm) s.
Proof.
  intros Hd Hy Hh Hmi Hs.
  unfold display_date. rewrite !string_app_assoc.
  cbv [date_regex cat_all]. cbn [String.append].
  change (date_groups pd ph w m day year hour minute second pm)
    with ([("A"%char, weekday_name w)] ++ [] ++ [] ++ [("B"%char, month_name m)]
          ++ [] ++ [("d"%char, number_text pd day)] ++ [] ++ []
          ++ [("Y"%char, four_digits year)] ++ [] ++ [] ++ [] ++ []
          ++ [("I"%char, number_text ph hour)] ++ []
          ++ [("M"%char, two_digits minute)] ++ []
          ++ [("S"%char, two_digits second)] ++ []
          ++ [("p"%char, am_pm_mark pm)])%list.
  eapply matches_to_cat; [eapply matches_to_intro, re_match_A|].
  eapply matches_to_cat; [eapply matches_to_intro, re_match_lit|].
  eapply matches_to_cat;
    [eapply matches_to_intro, re_match_blank_before, starts_nonblank_month|].
  eapply matches_to_cat; [eapply matches_to_intro, re_match_B|].
  eapply matches_to_cat;
    [eapply matches_to_intro, re_match_blank_before, starts_nonblank_number;
     assumption|].
  eapply matches_to_cat; [eapply matches_to_intro, re_match_d; assumption|].
  eapply matches_to_cat; [eapply matches_to_intro, re_match_lit|].
  eapply matches_to_cat;
    [eapply matches_to_intro, re_match_blank_before, starts_nonblank_year;
     assumption|].
  eapply matches_to_cat; [eapply matches_to_intro, re_match_Y; assumption|].
  eapply matches_to_cat;
    [eapply matches_to_intro, re_match_blank; reflexivity|].
  eapply matches_to_cat; [eapply matches_to_intro, re_match_lit|].
  eapply matches_to_cat; [eapply matches_to_intro, re_match_lit|].
  eapply matches_to_cat;
    [eapply matches_to_intro, re_match_blank_before,
       starts_nonblank_number; lia|].
  eapply matches_to_cat; [eapply matches_to_intro, re_match_I; assumption|].
  eapply matches_to_cat; [eapply matches_to_intro, re_match_lit|].
  eapply matches_to_cat; [eapply matches_to_intro, re_match_M; assumption|].
  eapply matches_to_cat; [eapply matches_to_intro, re_match_lit|].
  eapply matches_to_cat; [eapply matches_to_intro, re_match_S; assumption|].
  eapply matches_to_cat;
    [eapply matches_to_intro, re_match_blank_before, starts_nonblank_am_pm|].
  eapply matches_to_intro, re_match_p.
Qed.

(** *** Converting the captured fields *)

Lemma reads_back_spec (render : Z -> string) (x : Z) :
  reads_back render x = true -> int (render x) = Ok x.
Proof.
  unfold reads_back. destruct (int (render x)) as [v|]; [|discriminate].
  intros H. apply Z.eqb_eq in H. now subst.
Qed.

Lemma int_number_text (padded : bool) (n : Z) :
  1 <= n <= 31 -> int (number_text padded n) = Ok n.
Proof.
  intros H. apply (reads_back_spec (number_text padded)).
  apply (Z_range_check (reads_back (number_text padded)) 1 31);
    [destruct padded; vm_compute; reflexivity|lia].
Qed.

Lemma int_two_digits (n : Z) :
  0 <= n <= 59 -> int (two_digits n) = Ok n.
Proof.
  intros H. apply reads_back_spec.
  apply (Z_range_check (reads_back two_digits) 0 60);
    [vm_compute; reflexivity|lia].
Qed.

Lemma int_four_digits (year : Z) :
  1000 <= year <= 9999 -> int (four_digits year) = Ok year.
Proof.
  intros H. apply reads_back_spec.
  apply (Z_range_check (reads_back four_digits) 1000 (Z.to_nat 9000));
    [vm_compute; reflexivity|lia].
Qed.

Lemma index_of_month (m : month) :
  index_of (lower (month_name m)) f_month = Ok (month_number m).
Proof. destruct m; reflexivity. Qed.

Lemma index_of_weekday (w : weekday) :
  exists k, index_of (lower (weekday_name w)) f_weekday = Ok k.
Proof. destruct w; eexists; reflexivity. Qed.

Lemma convert_display (found_dict : list (ascii * string)) (pd ph : bool)
  (w : weekday) (m : month) (day year hour minute second : Z) (pm : bool) :
  1 <= day <= 31 -> 1000 <= year <= 9999 -> 1 <= hour <= 12 ->
  0 <= minute <= 59 -> 0 <= second <= 59 ->
  lookup "p" found_dict = Some (am_pm_mark pm) ->
  exists k,
    for_loop (date_groups pd ph w m day year hour minute second pm)
      (convert_group found_dict) initial_fields
    = Ok (mk_fields (Some year) (month_number m) day (hour24 hour pm)
                    minute second (Some k)).
Proof.
  intros Hd Hy Hh Hmi Hs Hp.
  destruct (index_of_weekday w) as [k Hk]. exists k.
  unfold date_groups, initial_fields.
  cbn [for_loop].
  unfold convert_group at 1. cbn [Ascii.eqb Bool.eqb]. rewrite Hk. cbn [bind].
  unfold convert_group at 1. cbn [Ascii.eqb Bool.eqb].
  rewrite index_of_month. cbn [bind].
  unfold convert_group at 1. cbn [Ascii.eqb Bool.eqb].
  rewrite (int_number_text _ _ Hd). cbn [bind].
  unfold convert_group at 1. cbn [Ascii.eqb Bool.eqb].
  rewrite (int_four_digits _ Hy). cbn [bind].
  unfold convert_group at 1. cbn [Ascii.eqb Bool.eqb].
  rewrite (int_number_text ph hour) by lia. cbn [bind]. rewrite Hp.
  unfold convert_group at 1. cbn [Ascii.eqb Bool.eqb].
  rewrite (int_two_digits _ Hmi). cbn [bind].
  unfold convert_group at 1. cbn [Ascii.eqb Bool.eqb].
  rewrite (int_two_digits _ Hs). cbn [bind].
  unfold convert_group at 1. cbn [Ascii.eqb Bool.eqb].
  cbn [bind]. do 2 f_equal.
  unfold hour24, get.
  assert (L : lower (am_pm_mark pm) = if pm then "pm" else "am")
    by (destruct pm; reflexivity).
  rewrite L.
  destruct pm; cbn; destruct (Z.eqb_spec hour 12); cbn; lia.
Qed.

(** *** [strptime] on the display format *)

Lemma check_date_fields_ok (year month day : Z) :
  1 <= year <= 9999 -> 1 <= month <= 12 ->
  1 <= day <= days_in_month year month ->
  check_date_fields year month day = Ok tt.
Proof.
  intros Hy Hm Hd. unfold check_date_fields.
  destruct (Z.leb_spec 1 year); [|lia].
  destruct (Z.leb_spec year 9999); [|lia].
  destruct (Z.leb_spec 1 month); [|lia].
  destruct (Z.leb_spec month 12); [|lia].
  destruct (Z.leb_spec 1 day); [|lia].
  destruct (Z.leb_spec day (days_in_month year month)); [|lia].
  reflexivity.
Qed.

Lemma check_time_fields_ok (hour minute second : Z) :
  0 <= hour <= 23 -> 0 <= minute <= 59 -> 0 <= second <= 59 ->
  check_time_fields hour minute second = Ok tt.
Proof.
  intros Hh Hm Hs. unfold check_time_fields.
  destruct (Z.leb_spec 0 hour); [|lia].
  destruct (Z.leb_spec hour 23); [|lia].
  destruct (Z.leb_spec 0 minute); [|lia].
  destruct (Z.leb_spec minute 59); [|lia].
  destruct (Z.leb_spec 0 second); [|lia].
  destruct (Z.leb_spec second 59); [|lia].
  reflexivity.
Qed.

Lemma month_number_range (m : month) : 1 <= month_number m <= 12.
Proof. destruct m; simpl; lia. Qed.

Lemma days_in_month_range (year : Z) (m : month) :
  28 <= days_in_month year (month_number m) <= 31.
Proof.
  unfold days_in_month. destruct m; simpl; destruct (is_leap year); simpl; lia.
Qed.

Lemma hour24_range (hour : Z) (pm : bool) :
  1 <= hour <= 12 -> 0 <= hour24 hour pm <= 23.
Proof.
  intros H. unfold hour24. destruct (Z.eqb_spec hour 12); destruct pm; lia.
Qed.

(** A date in the display format followed by [s]: [strptime] returns the
    wall-clock time when nothing follows and raises otherwise. *)
Lemma strptime_display (pd ph : bool) (w : weekday) (m : month)
  (day year hour minute second : Z) (pm : bool) (s : string) :
  1000 <= year <= 9999 -> 1 <= day <= days_in_month year (month_number m) ->
  1 <= hour <= 12 -> 0 <= minute <= 59 -> 0 <= second <= 59 ->
  strptime (display_date pd ph w m day year hour minute second pm ++ s)
    parse_format
  = match s with
    | EmptyString =>
        Ok (mk_datetime year (month_number m) day (hour24 hour pm) minute second)
    | String _ _ => Raise ValueError
    end.
Proof.
  intros Hy Hd Hh Hmi Hs.
  pose proof (days_in_month_range year m) as Hdim.
  pose proof (month_number_range m) as Hm.
  pose proof (hour24_range hour pm Hh) as Hh24.
  unfold strptime. rewrite pattern_parse_format. cbn [bind].
  destruct (re_match_display pd ph w m day year hour minute second pm s)
    as [found [Hf [Hg Hr]]]; try assumption; try lia.
  rewrite Hf, Hr, Hg.
  destruct s as [|c s]; [|reflexivity].
  cbn [String.eqb negb].
  destruct (convert_display
              (date_groups pd ph w m day year hour minute second pm)
              pd ph w m day year hour minute second pm) as [k Hk];
    try assumption; try lia; [reflexivity|].
  rewrite Hk. cbn [bind].
  unfold date_toordinal, new_datetime.
  rewrite check_date_fields_ok by lia. cbn [bind].
  rewrite check_date_fields_ok; [|lia|lia|].
  2: { change (days_in_month year 1) with 31. lia. }
  cbn [bind].
  rewrite check_time_fields_ok by lia.
  reflexivity.
Qed.

(** *** Cleaning the date string *)

Lemma replace_UTC_after (a b : string) :
  no_U a = true ->
  replace "UTC" EmptyString (a ++ b) = a ++ replace "UTC" EmptyString b.
Proof.
  unfold replace. induction a as [|c a IH]; intros H; [reflexivity|].
  cbn [no_U] in H. apply andb_true_iff in H. destruct H as [Hc Ha].
  apply negb_true_iff in Hc.
  cbn [String.append replace_from startswith].
  rewrite Ascii.eqb_sym, Hc. cbn [andb]. now rewrite IH.
Qed.

Lemma no_U_app (a b : string) : no_U (a ++ b) = (no_U a && no_U b)%bool.
Proof.
  induction a as [|c a IH]; [reflexivity|].
  cbn [String.append no_U]. now rewrite IH, andb_assoc.
Qed.

Lemma no_U_display (pd ph : bool) (w : weekday) (m : month)
  (day year hour minute second : Z) (pm : bool) :
  1 <= day <= 31 -> 1000 <= year <= 9999 -> 1 <= hour <= 12 ->
  0 <= minute <= 59 -> 0 <= second <= 59 ->
  no_U (display_date pd ph w m day year hour minute second pm) = true.
Proof.
  intros Hd Hy Hh Hmi Hs. unfold display_date. rewrite !no_U_app.
  assert (T : forall n, 0 <= n <= 59 -> no_U (two_digits n) = true).
  { intros n Hn.
    apply (Z_range_check (fun n => no_U (two_digits n)) 0 60);
      [vm_compute; reflexivity|lia]. }
  assert (D : forall padded n, 1 <= n <= 31 ->
                no_U (number_text padded n) = true).
  { intros padded n Hn.
    apply (Z_range_check (fun n => no_U (number_text padded n)) 1 31);
      [destruct padded; vm_compute; reflexivity|lia]. }
  assert (Y : no_U (four_digits year) = true).
  { apply (Z_range_check (fun n => no_U (four_digits n)) 1000 (Z.to_nat 9000));
      [vm_compute; reflexivity|lia]. }
  rewrite !D, Y, !T by lia.
  destruct w, m, pm; reflexivity.
Qed.

Lemma lstrip_nonblank (s : string) :
  starts_nonblank s = true -> lstrip s = s.
Proof.
  destruct s as [|c s]; [reflexivity|]. cbn [starts_nonblank lstrip].
  intros H. apply negb_true_iff in H. now rewrite H.
Qed.

Lemma starts_nonblank_app (a b : string) :
  starts_nonblank a = true -> starts_nonblank (a ++ b) = true.
Proof. destruct a; [discriminate|auto]. Qed.

Lemma rstrip_app_keep (a b : string) :
  rstrip b <> EmptyString -> rstrip (a ++ b) = a ++ rstrip b.
Proof.
  intros H. induction a as [|c a IH]; [reflexivity|].
  cbn [String.append rstrip]. rewrite IH.
  destruct (a ++ rstrip b) eqn:E; [|reflexivity].
  destruct a; [cbn in E; contradiction|discriminate].
Qed.

Lemma rstrip_app_drop (a b : string) :
  rstrip b = EmptyString -> rstrip (a ++ b) = rstrip a.
Proof.
  intros H. induction a as [|c a IH]; [assumption|].
  cbn [String.append rstrip]. now rewrite IH.
Qed.

Lemma rstrip_all_blank (s : string) :
  rstrip s = EmptyString <-> all_blank s = true.
Proof.
  induction s as [|c s IH]; [now split|].
  cbn [rstrip all_blank]. rewrite andb_true_iff, <- IH.
  destruct (rstrip s) as [|c' r]; destruct (isspace c); split; intros H;
    try discriminate H; try (split; reflexivity); try reflexivity;
    destruct H as [H1 H2]; discriminate.
Qed.

Lemma rstrip_am_pm (pm : bool) : rstrip (am_pm_mark pm) = am_pm_mark pm.
Proof. destruct pm; reflexivity. Qed.

Lemma rstrip_display (pd ph : bool) (w : weekday) (m : month)
  (day year hour minute second : Z) (pm : bool) :
  rstrip (display_date pd ph w m day year hour minute second pm)
  = display_date pd ph w m day year hour minute second pm.
Proof.
  unfold display_date. rewrite <- !string_app_assoc.
  rewrite rstrip_app_keep; rewrite rstrip_am_pm; [reflexivity|].
  destruct pm; discriminate.
Qed.

Lemma not_unknown_date (w : weekday) (s : string) :
  (weekday_name w ++ s =? "Unknown Date")%string = false.
Proof. destruct w; reflexivity. Qed.

(** What [strptime] receives for a date in the display format followed by
    a blank and a zone [tz]. *)
Lemma cleaned_display (pd ph : bool) (w : weekday) (m : month)
  (day year hour minute second : Z) (pm : bool) (tz : string) :
  1 <= day <= 31 -> 1000 <= year <= 9999 -> 1 <= hour <= 12 ->
  0 <= minute <= 59 -> 0 <= second <= 59 ->
  cleaned (display_date pd ph w m day year hour minute second pm ++ " " ++ tz)
  = display_date pd ph w m day year hour minute second pm
    ++ (if all_blank (replace "UTC" EmptyString tz) then EmptyString
        else " " ++ rstrip (replace "UTC" EmptyString tz)).
Proof.
  intros Hd Hy Hh Hmi Hs. unfold cleaned.
  rewrite <- string_app_assoc, replace_UTC_after.
  2: { rewrite no_U_app, no_U_display by assumption. reflexivity. }
  rewrite string_app_assoc. unfold strip.
  rewrite lstrip_nonblank.
  2: { unfold display_date. rewrite !string_app_assoc.
       apply starts_nonblank_app, starts_nonblank_weekday. }
  set (t := replace "UTC" EmptyString tz).
  destruct (all_blank t) eqn:B.
  - rewrite rstrip_app_drop.
    + rewrite rstrip_display. now rewrite string_app_nil_r.
    + apply rstrip_all_blank in B. cbn [String.append rstrip]. now rewrite B.
  - assert (N : rstrip t <> EmptyString).
    { intros E. apply rstrip_all_blank in E. congruence. }
    rewrite rstrip_app_keep.
    + f_equal. cbn [String.append rstrip].
      destruct (rstrip t); [contradiction|reflexivity].
    + cbn [String.append rstrip]. destruct (rstrip t); [contradiction|discriminate].
Qed.

Lemma cleaned_display_alone (pd ph : bool) (w : weekday) (m : month)
  (day year hour minute second : Z) (pm : bool) :
  1 <= day <= 31 -> 1000 <= year <= 9999 -> 1 <= hour <= 12 ->
  0 <= minute <= 59 -> 0 <= second <= 59 ->
  cleaned (display_date pd ph w m day year hour minute second pm)
  = display_date pd ph w m day year hour minute second pm.
Proof.
  intros Hd Hy Hh Hmi Hs. unfold cleaned.
  rewrite <- (string_app_nil_r (display_date _ _ _ _ _ _ _ _ _ _)) at 1.
  rewrite replace_UTC_after by (now apply no_U_display).
  cbn [replace replace_from]. rewrite string_app_nil_r.
  unfold strip. rewrite lstrip_nonblank.
  - apply rstrip_display.
  - unfold display_date. apply starts_nonblank_app, starts_nonblank_weekday.
Qed.

Lemma datetime_to_epoch_cases (datetime_str : string) :
  datetime_to_epoch datetime_str
  = Ok (if (datetime_str =? "Unknown Date")%string then None
        else match strptime (cleaned datetime_str) parse_format with
             | Ok datetime_obj =>
                 Some (timestamp (replace_tzinfo_utc datetime_obj))
             | Raise _ => None
             end).
Proof.
  unfold datetime_to_epoch, cleaned, parse_format.
  destruct (datetime_str =? "Unknown Date")%string; [reflexivity|].
  pose proof (strptime_only_ValueError
    (strip (replace "UTC" EmptyString datetime_str))
    (strip (replace "%Z" EmptyString "%A, %B %d, %Y at %I:%M:%S %p %Z"))) as H.
  destruct (strptime _ _) as [dt|e]; simpl in *; [reflexivity|].
  now subst e.
Qed.

Lemma not_unknown_display (pd ph : bool) (w : weekday) (m : month)
  (day year hour minute second : Z) (pm : bool) (s : string) :
  (display_date pd ph w m day year hour minute second pm ++ s
   =? "Unknown Date")%string = false.
Proof.
  unfold display_date. rewrite !string_app_assoc. apply not_unknown_date.
Qed.

Example display_date_sample :
  display_date false true Monday January 1 2024 9 30 0 false
  = "Monday, January 1, 2024 at 09:30:00 AM" /\
  display_date false false Tuesday March 5 2024 3 7 21 true
  = "Tuesday, March 5, 2024 at 3:07:21 PM".
Proof. split; reflexivity. Qed.

(** C4 (as amended): for every date in the display format (day and hour
    with or without a leading zero) followed by a blank and a zone token,
    the conversion returns the timestamp of the wall-clock time read as UTC
    when deleting every [UTC] from the token leaves nothing but blanks (the
    token [UTC] itself, or none), and [None] for every other token, [PST]
    included; without a token the wall-clock time is read as UTC; and
    [None] is returned only on the sentinel [Unknown Date] or when
    [strptime] raises. *)
Theorem C4_zone_token (pd ph : bool) (w : weekday) (m : month)
  (day year hour minute second : Z) (pm : bool) (tz : string) :
  1000 <= year <= 9999 -> 1 <= day <= days_in_month year (month_number m) ->
  1 <= hour <= 12 -> 0 <= minute <= 59 -> 0 <= second <= 59 ->
  datetime_to_epoch
    (display_date pd ph w m day year hour minute second pm ++ " " ++ tz)
  = Ok (if all_blank (replace "UTC" EmptyString tz)
        then Some (utc_seconds year (month_number m) day (hour24 hour pm)
                               minute second)
        else None) /\
  datetime_to_epoch (display_date pd ph w m day year hour minute second pm)
  = Ok (Some (utc_seconds year (month_number m) day (hour24 hour pm)
                          minute second)) /\
  (forall datetime_str,
     datetime_to_epoch datetime_str = Ok None <->
     datetime_str = "Unknown Date" \/
     exists e, strptime (cleaned datetime_str) parse_format = Raise e).
Proof.
  intros Hy Hd Hh Hmi Hs.
  pose proof (days_in_month_range year m) as Hdim.
  assert (Hd' : 1 <= day <= 31) by lia.
  assert (T : timestamp (replace_tzinfo_utc
                (mk_datetime year (month_number m) day (hour24 hour pm)
                             minute second))
              = utc_seconds year (month_number m) day (hour24 hour pm)
                            minute second).
  { unfold timestamp, utc_seconds. cbn. lia. }
  split; [|split].
  - rewrite datetime_to_epoch_cases, not_unknown_display.
    rewrite cleaned_display by assumption.
    rewrite strptime_display by assumption.
    destruct (all_blank (replace "UTC" EmptyString tz)); [|reflexivity].
    now rewrite T.
  - rewrite datetime_to_epoch_cases.
    rewrite <- (string_app_nil_r (display_date _ _ _ _ _ _ _ _ _ _)) at 1.
    rewrite not_unknown_display.
    rewrite cleaned_display_alone by assumption.
    rewrite <- (string_app_nil_r (display_date _ _ _ _ _ _ _ _ _ _)).
    rewrite strptime_display by assumption.
    now rewrite T.
  - intros s. rewrite datetime_to_epoch_cases.
    destruct (String.eqb_spec s "Unknown Date") as [->|N].
    + split; [now left|reflexivity].
    + destruct (strptime (cleaned s) parse_format) as [dt|e].
      * split; [discriminate|].
        intros [?|[e ?]]; [contradiction|discriminate].
      * split; [|reflexivity]. intros _. right. now exists e.
Qed.

(** C4 (as amended) on 1 January 2024, 09:30:00 AM, with the token [PST]. *)
Lemma C4_zone_token_witness :
  1000 <= 2024 <= 9999 /\
  1 <= 1 <= days_in_month 2024 (month_number January) /\
  1 <= 9 <= 12 /\ 0 <= 30 <= 59 /\ 0 <= 0 <= 59 /\
  datetime_to_epoch
    (display_date false true Monday January 1 2024 9 30 0 false ++ " " ++ "PST")
  = Ok (if all_blank (replace "UTC" EmptyString "PST")
        then Some (utc_seconds 2024 (month_number January) 1 (hour24 9 false)
                               30 0)
        else None).
Proof.
  assert (D : 1 <= 1 <= days_in_month 2024 (month_number January))
    by (vm_compute; split; discriminate).
  split; [lia|]. split; [exact D|]. split; [lia|]. split; [lia|]. split; [lia|].
  apply (proj1 (C4_zone_token false true Monday January 1 2024 9 30 0 false
                  "PST"
                  ltac:(lia) D ltac:(lia) ltac:(lia) ltac:(lia))).
Defined.

(** C4 (as stated) fails: with the token [PST] instead of [UTC] the same
    wall-clock time gives [None], not the same timestamp. *)
Lemma C4_PST_is_not_read_as_UTC :
  datetime_to_epoch "Monday, January 1, 2024 at 09:30:00 AM UTC"
  = Ok (Some 1704101400) /\
  datetime_to_epoch "Monday, January 1, 2024 at 09:30:00 AM PST" = Ok None /\
  datetime_to_epoch "Monday, January 1, 2024 at 09:30:00 AM PST"
  <> datetime_to_epoch "Monday, January 1, 2024 at 09:30:00 AM UTC".
Proof.
  assert (U : datetime_to_epoch "Monday, January 1, 2024 at 09:30:00 AM UTC"
              = Ok (Some 1704101400)) by (vm_compute; reflexivity).
  assert (P : datetime_to_epoch "Monday, January 1, 2024 at 09:30:00 AM PST"
              = Ok None) by (vm_compute; reflexivity).
  split; [exact U|]. split; [exact P|]. rewrite U, P. discriminate.
Qed.

(** * The code on what [json.load] returns *)

(** ** The typed functions are the code on exports of the expected types *)

Lemma getitem_map {A B : Type} (g : A -> B) (l : list A) (i : Z) :
  getitem (map g l) i
  = match getitem l i with
    | Ok x => Ok (g x)
    | Raise e => Raise e
    end.
Proof.
  unfold getitem, len. rewrite length_map, nth_error_map.
  destruct (_ <? 0); [reflexivity|].
  destruct (nth_error l _); reflexivity.
Qed.

Lemma getitem_In {A : Type} (l : list A) (i : Z) (x : A) :
  getitem l i = Ok x -> In x l.
Proof.
  unfold getitem. destruct (_ <? 0); [discriminate|].
  destruct (nth_error l _) eqn:E; [|discriminate].
  intros [= <-]. eapply nth_error_In; eassumption.
Qed.

Lemma for_loop_refines {A B S T : Type} (g : A -> B) (f : T -> S)
  (xs : list A) (raw : S -> A -> outcome S) (body : T -> B -> outcome T) :
  (forall t x t', In x xs -> body t (g x) = Ok t' -> raw (f t) x = Ok (f t')) ->
  forall t t',
    for_loop (map g xs) body t = Ok t' -> for_loop xs raw (f t) = Ok (f t').
Proof.
  induction xs as [|x xs IH]; intros H t t'; simpl.
  - now intros [= <-].
  - destruct (body t (g x)) as [t1|e] eqn:E; [|discriminate]. cbn [bind].
    rewrite (H t x t1) by (auto; now left). cbn [bind].
    apply IH. intros; apply H; auto; now right.
Qed.

Lemma is_message_dict (m : json) :
  is_message m = true ->
  exists entries,
    m = JObj entries /\
    optional is_creator "creator" entries = true /\
    optional is_str "text" entries = true /\
    optional is_str "created_date" entries = true /\
    optional is_str "message_id" entries = true.
Proof.
  destruct m as [| | | | |entries]; try discriminate. cbn [is_message].
  rewrite !andb_true_iff. intros [[[H1 H2] H3] H4]. eauto 6.
Qed.

Lemma dict_get_str (key : string) (entries : list (string * json))
  (default : string) :
  optional is_str key entries = true ->
  Raw.dict_get (JObj entries) key (JStr default)
  = Ok (JStr (get (string_at key (JObj entries)) default)).
Proof.
  unfold optional, Raw.dict_get, string_at.
  destruct (Raw.entry key entries) as [[]|]; simpl; try discriminate;
    reflexivity.
Qed.

Lemma dict_get_creator (m : json) :
  is_message m = true ->
  exists creator,
    Raw.dict_get m "creator" (JObj []) = Ok creator /\
    forall default,
      Raw.dict_get creator "name" (JStr default)
      = Ok (JStr (get (Creator.name
                         (get (Message.creator (message_of m)) Creator.empty))
                      default)).
Proof.
  intros H. destruct (is_message_dict m H) as [entries [-> [Hc _]]].
  unfold optional in Hc. cbn [Raw.dict_get message_of Message.creator].
  destruct (Raw.entry "creator" entries) as [c|].
  - exists c. split; [reflexivity|]. intros default.
    destruct c as [| | | | |centries]; try discriminate.
    cbn [option_map get creator_of Creator.name].
    now apply dict_get_str.
  - exists (JObj []). split; reflexivity.
Qed.

Lemma datetime_to_epoch_refines (datetime_str : string) :
  Raw.datetime_to_epoch (JStr datetime_str)
  = match datetime_to_epoch datetime_str with
    | Ok unix_time => Ok (unix_time_json unix_time)
    | Raise e => Raise e
    end.
Proof.
  unfold Raw.datetime_to_epoch, datetime_to_epoch. cbn [Raw.equal bind].
  destruct (datetime_str =? "Unknown Date")%string; [reflexivity|].
  destruct (strptime _ _) as [dt|[]]; reflexivity.
Qed.

Lemma text_part_refines (messages : list json) (text_parts : list string)
  (j : Z) (text_parts' : list string) :
  forallb is_message messages = true ->
  text_parts_body (map message_of messages) text_parts j = Ok text_parts' ->
  (j_message <- Raw.index (JList messages) j ;;
   j_creator <- Raw.dict_get j_message "creator" (JObj []) ;;
   j_name <- Raw.dict_get j_creator "name" (JStr "Unknown") ;;
   j_text <- Raw.dict_get j_message "text" (JStr "No text available") ;;
   let part :=
     Raw.format j_name ++ newline ++ Raw.format j_text ++ newline ++ newline in
   Ok (text_parts ++ [part])%list) = Ok text_parts'.
Proof.
  intros W. unfold text_parts_body. cbn [Raw.index]. rewrite getitem_map.
  destruct (getitem messages j) as [m|e] eqn:G; [|discriminate].
  cbn [bind]. intros <-.
  assert (Hm : is_message m = true).
  { rewrite forallb_forall in W. apply W. eapply getitem_In; eassumption. }
  destruct (dict_get_creator m Hm) as [c [Hc Hn]]. rewrite Hc. cbn [bind].
  rewrite Hn. cbn [bind].
  destruct (is_message_dict m Hm) as [entries [-> [_ [Ht _]]]].
  rewrite (dict_get_str "text" entries _ Ht). reflexivity.
Qed.

Lemma window_refines (type : string) (name : name_value) (link : string)
  (messages : list json) (result : list Document.t) (i : Z)
  (result' : list Document.t) :
  forallb is_message messages = true ->
  window_body type name link (map message_of messages) result i = Ok result' ->
  Raw.window type (name_json name) link (JList messages)
    (map document_json result) i
  = Ok (map document_json result').
Proof.
  intros W. unfold window_body, Raw.window. cbn [Raw.index Raw.size].
  rewrite !getitem_map.
  destruct (getitem messages i) as [middle|e] eqn:Gm; [|discriminate].
  destruct (getitem messages (i - 10)) as [start|e] eqn:Gs; [|discriminate].
  cbn [bind].
  assert (Hm : is_message middle = true).
  { rewrite forallb_forall in W. apply W. eapply getitem_In; eassumption. }
  assert (Hs : is_message start = true).
  { rewrite forallb_forall in W. apply W. eapply getitem_In; eassumption. }
  destruct (is_message_dict middle Hm) as [me [Em [_ [_ [Hd _]]]]].
  destruct (is_message_dict start Hs) as [se [Es [_ [_ [_ Hi]]]]].
  subst middle start.
  rewrite !(dict_get_str "message_id" se _ Hi).
  rewrite !(dict_get_str "created_date" me _ Hd). cbn [bind].
  rewrite datetime_to_epoch_refines.
  change (Message.created_date (message_of (JObj me)))
    with (string_at "created_date" (JObj me)).
  change (Message.message_id (message_of (JObj se)))
    with (string_at "message_id" (JObj se)).
  destruct (datetime_to_epoch _) as [unix_time|e]; [|discriminate].
  cbn [bind].
  replace (len (map message_of messages)) with (len messages)
    by (unfold len; now rewrite length_map).
  destruct (for_loop _ (text_parts_body _) []) as [text_parts|e] eqn:L;
    [|discriminate].
  cbn [bind]. intros [= <-].
  rewrite <- (map_id (range _ _ 1)) in L.
  apply (for_loop_refines (fun j => j) (fun t : list string => t)) with
    (raw := fun text_parts j =>
       j_message <- Raw.index (JList messages) j ;;
       j_creator <- Raw.dict_get j_message "creator" (JObj []) ;;
       j_name <- Raw.dict_get j_creator "name" (JStr "Unknown") ;;
       j_text <- Raw.dict_get j_message "text" (JStr "No text available") ;;
       let part :=
         Raw.format j_name ++ newline ++ Raw.format j_text
         ++ newline ++ newline in
       Ok (text_parts ++ [part])%list) in L.
  - cbn [Raw.index] in L. rewrite L. cbn [bind].
    rewrite map_app. reflexivity.
  - intros t x t' _ H. now apply text_part_refines.
Qed.

Lemma window_loop_refines (type : string) (name : name_value) (link : string)
  (messages : list json) (docs : list Document.t) :
  forallb is_message messages = true ->
  for_loop (range 10 (len (map message_of messages)) 19)
    (window_body type name link (map message_of messages)) [] = Ok docs ->
  for_loop (range 10 (len messages) 19)
    (Raw.window type (name_json name) link (JList messages)) []
  = Ok (map document_json docs).
Proof.
  intros W L.
  replace (len (map message_of messages)) with (len messages) in L
    by (unfold len; now rewrite length_map).
  rewrite <- (map_id (range _ _ 19)) in L.
  apply (for_loop_refines (fun i => i) (map document_json)
           _ (Raw.window type (name_json name) link (JList messages))) in L.
  - exact L.
  - intros t x t' _ H. now apply window_refines.
Qed.

Lemma is_export_messages (data : json) :
  is_export data = true ->
  exists messages,
    Raw.subscript data "messages" = Ok (JList messages) /\
    items_at "messages" data = messages /\
    forallb is_message messages = true.
Proof.
  destruct data as [| | | | |entries]; try discriminate.
  cbn [is_export Raw.subscript items_at].
  destruct (Raw.entry "messages" entries) as [[| | | |messages|]|];
    try discriminate.
  eauto.
Qed.

Lemma not_in_refines (x : string) (l : list string) :
  Raw.not_in (JStr x) (map JStr l) = not_in x l.
Proof.
  unfold Raw.not_in, not_in. f_equal.
  induction l as [|y l IH]; [reflexivity|].
  change (existsb (Raw.equal (JStr x)) (map JStr (y :: l)))
    with ((x =? y)%string || existsb (Raw.equal (JStr x)) (map JStr l))%bool.
  now rewrite IH.
Qed.

Lemma process_dms_refines (data : json) (docs : list Document.t) :
  is_export data = true ->
  process_dms (messages_of data) = Ok docs ->
  Raw.process_dms (Parsed data) = Ok (map document_json docs).
Proof.
  intros W. destruct (is_export_messages data W) as [messages [S [I M]]].
  unfold Raw.process_dms, process_dms, messages_of.
  cbn [Raw.json_load bind]. rewrite S, I. cbn [bind Raw.iter Raw.size].
  destruct (for_loop (map message_of messages) _ []) as [unique_names|e] eqn:N;
    [|discriminate].
  cbn [bind].
  apply (for_loop_refines message_of (map JStr)) with
    (raw := fun unique_names message =>
       creator <- Raw.dict_get message "creator" (JObj []) ;;
       creator_name <- Raw.dict_get creator "name" (JStr "Unknown") ;;
       if Raw.not_in creator_name unique_names
       then Ok (unique_names ++ [creator_name])%list
       else Ok unique_names) in N.
  - cbn [map] in N. rewrite N. cbn [bind].
    apply (window_loop_refines "dm" (NameList unique_names)); assumption.
  - intros t m t' Hin H.
    assert (Hm : is_message m = true).
    { rewrite forallb_forall in M. now apply M. }
    destruct (dict_get_creator m Hm) as [c [Hc Hn]]. rewrite Hc. cbn [bind].
    rewrite Hn. cbn [bind]. rewrite not_in_refines.
    destruct (not_in _ t); injection H as <-; [|reflexivity].
    now rewrite map_app.
Qed.

Lemma is_member_dict (item : json) :
  is_member item = true ->
  exists entries group_id,
    item = JObj entries /\
    Raw.entry "group_id" entries = Some (JStr group_id) /\
    match Raw.entry "group_name" entries with
    | None | Some JNull | Some (JStr _) => True
    | _ => False
    end.
Proof.
  destruct item as [| | | | |entries]; try discriminate. cbn [is_member].
  rewrite andb_true_iff. intros [H1 H2]. unfold optional in H2.
  destruct (Raw.entry "group_id" entries) as [[| | |group_id| |]|] eqn:Eg;
    try discriminate.
  exists entries, group_id. split; [reflexivity|]. split; [exact Eg|].
  destruct (Raw.entry "group_name" entries) as [[]|]; try discriminate;
    exact I.
Qed.

Lemma find_group_name_refines (group_id_part : string) (items : list json) :
  forallb is_member items = true ->
  Raw.find_group_name group_id_part items
  = Ok (JStr (find_group_name group_id_part (map member_of items))).
Proof.
  induction items as [|item items IH]; [reflexivity|].
  cbn [forallb]. rewrite andb_true_iff. intros [Hi Hs].
  specialize (IH Hs).
  destruct (is_member_dict item Hi) as [entries [group_id [-> [Eg En]]]].
  cbn [Raw.find_group_name map find_group_name Raw.subscript Raw.str_in
       member_of Membership.group_id Membership.group_name string_at].
  rewrite Eg. cbn [bind Raw.str_in].
  destruct (contains group_id_part group_id); [|exact IH].
  destruct (Raw.entry "group_name" entries) as [[| | |group_name| |]|];
    cbn [bind]; try contradiction; try exact IH.
  reflexivity.
Qed.

Lemma is_roster_items (data : json) :
  is_roster data = true ->
  exists items,
    Raw.subscript data "membership_info" = Ok (JList items) /\
    items_at "membership_info" data = items /\
    forallb is_member items = true.
Proof.
  destruct data as [| | | | |entries]; try discriminate.
  cbn [is_roster Raw.subscript items_at].
  destruct (Raw.entry "membership_info" entries) as [[| | | |items|]|];
    try discriminate.
  eauto.
Qed.

Lemma get_space_name_refines (data : json) (message_id space_name : string) :
  is_roster data = true ->
  get_space_name (roster_of data) message_id = Ok space_name ->
  Raw.get_space_name (Parsed data) (JStr message_id) = Ok (JStr space_name).
Proof.
  intros W. destruct (is_roster_items data W) as [items [S [I M]]].
  unfold Raw.get_space_name, get_space_name, roster_of.
  cbn [Raw.json_load bind]. rewrite I.
  destruct (getitem (split "/" message_id) 0) as [group_id_part|e];
    [|discriminate].
  cbn [bind]. rewrite S. cbn [bind Raw.iter].
  rewrite find_group_name_refines by assumption. now intros [= <-].
Qed.

Lemma process_spaces_refines (data user_info_data : json)
  (docs : list Document.t) :
  is_export data = true -> is_roster user_info_data = true ->
  process_spaces (messages_of data) (roster_of user_info_data) = Ok docs ->
  Raw.process_spaces (Parsed data) (Parsed user_info_data)
  = Ok (map document_json docs).
Proof.
  intros W R. destruct (is_export_messages data W) as [messages [S [I M]]].
  unfold Raw.process_spaces, process_spaces, messages_of.
  cbn [Raw.json_load bind]. rewrite S, I. cbn [bind].
  destruct messages as [|first messages].
  - cbn [map Raw.truth bind Raw.size]. intros L.
    now apply (window_loop_refines "space" (NameStr "Unknown Space") _ []).
  - cbn [Raw.truth Raw.index]. cbn [map].
    change (getitem (first :: messages) 0) with (@Ok json first).
    change (getitem (message_of first :: map message_of messages) 0)
      with (Ok (message_of first)).
    cbn [bind].
    assert (Hf : is_message first = true).
    { cbn [forallb] in M. now apply andb_true_iff in M. }
    destruct (is_message_dict first Hf) as [entries [-> [_ [_ [_ Hi]]]]].
    rewrite (dict_get_str "message_id" entries _ Hi). cbn [bind].
    change (Message.message_id (message_of (JObj entries)))
      with (string_at "message_id" (JObj entries)).
    destruct (get_space_name _ _) as [space_name|e] eqn:G; [|discriminate].
    rewrite (get_space_name_refines _ _ _ R G). cbn [bind Raw.size].
    intros L.
    now apply (window_loop_refines "space" (NameStr space_name) _
                 (JObj entries :: messages)).
Qed.

(** ** No exception on exports of the expected types *)

Lemma datetime_to_epoch_cases_json (datetime_str : string) :
  Raw.datetime_to_epoch (JStr datetime_str)
  = Ok (if (datetime_str =? "Unknown Date")%string then JNull
        else match strptime (cleaned datetime_str) parse_format with
             | Ok datetime_obj =>
                 JInt (timestamp (replace_tzinfo_utc datetime_obj))
             | Raise _ => JNull
             end).
Proof.
  unfold Raw.datetime_to_epoch, cleaned, parse_format. cbn [Raw.equal bind].
  destruct (datetime_str =? "Unknown Date")%string; [reflexivity|].
  pose proof (strptime_only_ValueError
    (strip (replace "UTC" EmptyString datetime_str))
    (strip (replace "%Z" EmptyString "%A, %B %d, %Y at %I:%M:%S %p %Z"))) as H.
  destruct (strptime _ _) as [dt|e]; simpl in *; [reflexivity|].
  now subst e.
Qed.

(** C8 (amended): for every message sequence whose present fields have the
    types of the export (the creator a dict, its name, the text, the date
    and the identifier strings) and every roster of entries with a string
    ['group_id'] - the empty sequence, a sequence of one message,
    messages with absent fields or with dates that do not parse included -
    each chunker returns: no exception propagates.  The documents are the
    specified ones, with the sentinels for absent fields, and the date
    conversion of a string is [None] whenever it is the sentinel or
    [strptime] raises. *)
Theorem C8_no_exception (messages : list json) (user_info_data : json) :
  forallb is_message messages = true ->
  is_roster user_info_data = true ->
  exists dm_docs space_docs,
    Raw.process_dms (Parsed (export messages))
    = Ok (map document_json dm_docs) /\
    Raw.process_spaces (Parsed (export messages)) (Parsed user_info_data)
    = Ok (map document_json space_docs) /\
    Forall2 (is_window_document "dm"
               (NameList (first_seen (map creator_name
                                          (map message_of messages))))
               "https://chat.google.com/dm/" (map message_of messages))
      (map center (seq 0 (windows (len messages)))) dm_docs /\
    Forall2 (is_window_document "space"
               (NameStr (space_name_of (map message_of messages)
                           (roster_of user_info_data)))
               "https://chat.google.com/room/" (map message_of messages))
      (map center (seq 0 (windows (len messages)))) space_docs /\
    (forall datetime_str,
       Raw.datetime_to_epoch (JStr datetime_str)
       = Ok (if (datetime_str =? "Unknown Date")%string then JNull
             else match strptime (cleaned datetime_str) parse_format with
                  | Ok datetime_obj =>
                      JInt (timestamp (replace_tzinfo_utc datetime_obj))
                  | Raise _ => JNull
                  end)) /\
    (forall user_info_path,
       Raw.process_dms (Parsed (export [])) = Ok [] /\
       Raw.process_spaces (Parsed (export [])) user_info_path = Ok [] /\
       Raw.process_dms (Parsed (export [JObj []])) = Ok []) /\
    Raw.process_spaces (Parsed (export [JObj []])) (Parsed user_info_data)
    = Ok [] /\
    (exists d, process_dms sample_messages = Ok [d] /\
               Raw.process_dms (Parsed sample_export) = Ok [document_json d] /\
               Metadata.message_id (Document.metadata d) = "Unknown ID" /\
               Metadata.date (Document.metadata d) = "garbage" /\
               Metadata.unix_time (Document.metadata d) = None).
Proof.
  intros W R.
  assert (E : is_export (export messages) = true) by exact W.
  assert (L : len (map message_of messages) = len messages)
    by (unfold len; now rewrite length_map).
  destruct (process_dms_documents (map message_of messages))
    as [dm_docs [Ed Fd]].
  destruct (process_spaces_documents (map message_of messages)
              (roster_of user_info_data)) as [space_docs [Es Fs]].
  rewrite L in Fd, Fs.
  exists dm_docs, space_docs.
  split; [now apply process_dms_refines|].
  split; [now apply process_spaces_refines|].
  split; [exact Fd|]. split; [exact Fs|].
  split; [exact datetime_to_epoch_cases_json|].
  split; [intros [e|data]; repeat split; reflexivity|].
  split.
  - apply (process_spaces_refines (export [JObj []]) user_info_data []);
      [reflexivity|assumption|].
    destruct (process_spaces_documents [message_of (JObj [])]
                (roster_of user_info_data)) as [docs [Ho Fo]].
    change (messages_of (export [JObj []])) with [message_of (JObj [])].
    rewrite Ho. inversion Fo. reflexivity.
  - eexists. split; [vm_compute; reflexivity|].
    split; [vm_compute; reflexivity|]. repeat split; reflexivity.
Qed.

(** C8 on the sample sequence, whose first message has no field and whose
    eleventh has a date that does not parse. *)
Lemma C8_no_exception_witness :
  forallb is_message (map message_json sample_messages) = true /\
  is_roster sample_user_info = true /\
  exists dm_docs space_docs,
    Raw.process_dms (Parsed sample_export) = Ok (map document_json dm_docs) /\
    Raw.process_spaces (Parsed sample_export) (Parsed sample_user_info)
    = Ok (map document_json space_docs).
Proof.
  split; [reflexivity|]. split; [reflexivity|].
  destruct (C8_no_exception (map message_json sample_messages)
              sample_user_info eq_refl eq_refl)
    as [dm_docs [space_docs [Hd [Hs _]]]].
  exists dm_docs, space_docs. split; assumption.
Defined.

(** C8 as stated fails: a field that is present with the value [null]
    (or any value of another type) is not a missing field for [.get], and
    the next operation on it raises.  A [null] creator raises in the DM
    chunker on a sequence of one message, and in the space chunker as soon
    as the message is in a window; a [null] date raises at the centre of a
    window; a roster entry without ['group_id'] raises [KeyError]. *)
Lemma C8_null_field_raises :
  Raw.process_dms (Parsed (export [null_creator_message]))
  = Raise AttributeError /\
  Raw.process_spaces
    (Parsed (export (null_creator_message :: repeat (JObj []) 10)))
    (Parsed sample_user_info)
  = Raise AttributeError /\
  Raw.process_dms (Parsed null_date_export) = Raise AttributeError /\
  Raw.process_spaces (Parsed null_date_export) (Parsed sample_user_info)
  = Raise AttributeError /\
  Raw.process_spaces (Parsed (export [JObj []])) (Parsed no_group_id_roster)
  = Raise KeyError /\
  ~ (forall messages : list json,
       exists docs, Raw.process_dms (Parsed (export messages)) = Ok docs) /\
  ~ (forall messages : list json,
       exists docs,
         Raw.process_spaces (Parsed (export messages))
           (Parsed sample_user_info) = Ok docs).
Proof.
  assert (D : Raw.process_dms (Parsed (export [null_creator_message]))
              = Raise AttributeError) by (vm_compute; reflexivity).
  assert (S : Raw.process_spaces
                (Parsed (export (null_creator_message
                                 :: repeat (JObj []) 10)))
                (Parsed sample_user_info)
              = Raise AttributeError) by (vm_compute; reflexivity).
  split; [exact D|]. split; [exact S|].
  split; [vm_compute; reflexivity|]. split; [vm_compute; reflexivity|].
  split; [vm_compute; reflexivity|]. split.
  - intros H. destruct (H [null_creator_message]) as [docs Hd].
    rewrite D in Hd. discriminate.
  - intros H.
    destruct (H (null_creator_message :: repeat (JObj []) 10)) as [docs Hs].
    rewrite S in Hs. discriminate.
Qed.

(** * Further properties of the loader *)

(** ** Windows: sizes, overlap, coverage *)

(** The window centred on [center k] holds the messages from index [19 k]
    on, twenty-one of them or those that remain. *)
Lemma slice_window {A : Type} (l : list A) (k : nat) :
  center k < len l ->
  slice l (Z.max 0 (center k - 10)) (Z.min (len l - 1) (center k + 10))
  = firstn 21 (skipn (19 * k) l).
Proof.
  unfold center, slice, len. intros H.
  replace (Z.to_nat (Z.max 0 (10 + 19 * Z.of_nat k - 10))) with (19 * k)%nat
    by lia.
  set (rest := skipn (19 * k) l).
  assert (L : List.length rest = (List.length l - 19 * k)%nat)
    by apply length_skipn.
  destruct (Nat.le_gt_cases 21 (List.length rest)) as [G|G].
  - f_equal. lia.
  - rewrite (firstn_all2 (n := 21)) by lia.
    apply firstn_all2. lia.
Qed.

(** X1: document [k] is built from the messages from index [19 k] on,
    twenty-one of them or those that remain: [min(21, length - 19 k)]
    consecutive messages, between 11 and 21, and 21 unless the document
    is the last. *)
Theorem X1_window_size (v : variant) (messages : list Message.t) (k : nat) :
  center k < len messages ->
  exists docs d,
    chunk v messages = Ok docs /\
    nth_error docs k = Some d /\
    let window := firstn 21 (skipn (19 * k) messages) in
    Document.text d = join EmptyString (map block window) /\
    len window = Z.min 21 (len messages - 19 * Z.of_nat k) /\
    11 <= len window <= 21 /\
    (len window = 21 \/ len messages <= center (S k)).
Proof.
  intros H.
  destruct (chunk_window v messages k H)
    as [docs [d [E [N [start [middle [ut [_ [_ [_ ->]]]]]]]]]].
  exists docs. eexists. split; [exact E|]. split; [exact N|].
  cbn zeta. unfold spec_document. cbn [Document.text].
  rewrite slice_window by exact H. split; [reflexivity|].
  assert (L : len (firstn 21 (skipn (19 * k) messages))
              = Z.min 21 (len messages - 19 * Z.of_nat k)).
  { unfold center, len in *. rewrite length_firstn, length_skipn. lia. }
  rewrite L. unfold center in *. split; [reflexivity|]. split; lia.
Qed.

(** X1 on the sample sequence of twelve messages. *)
Lemma X1_window_size_witness :
  center 0 < len sample_messages /\
  exists docs d,
    chunk DM sample_messages = Ok docs /\
    nth_error docs 0 = Some d /\
    Document.text d = join EmptyString (map block sample_messages) /\
    len sample_messages = 12.
Proof.
  split; [reflexivity|].
  destruct (X1_window_size DM sample_messages 0 eq_refl)
    as [docs [d [E [N [T _]]]]].
  exists docs, d. repeat split; assumption.
Defined.

(** X2: two consecutive windows share exactly two messages: the last two
    of the twenty-one of window [k] are the first two of window [k + 1]. *)
Theorem X2_overlap (v : variant) (messages : list Message.t) (k : nat) :
  center (S k) < len messages ->
  exists docs d1 d2 w1 w2 m1 m2,
    chunk v messages = Ok docs /\
    nth_error docs k = Some d1 /\
    nth_error docs (S k) = Some d2 /\
    Document.text d1 = join EmptyString (map block w1) /\
    Document.text d2 = join EmptyString (map block w2) /\
    List.length w1 = 21%nat /\
    skipn 19 w1 = [m1; m2] /\
    firstn 2 w2 = [m1; m2] /\
    nth_error messages (19 * S k) = Some m1 /\
    nth_error messages (19 * S k + 1) = Some m2.
Proof.
  intros H.
  assert (H0 : center k < len messages) by (unfold center in *; lia).
  destruct (chunk_window v messages k H0)
    as [docs [d1 [E [N1 [s1 [mi1 [u1 [_ [_ [_ ->]]]]]]]]]].
  destruct (chunk_window v messages (S k) H)
    as [docs' [d2 [E' [N2 [s2 [mi2 [u2 [_ [_ [_ ->]]]]]]]]]].
  assert (docs' = docs) by congruence. subst docs'.
  unfold center, len in *.
  destruct (nth_error messages (19 * S k)) as [m1|] eqn:M1;
    [|apply nth_error_None in M1; lia].
  destruct (nth_error messages (19 * S k + 1)) as [m2|] eqn:M2;
    [|apply nth_error_None in M2; lia].
  exists docs. do 2 eexists.
  exists (slice messages (Z.max 0 (10 + 19 * Z.of_nat k - 10))
            (Z.min (len messages - 1) (10 + 19 * Z.of_nat k + 10))),
         (slice messages (Z.max 0 (10 + 19 * Z.of_nat (S k) - 10))
            (Z.min (len messages - 1) (10 + 19 * Z.of_nat (S k) + 10))),
         m1, m2.
  split; [exact E|]. split; [exact N1|]. split; [exact N2|].
  split; [reflexivity|]. split; [reflexivity|].
  unfold slice, len.
  replace (Z.to_nat (Z.min _ _ - Z.max _ _ + 1)) with 21%nat by lia.
  replace (Z.to_nat (Z.max 0 (10 + 19 * Z.of_nat k - 10))) with (19 * k)%nat by lia.
  replace (Z.to_nat (Z.max 0 (10 + 19 * Z.of_nat (S k) - 10)))
    with (19 * S k)%nat by lia.
  set (n2 := Z.to_nat _).
  assert (Hn2 : (2 <= n2)%nat) by (unfold n2; lia).
  assert (T : firstn 2 (skipn (19 * S k) messages) = [m1; m2]).
  { rewrite (skipn_nth_error_cons _ _ _ M1).
    replace (S (19 * S k)) with (19 * S k + 1)%nat by lia.
    rewrite (skipn_nth_error_cons _ _ _ M2). reflexivity. }
  split; [rewrite length_firstn, length_skipn; lia|]. split; [|split; [|auto]].
  - rewrite skipn_firstn_comm. cbn [Nat.sub]. rewrite skipn_skipn.
    replace (19 + 19 * k)%nat with (19 * S k)%nat by lia. exact T.
  - rewrite firstn_firstn. replace (Nat.min 2 n2) with 2%nat by lia. exact T.
Qed.

(** X2 on thirty messages. *)
Lemma X2_overlap_witness :
  center 1 < len (numbered_messages 30) /\
  exists docs d1 d2 w1 w2 m1 m2,
    chunk DM (numbered_messages 30) = Ok docs /\
    nth_error docs 0 = Some d1 /\
    nth_error docs 1 = Some d2 /\
    Document.text d1 = join EmptyString (map block w1) /\
    Document.text d2 = join EmptyString (map block w2) /\
    List.length w1 = 21%nat /\
    skipn 19 w1 = [m1; m2] /\
    firstn 2 w2 = [m1; m2] /\
    nth_error (numbered_messages 30) (19 * 1) = Some m1 /\
    nth_error (numbered_messages 30) (19 * 1 + 1) = Some m2.
Proof.
  split; [reflexivity|].
  apply (X2_overlap DM (numbered_messages 30) 0). reflexivity.
Defined.

Lemma slice_app {A : Type} (l more : list A) (lo hi : Z) :
  0 <= lo -> lo <= hi + 1 -> hi < len l ->
  slice (l ++ more) lo hi = slice l lo hi.
Proof.
  unfold slice, len. intros H0 H1 H2.
  rewrite skipn_app.
  replace (Z.to_nat lo - List.length l)%nat with O by lia.
  cbn [skipn]. rewrite firstn_app.
  replace (Z.to_nat (hi - lo + 1) - List.length (skipn (Z.to_nat lo) l))%nat
    with O by (rewrite length_skipn; lia).
  cbn [firstn]. now rewrite app_nil_r.
Qed.

(** X4: messages added at the end leave the documents of the complete
    windows as they were: for a window that ends within the sequence, the
    document keeps its text and its metadata; only the name list of a DM
    document may grow. *)
Theorem X4_append_stable (v : variant) (messages more : list Message.t)
  (k : nat) :
  center k + 10 < len messages ->
  exists docs docs' d d',
    chunk v messages = Ok docs /\
    chunk v (messages ++ more) = Ok docs' /\
    nth_error docs k = Some d /\
    nth_error docs' k = Some d' /\
    Document.text d' = Document.text d /\
    Metadata.source (Document.metadata d') = Metadata.source (Document.metadata d) /\
    Metadata.type (Document.metadata d') = Metadata.type (Document.metadata d) /\
    Metadata.message_id (Document.metadata d')
    = Metadata.message_id (Document.metadata d) /\
    Metadata.date (Document.metadata d') = Metadata.date (Document.metadata d) /\
    Metadata.unix_time (Document.metadata d')
    = Metadata.unix_time (Document.metadata d) /\
    Metadata.url (Document.metadata d') = Metadata.url (Document.metadata d) /\
    match v with
    | Space _ => d' = d
    | DM => True
    end.
Proof.
  intros H.
  assert (H1 : center k < len messages) by lia.
  assert (L : len (messages ++ more) = len messages + len more)
    by (unfold len; rewrite length_app; lia).
  pose proof (len_nonneg more) as Hm.
  assert (H2 : center k < len (messages ++ more)) by lia.
  destruct (chunk_window v messages k H1)
    as [docs [d [E [N [s [mi [ut [Hs [Hmi [Hut ->]]]]]]]]]].
  destruct (chunk_window v (messages ++ more) k H2)
    as [docs' [d' [E' [N' [s' [mi' [ut' [Hs' [Hmi' [Hut' ->]]]]]]]]]].
  unfold center, len in *.
  rewrite nth_error_app1 in Hs', Hmi' by lia.
  assert (s' = s) by congruence. assert (mi' = mi) by congruence. subst s' mi'.
  cbn in Hut, Hut'. assert (ut' = ut) by congruence. subst ut'.
  assert (S : slice (messages ++ more)
                (Z.max 0 (10 + 19 * Z.of_nat k - 10))
                (Z.min (len (messages ++ more) - 1) (10 + 19 * Z.of_nat k + 10))
              = slice messages
                  (Z.max 0 (10 + 19 * Z.of_nat k - 10))
                  (Z.min (len messages - 1) (10 + 19 * Z.of_nat k + 10))).
  { unfold len. rewrite length_app.
    replace (Z.min (Z.of_nat (List.length messages + List.length more) - 1)
               (10 + 19 * Z.of_nat k + 10))
      with (Z.min (Z.of_nat (List.length messages) - 1)
              (10 + 19 * Z.of_nat k + 10)) by lia.
    apply slice_app; unfold len; lia. }
  exists docs, docs'. do 2 eexists.
  split; [exact E|]. split; [exact E'|]. split; [exact N|]. split; [exact N'|].
  unfold spec_document. cbn [Document.text Document.metadata Metadata.source
    Metadata.type Metadata.message_id Metadata.date Metadata.unix_time
    Metadata.url].
  rewrite S. repeat (split; [reflexivity|]).
  destruct v as [membership_info|]; [|exact I].
  cbn [type_of name_of url_prefix_of].
  destruct messages as [|m ms]; [cbn [List.length] in H1; lia|]. reflexivity.
Qed.

(** X4 on twenty-one messages followed by three more. *)
Lemma X4_append_stable_witness :
  center 0 + 10 < len (numbered_messages 21) /\
  exists docs docs' d d',
    chunk (Space sample_roster) (numbered_messages 21) = Ok docs /\
    chunk (Space sample_roster) (numbered_messages 21 ++ numbered_messages 3)
    = Ok docs' /\
    nth_error docs 0 = Some d /\
    nth_error docs' 0 = Some d' /\
    Document.text d' = Document.text d /\
    Metadata.source (Document.metadata d') = Metadata.source (Document.metadata d) /\
    Metadata.type (Document.metadata d') = Metadata.type (Document.metadata d) /\
    Metadata.message_id (Document.metadata d')
    = Metadata.message_id (Document.metadata d) /\
    Metadata.date (Document.metadata d') = Metadata.date (Document.metadata d) /\
    Metadata.unix_time (Document.metadata d')
    = Metadata.unix_time (Document.metadata d) /\
    Metadata.url (Document.metadata d') = Metadata.url (Document.metadata d) /\
    d' = d.
Proof.
  split; [reflexivity|].
  apply (X4_append_stable (Space sample_roster) (numbered_messages 21)
           (numbered_messages 3) 0). reflexivity.
Defined.

Lemma Forall2_same_index_in {A B C : Type} (P : A -> B -> Prop)
  (Q : A -> C -> Prop) (R : B -> C -> Prop) (xs : list A) (ys : list B)
  (zs : list C) :
  (forall x y z, In x xs -> P x y -> Q x z -> R y z) ->
  Forall2 P xs ys -> Forall2 Q xs zs -> Forall2 R ys zs.
Proof.
  intros H F; revert zs; induction F as [|x y xs ys Hxy F IH];
    intros zs G; inversion G; subst; constructor.
  - eapply H; eauto. now left.
  - apply IH; [|assumption]. intros; eapply H; eauto. now right.
Qed.

Lemma Forall2_eq_map {A B C : Type} (f : B -> C) (g : A -> C)
  (P : A -> B -> Prop) (xs : list A) (ys : list B) :
  (forall x y, P x y -> f y = g x) -> Forall2 P xs ys -> map f ys = map g xs.
Proof.
  intros H F. induction F as [|x y xs ys Hxy _ IH]; simpl; [reflexivity|].
  now rewrite IH, (H x y Hxy).
Qed.

Lemma Forall2_eq {A : Type} (xs ys : list A) : Forall2 Logic.eq xs ys -> xs = ys.
Proof. induction 1; congruence. Qed.

(** The number of messages that end up in some document. *)
Lemma windows_of_read (n : Z) :
  10 < n ->
  windows (Z.min n (19 * Z.of_nat (windows n) + 2)) = windows n.
Proof.
  intros H. set (w := windows n). set (r := Z.min n (19 * Z.of_nat w + 2)).
  assert (E : forall k, (k < windows r)%nat <-> (k < w)%nat).
  { intros k. unfold w. rewrite !windows_spec. unfold r. split; [lia|].
    intros G. pose proof (proj2 (windows_spec n k) G) as G'.
    fold w in G'. unfold center in *. lia. }
  pose proof (E (windows r)). pose proof (E w). lia.
Qed.

(** The document of a window that ends within [messages] is the same for
    [messages] and for [messages] followed by more, whatever the names. *)
Lemma window_document_app (type : string) (name name' : name_value)
  (url_prefix : string) (messages more : list Message.t) (k : nat)
  (d d' : Document.t) :
  center k + 10 < len messages ->
  is_window_document type name url_prefix (messages ++ more) (center k) d ->
  is_window_document type name' url_prefix messages (center k) d' ->
  Document.text d' = Document.text d /\ (name' = name -> d' = d).
Proof.
  intros H [s [mi [ut [Hs [Hmi [Hut ->]]]]]] [s' [mi' [ut' [Hs' [Hmi' [Hut' ->]]]]]].
  assert (L : len (messages ++ more) = len messages + len more)
    by (unfold len; rewrite length_app; lia).
  pose proof (len_nonneg more) as Hm.
  unfold center, len in *.
  rewrite nth_error_app1 in Hs, Hmi by lia.
  assert (s' = s) by congruence. assert (mi' = mi) by congruence. subst s' mi'.
  cbn in Hut, Hut'. assert (ut' = ut) by congruence. subst ut'.
  assert (S : slice (messages ++ more)
                (Z.max 0 (10 + 19 * Z.of_nat k - 10))
                (Z.min (len (messages ++ more) - 1) (10 + 19 * Z.of_nat k + 10))
              = slice messages
                  (Z.max 0 (10 + 19 * Z.of_nat k - 10))
                  (Z.min (len messages - 1) (10 + 19 * Z.of_nat k + 10))).
  { unfold len. rewrite length_app.
    replace (Z.min (Z.of_nat (List.length messages + List.length more) - 1)
               (10 + 19 * Z.of_nat k + 10))
      with (Z.min (Z.of_nat (List.length messages) - 1)
              (10 + 19 * Z.of_nat k + 10)) by lia.
    apply slice_app; unfold len; lia. }
  unfold spec_document. cbn [Document.text]. rewrite S.
  split; [reflexivity|]. now intros ->.
Qed.

(** X3: the messages that end up in a document are those at the indices
    below [read = min(length, 19 w + 2)], [w] being the number of
    documents.  Each of them is in the window of some document (the
    windows leave no gap); the messages from [read] on are in none: the
    chunker returns the same texts, and for a space the same documents,
    when they are cut off.  They are all the messages when there are at
    most ten, and at most eight otherwise. *)
Theorem X3_coverage (v : variant) (messages : list Message.t) :
  let w := windows (len messages) in
  let read :=
    if len messages <=? 10 then O
    else Z.to_nat (Z.min (len messages) (19 * Z.of_nat w + 2)) in
  exists docs docs',
    chunk v messages = Ok docs /\
    List.length docs = w /\
    (forall j, (j < read)%nat ->
       exists k d,
         nth_error docs k = Some d /\
         (19 * k <= j < 19 * k + 21)%nat /\
         Document.text d
         = join EmptyString
             (map block (firstn 21 (skipn (19 * k) messages)))) /\
    chunk v (firstn read messages) = Ok docs' /\
    map Document.text docs' = map Document.text docs /\
    match v with
    | Space _ => docs' = docs
    | DM => True
    end /\
    (read <= List.length messages)%nat /\
    (len messages <= 10 \/ (List.length messages - read <= 8)%nat).
Proof.
  intros w read.
  assert (W : forall k, (k < w)%nat <-> center k < len messages)
    by (intros k; apply windows_spec).
  destruct (chunk_documents v messages) as [docs [E F]].
  assert (Ld : List.length docs = w).
  { rewrite <- (Forall2_length F), length_map, length_seq. reflexivity. }
  assert (Cover : forall j, (j < read)%nat ->
    exists k d,
      nth_error docs k = Some d /\
      (19 * k <= j < 19 * k + 21)%nat /\
      Document.text d
      = join EmptyString (map block (firstn 21 (skipn (19 * k) messages)))).
  { intros j Hj. unfold read in Hj.
    destruct (Z.leb_spec (len messages) 10) as [Hn|Hn]; [lia|].
    assert (Hw : (0 < w)%nat) by (apply W; unfold center; lia).
    set (k := if (j / 19 <? w)%nat then (j / 19)%nat else (w - 1)%nat).
    assert (Hk : (k < w)%nat /\ (19 * k <= j < 19 * k + 21)%nat).
    { pose proof (Nat.div_mod_eq j 19) as D.
      pose proof (Nat.mod_upper_bound j 19 ltac:(lia)) as M.
      unfold k. destruct (Nat.ltb_spec (j / 19) w); lia. }
    destruct Hk as [Hk Hj'].
    destruct (Forall2_nth_error _ _ _ k _ F (nth_error_centers _ _ Hk))
      as [d [Nd [start [middle [ut [_ [_ [_ ->]]]]]]]].
    exists k. eexists. split; [exact Nd|]. split; [exact Hj'|].
    unfold spec_document. cbn [Document.text].
    rewrite slice_window by now apply W. reflexivity. }
  destruct (Z.leb_spec (len messages) 10) as [Hn|Hn].
  - (* no window at all *)
    assert (w = O).
    { destruct w as [|w']; [reflexivity|].
      assert (center 0 < len messages) by (apply W; lia).
      unfold center in *. lia. }
    assert (docs = []) by (destruct docs; [reflexivity|simpl in Ld; lia]).
    subst docs. exists [], [].
    split; [exact E|]. split; [exact Ld|]. split; [exact Cover|].
    unfold read. cbn [firstn].
    split; [destruct v; reflexivity|]. split; [reflexivity|].
    split; [destruct v; exact I || reflexivity|]. split; [lia|now left].
  - assert (Hw : (0 < w)%nat) by (apply W; unfold center; lia).
    assert (H1 : center (w - 1) < len messages) by (apply W; lia).
    assert (H2 : ~ center w < len messages) by (intros H; apply W in H; lia).
    assert (Tail : (List.length messages - read <= 8)%nat).
    { unfold read, center, len in *. lia. }
    assert (Hr : (read <= List.length messages)%nat)
      by (unfold read, len; lia).
    destruct (Z.le_gt_cases (len messages) (19 * Z.of_nat w + 2)) as [G|G].
    + (* the last window reaches the end *)
      assert (R : firstn read messages = messages).
      { apply firstn_all2. unfold read, len in *. lia. }
      exists docs, docs. rewrite R.
      split; [exact E|]. split; [exact Ld|]. split; [exact Cover|].
      split; [exact E|]. split; [reflexivity|].
      split; [destruct v; exact I || reflexivity|]. split; [exact Hr|now right].
    + (* messages are left over *)
      set (pre := firstn read messages).
      assert (Lp : len pre = 19 * Z.of_nat w + 2).
      { unfold pre, len. rewrite length_firstn. unfold read, len in *. lia. }
      assert (Wp : windows (len pre) = w).
      { rewrite Lp. unfold w at 2.
        rewrite <- (windows_of_read (len messages)) by lia.
        fold w. f_equal. lia. }
      destruct (chunk_documents v pre) as [docs' [E' F']].
      rewrite Wp in F'.
      assert (M : messages = (pre ++ skipn read messages)%list)
        by (unfold pre; now rewrite firstn_skipn).
      assert (P : Forall2 (fun d d' =>
                    Document.text d' = Document.text d /\
                    (name_of v pre = name_of v messages -> d' = d))
                    docs docs').
      { refine (Forall2_same_index_in _ _ _ _ _ _ _ F F').
        intros i d d' Hi Hd Hd'.
        apply in_map_iff in Hi. destruct Hi as [k [<- Hk]].
        apply in_seq in Hk.
        rewrite M in Hd at 2.
        refine (window_document_app _ _ _ _ _ _ k _ _ _ _ Hd').
        - rewrite Lp. unfold center. lia.
        - exact Hd. }
      exists docs, docs'.
      split; [exact E|]. split; [exact Ld|]. split; [exact Cover|].
      split; [exact E'|]. split.
      * apply (Forall2_eq_map Document.text Document.text
                 (fun d d' => Document.text d' = Document.text d /\
                    (name_of v pre = name_of v messages -> d' = d))
                 docs docs'); [now intros d d' [T _]|exact P].
      * split; [|split; [exact Hr|now right]].
        destruct v as [membership_info|]; [|exact I].
        symmetry. apply Forall2_eq.
        refine (Forall2_impl _ _ P). intros d d' [_ Q]. symmetry. apply Q.
        cbn [name_of]. unfold pre.
        destruct messages as [|m ms]; [cbn [List.length] in Hr; unfold len in Hn; cbn in Hn; lia|].
        assert (read <> O) by (unfold read, len in *; lia).
        destruct read; [congruence|]. reflexivity.
Qed.

(** ** More on the date conversion *)

Lemma check_date_fields_no_such_day (year month day : Z) :
  1 <= year <= 9999 -> 1 <= month <= 12 ->
  days_in_month year month < day ->
  check_date_fields year month day = Raise ValueError.
Proof.
  intros Hy Hm Hd. unfold check_date_fields.
  destruct (Z.leb_spec 1 year); [|lia].
  destruct (Z.leb_spec year 9999); [|lia].
  destruct (Z.leb_spec 1 month); [|lia].
  destruct (Z.leb_spec month 12); [|lia].
  destruct (Z.leb_spec day (days_in_month year month)); [lia|].
  cbn. now rewrite andb_false_r.
Qed.

(** [strptime] on a date in the display format whose day may not exist. *)
Lemma strptime_display_any_day (pd ph : bool) (w : weekday) (m : month)
  (day year hour minute second : Z) (pm : bool) (s : string) :
  1000 <= year <= 9999 -> 1 <= day <= 31 ->
  1 <= hour <= 12 -> 0 <= minute <= 59 -> 0 <= second <= 59 ->
  strptime (display_date pd ph w m day year hour minute second pm ++ s)
    parse_format
  = match s with
    | EmptyString =>
        if day <=? days_in_month year (month_number m)
        then Ok (mk_datetime year (month_number m) day (hour24 hour pm)
                             minute second)
        else Raise ValueError
    | String _ _ => Raise ValueError
    end.
Proof.
  intros Hy Hd Hh Hmi Hs.
  destruct (Z.leb_spec day (days_in_month year (month_number m))) as [L|L].
  - now apply strptime_display; try lia.
  - pose proof (month_number_range m) as Hm.
    unfold strptime. rewrite pattern_parse_format. cbn [bind].
    destruct (re_match_display pd ph w m day year hour minute second pm s)
      as [found [Hf [Hg Hr]]]; try assumption.
    rewrite Hf, Hr, Hg.
    destruct s as [|c s]; [|reflexivity].
    cbn [String.eqb negb].
    destruct (convert_display
                (date_groups pd ph w m day year hour minute second pm)
                pd ph w m day year hour minute second pm) as [k Hk];
      try assumption; [reflexivity|].
    rewrite Hk. cbn [bind].
    unfold date_toordinal.
    rewrite check_date_fields_no_such_day by lia. reflexivity.
Qed.

Lemma datetime_to_epoch_display (pd ph : bool) (w : weekday) (m : month)
  (day year hour minute second : Z) (pm : bool) (tz : string) :
  1000 <= year <= 9999 -> 1 <= day <= 31 ->
  1 <= hour <= 12 -> 0 <= minute <= 59 -> 0 <= second <= 59 ->
  datetime_to_epoch
    (display_date pd ph w m day year hour minute second pm ++ " " ++ tz)
  = Ok (if (all_blank (replace "UTC" EmptyString tz)
            && (day <=? days_in_month year (month_number m)))%bool
        then Some (utc_seconds year (month_number m) day (hour24 hour pm)
                               minute second)
        else None).
Proof.
  intros Hy Hd Hh Hmi Hs.
  rewrite datetime_to_epoch_cases, not_unknown_display.
  rewrite cleaned_display by assumption.
  rewrite strptime_display_any_day by assumption.
  destruct (all_blank (replace "UTC" EmptyString tz)); [|reflexivity].
  destruct (day <=? days_in_month year (month_number m)); [|reflexivity].
  cbn [andb]. unfold timestamp, utc_seconds. cbn. do 2 f_equal. lia.
Qed.

(** X5: the weekday written in the date is not checked against the
    calendar: two dates that differ only in the weekday name convert to the
    same result. *)
Theorem X5_weekday_ignored (pd ph : bool) (w w' : weekday) (m : month)
  (day year hour minute second : Z) (pm : bool) (tz : string) :
  1000 <= year <= 9999 -> 1 <= day <= 31 ->
  1 <= hour <= 12 -> 0 <= minute <= 59 -> 0 <= second <= 59 ->
  datetime_to_epoch
    (display_date pd ph w m day year hour minute second pm ++ " " ++ tz)
  = datetime_to_epoch
      (display_date pd ph w' m day year hour minute second pm ++ " " ++ tz).
Proof.
  intros Hy Hd Hh Hmi Hs. now rewrite !datetime_to_epoch_display.
Qed.

(** X5 on 1 January 2024, a Monday, written as a Friday. *)
Lemma X5_weekday_ignored_witness :
  1000 <= 2024 <= 9999 /\ 1 <= 1 <= 31 /\ 1 <= 9 <= 12 /\
  0 <= 30 <= 59 /\ 0 <= 0 <= 59 /\
  datetime_to_epoch
    (display_date false true Monday January 1 2024 9 30 0 false ++ " " ++ "UTC")
  = datetime_to_epoch
      (display_date false true Friday January 1 2024 9 30 0 false
       ++ " " ++ "UTC").
Proof.
  split; [lia|]. split; [lia|]. split; [lia|]. split; [lia|]. split; [lia|].
  apply (X5_weekday_ignored false true Monday Friday January 1 2024 9 30 0
           false "UTC"); lia.
Defined.

(** X6: a date in the display format whose day does not exist in its month
    (30 February, 31 April, 29 February of a common year) converts to
    [None], whatever follows it. *)
Theorem X6_no_such_day (pd ph : bool) (w : weekday) (m : month)
  (day year hour minute second : Z) (pm : bool) (tz : string) :
  1000 <= year <= 9999 -> days_in_month year (month_number m) < day <= 31 ->
  1 <= hour <= 12 -> 0 <= minute <= 59 -> 0 <= second <= 59 ->
  datetime_to_epoch
    (display_date pd ph w m day year hour minute second pm ++ " " ++ tz)
  = Ok None.
Proof.
  intros Hy Hd Hh Hmi Hs.
  pose proof (days_in_month_range year m).
  rewrite datetime_to_epoch_display by lia.
  destruct (Z.leb_spec day (days_in_month year (month_number m))); [lia|].
  now rewrite andb_false_r.
Qed.

(** X6 on 29 February 2023. *)
Lemma X6_no_such_day_witness :
  1000 <= 2023 <= 9999 /\
  days_in_month 2023 (month_number February) < 29 <= 31 /\
  1 <= 9 <= 12 /\ 0 <= 30 <= 59 /\ 0 <= 0 <= 59 /\
  datetime_to_epoch
    (display_date false true Wednesday February 29 2023 9 30 0 false
     ++ " " ++ "UTC")
  = Ok None.
Proof.
  assert (D : days_in_month 2023 (month_number February) < 29 <= 31)
    by (vm_compute; split; [reflexivity|discriminate]).
  split; [lia|]. split; [exact D|]. split; [lia|]. split; [lia|]. split; [lia|].
  apply (X6_no_such_day false true Wednesday February 29 2023 9 30 0 false
           "UTC"); lia || exact D.
Defined.

(** X7: for the same clock reading, PM is twelve hours after AM, at twelve
    o'clock too (12 AM is midnight, 12 PM is noon). *)
Theorem X7_pm_is_twelve_hours_later (pd ph : bool) (w : weekday) (m : month)
  (day year hour minute second : Z) :
  1000 <= year <= 9999 -> 1 <= day <= days_in_month year (month_number m) ->
  1 <= hour <= 12 -> 0 <= minute <= 59 -> 0 <= second <= 59 ->
  exists am,
    datetime_to_epoch
      (display_date pd ph w m day year hour minute second false
       ++ " " ++ "UTC")
    = Ok (Some am) /\
    datetime_to_epoch
      (display_date pd ph w m day year hour minute second true
       ++ " " ++ "UTC")
    = Ok (Some (am + 43200)).
Proof.
  intros Hy Hd Hh Hmi Hs.
  pose proof (days_in_month_range year m).
  assert (B : all_blank (replace "UTC" EmptyString "UTC") = true)
    by reflexivity.
  assert (L : (day <=? days_in_month year (month_number m)) = true)
    by (apply Z.leb_le; lia).
  rewrite !datetime_to_epoch_display by lia. rewrite B, L. cbn [andb].
  eexists. split; [reflexivity|]. do 2 f_equal.
  unfold utc_seconds, hour24.
  generalize (ymd2ord year (month_number m) day); intros o.
  destruct (hour =? 12); lia.
Qed.

(** X7 on 1 January 2024 at twelve o'clock. *)
Lemma X7_pm_is_twelve_hours_later_witness :
  1000 <= 2024 <= 9999 /\
  1 <= 1 <= days_in_month 2024 (month_number January) /\
  1 <= 12 <= 12 /\ 0 <= 0 <= 59 /\ 0 <= 0 <= 59 /\
  exists am,
    datetime_to_epoch
      (display_date false true Monday January 1 2024 12 0 0 false
       ++ " " ++ "UTC")
    = Ok (Some am) /\
    datetime_to_epoch
      (display_date false true Monday January 1 2024 12 0 0 true
       ++ " " ++ "UTC")
    = Ok (Some (am + 43200)).
Proof.
  assert (D : 1 <= 1 <= days_in_month 2024 (month_number January))
    by (vm_compute; split; discriminate).
  split; [lia|]. split; [exact D|]. split; [lia|]. split; [lia|]. split; [lia|].
  apply (X7_pm_is_twelve_hours_later false true Monday January 1 2024 12 0 0);
    lia || exact D.
Defined.

(** *** The order of time *)

Lemma days_before_year_next (year : Z) :
  days_before_year (year + 1)
  = days_before_year year + 365 + (if is_leap year then 1 else 0).
Proof.
  unfold days_before_year, is_leap.
  replace (year + 1 - 1) with year by lia.
  destruct (Z.eqb_spec (year mod 4) 0); destruct (Z.eqb_spec (year mod 100) 0);
    destruct (Z.eqb_spec (year mod 400) 0); cbn [andb orb negb];
    Z.to_euclidean_division_equations; lia.
Qed.

Lemma days_before_year_mono (y1 y2 : Z) :
  1 <= y1 <= y2 -> days_before_year y1 <= days_before_year y2.
Proof.
  intros H. unfold days_before_year.
  Z.to_euclidean_division_equations; lia.
Qed.

Lemma days_before_month_next (year : Z) (m : month) :
  days_before_month year (month_number m) + days_in_month year (month_number m)
  = if month_number m =? 12
    then 365 + (if is_leap year then 1 else 0)
    else days_before_month year (month_number m + 1).
Proof.
  unfold days_before_month, days_in_month.
  destruct (is_leap year); destruct m; reflexivity.
Qed.

Lemma days_before_month_mono (year : Z) (m1 m2 : month) :
  month_number m1 <= month_number m2 ->
  days_before_month year (month_number m1)
  <= days_before_month year (month_number m2).
Proof.
  unfold days_before_month. intros H.
  destruct (is_leap year); destruct m1, m2;
    try (exfalso; apply H; reflexivity); vm_compute; discriminate.
Qed.

Lemma days_before_month_year (year : Z) (m : month) :
  0 <= days_before_month year (month_number m) /\
  days_before_month year (month_number m) + days_in_month year (month_number m)
  <= 365 + (if is_leap year then 1 else 0).
Proof.
  unfold days_before_month, days_in_month.
  destruct (is_leap year); destruct m; vm_compute; split; discriminate.
Qed.

(** A later calendar day has a larger ordinal. *)
Lemma ymd2ord_increasing (y1 y2 : Z) (m1 m2 : month) (d1 d2 : Z) :
  1 <= y1 -> 1 <= y2 ->
  1 <= d1 <= days_in_month y1 (month_number m1) ->
  1 <= d2 <= days_in_month y2 (month_number m2) ->
  y1 < y2 \/
  y1 = y2 /\ (month_number m1 < month_number m2 \/ m1 = m2 /\ d1 < d2) ->
  ymd2ord y1 (month_number m1) d1 < ymd2ord y2 (month_number m2) d2.
Proof.
  intros Hy1 Hy2 Hd1 Hd2 H. unfold ymd2ord.
  pose proof (days_before_month_year y1 m1) as [A1 B1].
  pose proof (days_before_month_year y2 m2) as [A2 B2].
  destruct H as [H|[-> [H|[-> H]]]].
  - pose proof (days_before_year_next y1) as N.
    pose proof (days_before_year_mono (y1 + 1) y2 ltac:(lia)). lia.
  - pose proof (days_before_month_next y2 m1) as N.
    assert (M : exists m, month_number m = month_number m1 + 1
                          /\ month_number m <= month_number m2).
    { destruct m1; cbn in *;
        [exists February|exists March|exists April|exists May|exists June
        |exists July|exists August|exists September|exists October
        |exists November|exists December|destruct m2; cbn in H; lia];
        cbn; lia. }
    destruct M as [m [E L]].
    pose proof (days_before_month_mono y2 m m2 L) as K. rewrite E in K.
    destruct (Z.eqb_spec (month_number m1) 12);
      [pose proof (month_number_range m2); lia|lia].
  - lia.
Qed.

(** X8: the conversion keeps the order of time: of two well-formed
    readings written with the zone [UTC], the earlier one converts to the
    smaller timestamp. *)
Theorem X8_order_of_time (pd ph pd' ph' : bool) (r1 r2 : reading) :
  well_formed r1 -> well_formed r2 -> earlier r1 r2 ->
  exists e1 e2,
    datetime_to_epoch (written pd ph r1) = Ok (Some e1) /\
    datetime_to_epoch (written pd' ph' r2) = Ok (Some e2) /\
    e1 < e2.
Proof.
  destruct r1 as [w1 m1 d1 y1 h1 mi1 s1 pm1].
  destruct r2 as [w2 m2 d2 y2 h2 mi2 s2 pm2].
  unfold well_formed, earlier, written, second_of_day.
  cbn [r_weekday r_month r_day r_year r_hour r_minute r_second r_pm].
  intros [Hy1 [Hd1 [Hh1 [Hmi1 Hs1]]]] [Hy2 [Hd2 [Hh2 [Hmi2 Hs2]]]] B.
  pose proof (days_in_month_range y1 m1).
  pose proof (days_in_month_range y2 m2).
  assert (U : all_blank (replace "UTC" EmptyString "UTC") = true)
    by reflexivity.
  assert (L1 : (d1 <=? days_in_month y1 (month_number m1)) = true)
    by (apply Z.leb_le; lia).
  assert (L2 : (d2 <=? days_in_month y2 (month_number m2)) = true)
    by (apply Z.leb_le; lia).
  rewrite !datetime_to_epoch_display by lia. rewrite U, L1, L2. cbn [andb].
  do 2 eexists. split; [reflexivity|]. split; [reflexivity|].
  pose proof (hour24_range h1 pm1 Hh1). pose proof (hour24_range h2 pm2 Hh2).
  unfold utc_seconds.
  assert (O : ymd2ord y1 (month_number m1) d1 < ymd2ord y2 (month_number m2) d2
              \/ ymd2ord y1 (month_number m1) d1
                 = ymd2ord y2 (month_number m2) d2
                 /\ hour24 h1 pm1 * 3600 + mi1 * 60 + s1
                    < hour24 h2 pm2 * 3600 + mi2 * 60 + s2).
  { destruct B as [B|[E [B|[E' [B|[E'' B]]]]]].
    - left. apply ymd2ord_increasing; try lia.
    - left. apply ymd2ord_increasing; try lia.
    - left. apply ymd2ord_increasing; try lia. right. split; [exact E|].
      right. split; assumption.
    - right. subst. split; [reflexivity|assumption]. }
  generalize dependent (ymd2ord y1 (month_number m1) d1).
  generalize dependent (ymd2ord y2 (month_number m2) d2).
  intros o2 o1 O. lia.
Qed.

(** X8 on 31 December 2023, 11:59:59 PM and 1 January 2024, 12:00:00 AM. *)
Lemma X8_order_of_time_witness :
  well_formed (mk_reading Sunday December 31 2023 11 59 59 true) /\
  well_formed (mk_reading Monday January 1 2024 12 0 0 false) /\
  earlier (mk_reading Sunday December 31 2023 11 59 59 true)
         (mk_reading Monday January 1 2024 12 0 0 false) /\
  exists e1 e2,
    datetime_to_epoch
      (written false false (mk_reading Sunday December 31 2023 11 59 59 true))
    = Ok (Some e1) /\
    datetime_to_epoch
      (written false true (mk_reading Monday January 1 2024 12 0 0 false))
    = Ok (Some e2) /\
    e1 < e2.
Proof.
  assert (W1 : well_formed (mk_reading Sunday December 31 2023 11 59 59 true))
    by (vm_compute; repeat split; discriminate).
  assert (W2 : well_formed (mk_reading Monday January 1 2024 12 0 0 false))
    by (vm_compute; repeat split; discriminate).
  assert (B : earlier (mk_reading Sunday December 31 2023 11 59 59 true)
                     (mk_reading Monday January 1 2024 12 0 0 false))
    by (left; reflexivity).
  split; [exact W1|]. split; [exact W2|]. split; [exact B|].
  exact (X8_order_of_time false false false true _ _ W1 W2 B).
Defined.

(** ** More on the roster lookup *)

Lemma before_slash (p : string) (s : string) :
  contains "/" p = false -> before "/" (p ++ String "/" s) = p.
Proof.
  induction p as [|c p IH]; intros H; [reflexivity|].
  cbn [contains startswith] in H.
  apply orb_false_iff in H. destruct H as [H1 H2].
  rewrite andb_true_r, Ascii.eqb_sym in H1.
  cbn [String.append before]. rewrite H1, IH by assumption. reflexivity.
Qed.

(** X9: the lookup uses nothing of a [message_id] but its part before the
    first slash: all the identifiers [p/...] of one group resolve to the
    same space name, that of [p]. *)
Theorem X9_same_group_same_name (membership_info : list Membership.t)
  (p a b : string) :
  contains "/" p = false ->
  get_space_name membership_info (p ++ String "/" a)
  = get_space_name membership_info (p ++ String "/" b) /\
  get_space_name membership_info (p ++ String "/" a)
  = Ok (find_group_name p membership_info).
Proof.
  intros H. rewrite !get_space_name_ok, !before_slash by assumption.
  now rewrite find_group_name_first_named.
Qed.

(** X9 on two identifiers of [spaceA]. *)
Lemma X9_same_group_same_name_witness :
  contains "/" "spaceA" = false /\
  get_space_name sample_roster ("spaceA" ++ String "/" "m1")
  = get_space_name sample_roster ("spaceA" ++ String "/" "m2/x") /\
  get_space_name sample_roster ("spaceA" ++ String "/" "m1")
  = Ok (find_group_name "spaceA" sample_roster).
Proof.
  split; [reflexivity|].
  apply (X9_same_group_same_name sample_roster "spaceA" "m1" "m2/x").
  reflexivity.
Defined.


(** ** [load] *)

Lemma process_dms_returns (messages : list Message.t) :
  process_dms messages = Ok (documents (process_dms messages)).
Proof.
  destruct (process_dms_documents messages) as [docs [E _]]. now rewrite E.
Qed.

Lemma process_spaces_returns (messages : list Message.t)
  (membership_info : list Membership.t) :
  process_spaces messages membership_info
  = Ok (documents (process_spaces messages membership_info)).
Proof.
  destruct (process_spaces_documents messages membership_info) as [docs [E _]].
  now rewrite E.
Qed.

Lemma for_loop_extend {A B : Type} (body : list B -> A -> outcome (list B))
  (g : A -> list B) (xs : list A) (acc : list B) :
  (forall acc x, body acc x = Ok (acc ++ g x)%list) ->
  for_loop xs body acc = Ok (acc ++ flat_map g xs)%list.
Proof.
  intros H. revert acc. induction xs as [|x xs IH]; intros acc; simpl.
  - now rewrite app_nil_r.
  - rewrite H. simpl. rewrite IH, app_assoc. reflexivity.
Qed.

Lemma flat_map_flat_map {A B : Type} (f : A -> list B) (ls : list (list A)) :
  flat_map (fun l => flat_map f l) ls = flat_map f (List.concat ls).
Proof.
  induction ls as [|l ls IH]; simpl; [reflexivity|].
  now rewrite flat_map_app, IH.
Qed.

Lemma load_loops (group_folder : folder) (user_info_path : string)
  (membership_info : list Membership.t) :
  load group_folder user_info_path membership_info
  = let docs := flat_map (folder_documents membership_info)
                  (List.concat (walk (truthy user_info_path) group_folder)) in
    Ok (str (len docs) ++ " threads successfully processed!", docs).
Proof.
  unfold load.
  rewrite (for_loop_extend _
             (fun dirs => flat_map (folder_documents membership_info) dirs)).
  - cbn [bind app]. now rewrite flat_map_flat_map.
  - intros acc dirs. apply for_loop_extend.
    intros acc' [dir_name [messages|] sub]; unfold folder_documents, treatment_of;
      [|now rewrite app_nil_r].
    destruct (contains "dm" (str_lower dir_name)).
    + now rewrite process_dms_returns.
    + destruct (contains "space" (str_lower dir_name)).
      * now rewrite process_spaces_returns.
      * now rewrite app_nil_r.
Qed.

Lemma folder_induction (P : folder -> Prop) :
  (forall dir_name messages_json dirs,
     Forall P dirs -> P (Folder dir_name messages_json dirs)) ->
  forall f, P f.
Proof.
  intros H. fix IH 1. intros [dir_name messages_json dirs]. apply H.
  induction dirs as [|d dirs IHdirs]; constructor; [apply IH|exact IHdirs].
Qed.

Lemma walk_topdown_below (top : folder) :
  List.concat (walk true top) = below top.
Proof.
  induction top as [dir_name messages_json dirs IH] using folder_induction.
  cbn [walk below List.concat]. f_equal.
  induction IH as [|d dirs Hd _ IHdirs]; [reflexivity|].
  cbn [flat_map]. now rewrite concat_app, Hd, IHdirs.
Qed.

Lemma str_lower_app (a b : string) :
  str_lower (a ++ b) = str_lower a ++ str_lower b.
Proof. induction a as [|c a IH]; simpl; [reflexivity|now rewrite IH]. Qed.

Lemma contains_after (needle a s : string) :
  startswith needle s = true -> contains needle (a ++ s) = true.
Proof.
  intros H. induction a as [|c a IH].
  - destruct s; simpl; now rewrite H.
  - cbn [String.append contains]. rewrite IH. apply orb_true_r.
Qed.

(** X11: the test for [dm] comes first and ignores case: a folder whose
    name contains d or D followed by m or M is chunked by [process_dms],
    also when its name contains [space] (a space called "Space Admins",
    an identifier with the letters dm in it). *)
Theorem X11_load_dm_first (top_name : string)
  (top_json : option (list Message.t)) (a b : string) (x y : ascii)
  (messages : list Message.t) (c : ascii) (user_info_path : string)
  (membership_info : list Membership.t) :
  x = "d"%char \/ x = "D"%char -> y = "m"%char \/ y = "M"%char ->
  load (Folder top_name top_json
          [Folder (a ++ String x (String y b)) (Some messages) []])
       (String c user_info_path) membership_info
  = (docs <- process_dms messages ;;
     Ok (str (len docs) ++ " threads successfully processed!", docs)).
Proof.
  intros Hx Hy. rewrite load_loops. cbn [truthy].
  rewrite walk_topdown_below. cbn [below flat_map app].
  rewrite app_nil_r. unfold folder_documents, treatment_of.
  rewrite str_lower_app, contains_after.
  - destruct (process_dms_documents messages) as [docs [E _]].
    rewrite E. reflexivity.
  - destruct Hx as [-> | ->]; destruct Hy as [-> | ->]; reflexivity.
Qed.

(** X11 on a folder called "Space Admins". *)
Lemma X11_load_dm_first_witness :
  ("d"%char = "d"%char \/ "d"%char = "D"%char) /\
  ("m"%char = "m"%char \/ "m"%char = "M"%char) /\
  load (Folder "Groups" None
          [Folder ("Space A" ++ String "d" (String "m" "ins"))
                  (Some team_messages) []])
       (String "u" "ser_info.json") sample_roster
  = (docs <- process_dms team_messages ;;
     Ok (str (len docs) ++ " threads successfully processed!", docs)).
Proof.
  split; [now left|]. split; [now left|].
  apply (X11_load_dm_first "Groups" None "Space A" "ins" "d" "m" team_messages
           "u" "ser_info.json" sample_roster); now left.
Defined.

Lemma flat_map_length {A B : Type} (f : A -> list B) (l : list A) :
  List.length (flat_map f l) = list_sum (map (fun x => List.length (f x)) l).
Proof.
  induction l as [|x l IH]; simpl; [reflexivity|].
  now rewrite length_app, IH.
Qed.

Lemma folder_documents_length (membership_info : list Membership.t)
  (subfolder : folder) :
  List.length (folder_documents membership_info subfolder)
  = folder_windows subfolder.
Proof.
  destruct subfolder as [dir_name [messages|] sub]; [|reflexivity].
  unfold folder_documents, folder_windows.
  destruct (treatment_of dir_name); [| |reflexivity].
  - destruct (process_dms_documents messages) as [docs [E F]]. rewrite E.
    apply Forall2_length in F. rewrite length_map, length_seq in F.
    cbn [documents]. now rewrite <- F.
  - destruct (process_spaces_documents messages membership_info)
      as [docs [E F]]. rewrite E.
    apply Forall2_length in F. rewrite length_map, length_seq in F.
    cbn [documents]. now rewrite <- F.
Qed.

(** X13: the number of threads [load] prints and returns is the sum, over
    the folders below the top one that hold a [messages.json] and are named
    as a DM or a space, of the number of windows of their messages, which
    is 0 for at most ten messages and [(length - 11) / 19 + 1] otherwise. *)
Theorem X13_load_count (group_folder : folder) (c : ascii)
  (user_info_path : string) (membership_info : list Membership.t) :
  exists docs,
    load group_folder (String c user_info_path) membership_info
    = Ok (str (len docs) ++ " threads successfully processed!", docs) /\
    List.length docs = list_sum (map folder_windows (below group_folder)) /\
    (forall messages : list Message.t,
       Z.of_nat (windows (len messages))
       = if len messages <=? 10 then 0 else (len messages - 11) / 19 + 1).
Proof.
  rewrite load_loops. cbn zeta. cbn [truthy].
  rewrite walk_topdown_below. eexists. split; [reflexivity|]. split.
  - rewrite flat_map_length. f_equal. apply map_ext.
    apply folder_documents_length.
  - intros messages. apply windows_count, len_nonneg.
Qed.

(** ** [load] on the files *)

Lemma raw_folder_induction (P : Raw.folder -> Prop) :
  (forall dir_name messages_json dirs,
     Forall P dirs -> P (Raw.Folder dir_name messages_json dirs)) ->
  forall f, P f.
Proof.
  intros H. fix IH 1. intros [dir_name messages_json dirs]. apply H.
  induction dirs as [|d dirs IHdirs]; constructor; [apply IH|exact IHdirs].
Qed.

Lemma raw_walk_topdown_below (top : Raw.folder) :
  List.concat (Raw.walk true top) = raw_below top.
Proof.
  induction top as [dir_name messages_json dirs IH] using raw_folder_induction.
  cbn [Raw.walk raw_below List.concat]. f_equal.
  induction IH as [|d dirs Hd _ IHdirs]; [reflexivity|].
  cbn [flat_map]. now rewrite concat_app, Hd, IHdirs.
Qed.

Lemma below_folder_of (top : Raw.folder) :
  below (folder_of top) = map folder_of (raw_below top).
Proof.
  induction top as [dir_name messages_json dirs IH] using raw_folder_induction.
  cbn [folder_of below raw_below]. rewrite map_app. f_equal.
  induction IH as [|d dirs Hd _ IHdirs]; [reflexivity|].
  cbn [map flat_map]. now rewrite map_app, Hd, IHdirs.
Qed.

Lemma for_loop_extend_in {A B : Type} (body : list B -> A -> outcome (list B))
  (g : A -> list B) (xs : list A) (acc : list B) :
  (forall acc x, In x xs -> body acc x = Ok (acc ++ g x)%list) ->
  for_loop xs body acc = Ok (acc ++ flat_map g xs)%list.
Proof.
  revert acc. induction xs as [|x xs IH]; intros acc H; simpl.
  - now rewrite app_nil_r.
  - rewrite H by now left. simpl. rewrite IH, app_assoc; [reflexivity|].
    intros; apply H; now right.
Qed.

Lemma map_flat_map_map {A B C D : Type} (f : C -> D) (g : B -> list C)
  (h : A -> B) (l : list A) :
  flat_map (fun x => map f (g (h x))) l = map f (flat_map g (map h l)).
Proof.
  induction l as [|x l IH]; simpl; [reflexivity|]. now rewrite map_app, IH.
Qed.

(** What [load] takes from a folder whose file is an export. *)
Lemma load_folder_refines (user_info_data : json) (subfolder : Raw.folder)
  (all_messages : list json) :
  is_roster user_info_data = true ->
  is_export_folder subfolder = true ->
  (let '(Raw.Folder dir_name messages_json _) := subfolder in
   match messages_json with
   | Some messages_file =>
       if contains "dm" (str_lower dir_name) then
         processed_data <- Raw.process_dms messages_file ;;
         Ok (all_messages ++ processed_data)%list
       else if contains "space" (str_lower dir_name) then
         processed_data <-
           Raw.process_spaces messages_file (Parsed user_info_data) ;;
         Ok (all_messages ++ processed_data)%list
       else Ok all_messages
   | None => Ok all_messages
   end)
  = Ok (all_messages
        ++ map document_json
             (folder_documents (roster_of user_info_data)
                (folder_of subfolder)))%list.
Proof.
  intros R. destruct subfolder as [dir_name [messages_file|] dirs];
    unfold is_export_folder, folder_documents, folder_of, treatment_of;
    cbn [option_map]; [|now rewrite app_nil_r].
  destruct (contains "dm" (str_lower dir_name)).
  - destruct messages_file as [e|data]; [discriminate|]. intros W.
    cbn [file_messages].
    destruct (process_dms_documents (messages_of data)) as [docs [E _]].
    rewrite (process_dms_refines data docs W E), E. reflexivity.
  - destruct (contains "space" (str_lower dir_name));
      [|now rewrite app_nil_r].
    destruct messages_file as [e|data]; [discriminate|]. intros W.
    cbn [file_messages].
    destruct (process_spaces_documents (messages_of data)
                (roster_of user_info_data)) as [docs [E _]].
    rewrite (process_spaces_refines data user_info_data docs W R E), E.
    reflexivity.
Qed.

Lemma len_map {A B : Type} (f : A -> B) (l : list A) : len (map f l) = len l.
Proof. unfold len. now rewrite length_map. Qed.

(** X10: when every [messages.json] that [load] reads is an export of the
    expected types and the file at the (non-empty) [user_info_path] a
    roster, [load] returns the concatenation of what the chunkers give for
    the folders strictly below the top folder, in the order of the walk:
    [process_dms] for a folder with a [messages.json] whose lower-cased name
    contains [dm], [process_spaces] for one whose name contains [space] and
    not [dm], nothing otherwise; the line printed carries the length of
    that list. *)
Theorem X10_load_concatenates (group_folder : Raw.folder) (c : ascii)
  (user_info_path : string) (user_info_data : json) :
  forallb is_export_folder (raw_below group_folder) = true ->
  is_roster user_info_data = true ->
  let docs :=
    flat_map (folder_documents (roster_of user_info_data))
             (below (folder_of group_folder)) in
  Raw.load group_folder (String c user_info_path) (Parsed user_info_data)
  = Ok (str (len docs) ++ " threads successfully processed!",
        map document_json docs).
Proof.
  intros W R docs. unfold Raw.load, Raw.open_user_info. cbn [truthy].
  rewrite forallb_forall, <- raw_walk_topdown_below in W.
  rewrite (for_loop_extend_in _
             (fun dirs =>
                flat_map (fun subfolder =>
                            map document_json
                              (folder_documents (roster_of user_info_data)
                                 (folder_of subfolder))) dirs)).
  - cbn [bind app]. rewrite flat_map_flat_map, raw_walk_topdown_below.
    rewrite map_flat_map_map, <- below_folder_of. fold docs.
    now rewrite len_map.
  - intros acc dirs Hd. apply for_loop_extend_in.
    intros acc' subfolder Hs. apply load_folder_refines; [exact R|].
    apply W. apply in_concat. eauto.
Qed.

(** X10 on the sample tree: two documents, the DM's before the space's. *)
Lemma X10_load_concatenates_witness :
  forallb is_export_folder (raw_below sample_tree) = true /\
  is_roster sample_user_info = true /\
  exists dm_doc space_doc,
    process_dms sample_messages = Ok [dm_doc] /\
    process_spaces team_messages sample_roster = Ok [space_doc] /\
    Raw.load sample_tree "user_info.json" (Parsed sample_user_info)
    = Ok ("2 threads successfully processed!",
          [document_json dm_doc; document_json space_doc]).
Proof.
  split; [reflexivity|]. split; [reflexivity|].
  do 2 eexists. split; [vm_compute; reflexivity|].
  split; [vm_compute; reflexivity|].
  rewrite (X10_load_concatenates sample_tree "u" "ser_info.json"
             sample_user_info eq_refl eq_refl).
  vm_compute. reflexivity.
Defined.

(** ** What [load] returns, on any files *)

Ltac bind_inv H :=
  match type of H with
  | bind ?m _ = Ok _ =>
      let E := fresh "E" in
      destruct m eqn:E; [cbn [bind] in H|discriminate H]
  end.

Lemma for_loop_invariant {A S : Type} (P : S -> Prop) (xs : list A)
  (body : S -> A -> outcome S) :
  (forall s x s', P s -> body s x = Ok s' -> P s') ->
  forall s r, P s -> for_loop xs body s = Ok r -> P r.
Proof.
  intros H. induction xs as [|x xs IH]; intros s r Hs; simpl.
  - now intros [= <-].
  - intros L. bind_inv L. eapply IH; [|exact L]. eapply H; eassumption.
Qed.

Lemma datetime_to_epoch_value (datetime_str unix_time : json) :
  Raw.datetime_to_epoch datetime_str = Ok unix_time ->
  unix_time = JNull \/ exists n, unix_time = JInt n.
Proof.
  unfold Raw.datetime_to_epoch.
  destruct (Raw.equal datetime_str (JStr "Unknown Date"));
    [intros [= <-]; now left|].
  destruct datetime_str as [| | |s| |]; cbn [bind]; try discriminate.
  destruct (strptime _ _) as [dt|[]]; cbn [bind]; try discriminate;
    intros [= <-]; eauto.
Qed.

Lemma dict_get_twice (v : json) (key : string) (sentinel : string)
  (message_id start_id : json) :
  Raw.dict_get v key (JStr sentinel) = Ok message_id ->
  Raw.dict_get v key (JStr EmptyString) = Ok start_id ->
  start_id = message_id \/
  message_id = JStr sentinel /\ start_id = JStr EmptyString.
Proof.
  destruct v as [| | | | |entries]; try discriminate. cbn [Raw.dict_get].
  destruct (Raw.entry key entries); intros [= <-] [= <-]; auto.
Qed.

Lemma window_appends (type : string) (name : json) (link : string)
  (messages : json) (result : list json) (i : Z) (result' : list json) :
  Raw.window type name link messages result i = Ok result' ->
  exists d, result' = (result ++ [d])%list /\ window_dict type name link d.
Proof.
  unfold Raw.window. intros H.
  bind_inv H. bind_inv H. bind_inv H. bind_inv H.
  cbn [bind] in H. bind_inv H. bind_inv H. bind_inv H. bind_inv H.
  injection H as <-. eexists. split; [reflexivity|].
  unfold window_dict. do 5 eexists. split; [reflexivity|].
  split; [eapply dict_get_twice; eassumption|].
  split; [eassumption|]. eapply datetime_to_epoch_value; eassumption.
Qed.

Lemma window_loop_dicts (type : string) (name : json) (link : string)
  (messages : json) (centers : list Z) (docs : list json) :
  for_loop centers (Raw.window type name link messages) [] = Ok docs ->
  Forall (window_dict type name link) docs.
Proof.
  apply (for_loop_invariant (Forall (window_dict type name link)));
    [|constructor].
  intros result i result' F H.
  destruct (window_appends _ _ _ _ _ _ _ H) as [d [-> Hd]].
  apply Forall_app. split; [assumption|]. now constructor.
Qed.

Lemma find_group_name_not_null (group_id_part : string) (items : list json)
  (space_name : json) :
  Raw.find_group_name group_id_part items = Ok space_name ->
  space_name <> JNull.
Proof.
  induction items as [|item items IH]; cbn [Raw.find_group_name].
  - intros [= <-]. discriminate.
  - intros H. bind_inv H. bind_inv H. destruct a0; [|auto].
    bind_inv H. destruct a0; [|auto]. bind_inv H.
    destruct a0; auto; injection H as <-; discriminate.
Qed.

Lemma process_spaces_dicts (file_path user_info_path : file)
  (docs : list json) :
  Raw.process_spaces file_path user_info_path = Ok docs ->
  exists space_name,
    space_name <> JNull /\
    Forall (window_dict "space" space_name "https://chat.google.com/room/")
      docs.
Proof.
  unfold Raw.process_spaces. intros H.
  bind_inv H. bind_inv H. bind_inv H. bind_inv H.
  exists a1. split; [|eapply window_loop_dicts; eassumption].
  destruct (Raw.truth a0).
  - bind_inv E1. bind_inv E1. unfold Raw.get_space_name in E1.
    bind_inv E1. bind_inv E1. bind_inv E1. bind_inv E1.
    eapply find_group_name_not_null; eassumption.
  - injection E1 as <-. discriminate.
Qed.

Lemma process_dms_dicts (file_path : file) (docs : list json) :
  Raw.process_dms file_path = Ok docs ->
  exists unique_names,
    Forall (window_dict "dm" (JList unique_names)
              "https://chat.google.com/dm/") docs.
Proof.
  unfold Raw.process_dms. intros H.
  bind_inv H. bind_inv H. bind_inv H. bind_inv H. bind_inv H.
  exists a2. eapply window_loop_dicts; eassumption.
Qed.

(** X12: whatever the files hold, when [load] returns (it raises what a
    chunker raises), the line printed carries the length of the list
    returned, and every item of the list is a dict with a ['metadata'] and
    a ['text']: the source is [chats]; the type is [dm] with a list as
    name and a [dm/] link, or [space] with a name that is not [None] and
    a [room/] link; the link ends in the document's [message_id] unless
    that is the sentinel [Unknown ID]; the [unix_time] is the conversion
    of the document's own [date], [None] or an integer. *)
Theorem X12_load_documents (group_folder : Raw.folder)
  (user_info_path : string) (user_info : file) (printed : string)
  (docs : list json) :
  Raw.load group_folder user_info_path user_info = Ok (printed, docs) ->
  printed = str (len docs) ++ " threads successfully processed!" /\
  Forall (fun d =>
            (exists unique_names,
               window_dict "dm" (JList unique_names)
                 "https://chat.google.com/dm/" d) \/
            (exists space_name,
               space_name <> JNull /\
               window_dict "space" space_name
                 "https://chat.google.com/room/" d))
    docs.
Proof.
  unfold Raw.load. intros H. bind_inv H. injection H as <- <-.
  split; [reflexivity|]. revert E.
  apply for_loop_invariant; [|constructor].
  intros all_messages dirs all_messages' F.
  apply for_loop_invariant; [|exact F].
  clear. intros all_messages [dir_name [messages_file|] dirs] all_messages' F;
    [|now intros [= <-]].
  destruct (contains "dm" (str_lower dir_name)).
  - intros H. bind_inv H. injection H as <-.
    apply Forall_app. split; [assumption|].
    destruct (process_dms_dicts _ _ E) as [unique_names D].
    refine (Forall_impl _ _ D). intros d Hd. left. eauto.
  - destruct (contains "space" (str_lower dir_name)); [|now intros [= <-]].
    intros H. bind_inv H. injection H as <-.
    apply Forall_app. split; [assumption|].
    destruct (process_spaces_dicts _ _ _ E) as [space_name [N D]].
    refine (Forall_impl _ _ D). intros d Hd. right. eauto.
Qed.

(** X12 on the sample tree. *)
Lemma X12_load_documents_witness :
  exists printed docs,
    Raw.load sample_tree "user_info.json" (Parsed sample_user_info)
    = Ok (printed, docs) /\
    List.length docs = 2%nat /\
    printed = str (len docs) ++ " threads successfully processed!" /\
    Forall (fun d =>
              (exists unique_names,
                 window_dict "dm" (JList unique_names)
                   "https://chat.google.com/dm/" d) \/
              (exists space_name,
                 space_name <> JNull /\
                 window_dict "space" space_name
                   "https://chat.google.com/room/" d))
      docs.
Proof.
  do 2 eexists. split; [vm_compute; reflexivity|]. split; [reflexivity|].
  eapply (X12_load_documents sample_tree "user_info.json"
            (Parsed sample_user_info)).
  vm_compute. reflexivity.
Defined.

(** ** What [load] does with a file it cannot chunk *)

Lemma for_loop_app {A S : Type} (xs ys : list A) (body : S -> A -> outcome S)
  (s : S) :
  for_loop (xs ++ ys) body s = (s' <- for_loop xs body s ;; for_loop ys body s').
Proof.
  revert s. induction xs as [|x xs IH]; intros s; simpl; [reflexivity|].
  destruct (body s x); simpl; [apply IH|reflexivity].
Qed.

(** X14: [load] handles no exception.  When the chunker raises on the
    [messages.json] of a DM folder directly under the top folder (the
    file cannot be read, is not JSON, or holds a field of another type),
    [load] raises the same exception and returns nothing, although the
    folders listed before it were chunked and those after it could be. *)
Theorem X14_load_propagates (top_name : string) (top_json : option file)
  (before after : list Raw.folder) (dir_name : string) (messages_file : file)
  (dirs : list Raw.folder) (e : exn) (c : ascii) (user_info_path : string)
  (user_info_data : json) :
  forallb is_export_folder before = true ->
  is_roster user_info_data = true ->
  contains "dm" (str_lower dir_name) = true ->
  Raw.process_dms messages_file = Raise e ->
  Raw.load
    (Raw.Folder top_name top_json
       (before ++ Raw.Folder dir_name (Some messages_file) dirs :: after))
    (String c user_info_path) (Parsed user_info_data)
  = Raise e.
Proof.
  intros W R D P. unfold Raw.load, Raw.open_user_info.
  cbn [truthy Raw.walk for_loop]. rewrite for_loop_app.
  rewrite (for_loop_extend_in _
             (fun subfolder =>
                map document_json
                  (folder_documents (roster_of user_info_data)
                     (folder_of subfolder)))).
  - cbn [bind for_loop]. rewrite D, P. reflexivity.
  - intros acc subfolder Hs. apply load_folder_refines; [exact R|].
    rewrite forallb_forall in W. now apply W.
Qed.

(** X14 on a tree whose second DM has a message with a [null] creator. *)
Lemma X14_load_propagates_witness :
  forallb is_export_folder
    [Raw.Folder "DM 1" (Some (Parsed sample_export)) []] = true /\
  is_roster sample_user_info = true /\
  contains "dm" (str_lower "DM 2") = true /\
  Raw.process_dms (Parsed (export [null_creator_message]))
  = Raise AttributeError /\
  Raw.load broken_tree "user_info.json" (Parsed sample_user_info)
  = Raise AttributeError.
Proof.
  split; [reflexivity|]. split; [reflexivity|]. split; [reflexivity|].
  split; [vm_compute; reflexivity|].
  apply (X14_load_propagates "Groups" None
           [Raw.Folder "DM 1" (Some (Parsed sample_export)) []]
           [Raw.Folder "Space 2"
              (Some (Parsed (export (map message_json team_messages)))) []]
           "DM 2" (Parsed (export [null_creator_message])) []
           AttributeError "u" "ser_info.json" sample_user_info);
    vm_compute; reflexivity.
Defined.

(** X15: the space chunker opens the user-info file as soon as the export
    has a first message that is a dict, before any window is built: when
    the file cannot be read it raises that error, also for an export too
    short to give a document; with no message at all the file is not
    opened. *)
Theorem X15_roster_is_opened (first : list (string * json))
  (messages : list json) (e : exn) :
  Raw.process_spaces (Parsed (export (JObj first :: messages)))
    (Unreadable e)
  = Raise e /\
  Raw.process_spaces (Parsed (export [])) (Unreadable e) = Ok [].
Proof.
  split; [|reflexivity].
  unfold Raw.process_spaces, export.
  cbn [Raw.json_load bind Raw.subscript Raw.entry String.eqb Ascii.eqb
       Bool.eqb Raw.truth Raw.index].
  change (getitem (JObj first :: messages) 0) with (@Ok json (JObj first)).
  cbn [bind Raw.dict_get].
  destruct (Raw.entry "message_id" first); reflexivity.
Qed.
